(** * menuize: a console menu tree, its pointer and its flat (de)serialisation

    A shallow embedding of [console/utilities.py], [console/node.py],
    [console/shell.py] and [console/pointer.py].

    The program is dynamically typed, so the embedding starts from a small
    universe of Python values ([pyval]) with the operators the code applies
    to them ([==], truthiness, [isinstance], iteration).  Exceptions are an
    explicit [result] type.  Menu trees handed to the pointer and to the
    flattening generator are an inductive type; the rebuild ([from_tuple]),
    which mutates nodes through references kept in the frame's [locals()],
    runs on an explicit object store.

    Python's [re] module is a collaborator of the program, not part of it:
    it enters as the interface [Regex]. *)

From Stdlib Require Import ZArith List String Ascii Bool Lia DecimalString.
From stdpp Require Import base list.
Import ListNotations.
Open Scope string_scope.
Open Scope list_scope.

Set Implicit Arguments.
#[global] Unset Elimination Schemes.

(** ** Python values *)

(** Classes the code names in [isinstance] / [varg] calls. *)
Inductive pytype :=
| TStr | TBool | TInt | TFloat | TList | TTuple | TPattern | TMenuNode | TMenuShell.

Definition pytype_eqb (a b : pytype) : bool :=
  match a, b with
  | TStr, TStr | TBool, TBool | TInt, TInt | TFloat, TFloat | TList, TList
  | TTuple, TTuple | TPattern, TPattern | TMenuNode, TMenuNode
  | TMenuShell, TMenuShell => true
  | _, _ => false
  end.

(** Classes of the objects held by reference: menu nodes, the shell, and
    the tuple handed to [from_tuple]. *)
Inductive pyclass := CMenuNode | CMenuShell | CTuple.

Definition class_is (c : pyclass) (t : pytype) : bool :=
  match c, t with
  | CMenuNode, TMenuNode | CMenuShell, TMenuShell | CTuple, TTuple => true
  | _, _ => false
  end.

Definition pyclass_eqb (c d : pyclass) : bool :=
  match c, d with
  | CMenuNode, CMenuNode | CMenuShell, CMenuShell | CTuple, CTuple => true
  | _, _ => false
  end.

(** [VPattern src] is a compiled [re.Pattern] with source [src]; [VObj c a] is
    a reference to the instance of class [c] living at address [a].  Floats
    are outside the universe. *)
Inductive pyval :=
| VNone
| VBool (b : bool)
| VInt (z : Z)
| VStr (s : string)
| VPattern (src : string)
| VList (l : list pyval)
| VObj (cls : pyclass) (addr : nat).

(** Python [a == b]. *)
Fixpoint py_eq (a b : pyval) {struct a} : bool :=
  match a, b with
  | VNone, VNone => true
  | VBool x, VBool y => Bool.eqb x y
  | VBool x, VInt y => Z.eqb (Z.b2z x) y
  | VInt x, VBool y => Z.eqb x (Z.b2z y)
  | VInt x, VInt y => Z.eqb x y
  | VStr x, VStr y => String.eqb x y
  | VPattern x, VPattern y => String.eqb x y
  | VList xs, VList ys =>
      (fix go (xs ys : list pyval) {struct xs} : bool :=
         match xs, ys with
         | [], [] => true
         | x :: xs', y :: ys' => py_eq x y && go xs' ys'
         | _, _ => false
         end) xs ys
  | VObj c i, VObj d j => pyclass_eqb c d && Nat.eqb i j
  | _, _ => false
  end.

(** [x in xs] for a Python list. *)
Definition py_in (x : pyval) (xs : list pyval) : bool := existsb (py_eq x) xs.

(** [x is None], [x is False]. *)
Definition is_None (v : pyval) : bool :=
  match v with VNone => true | _ => false end.
Definition is_False (v : pyval) : bool :=
  match v with VBool false => true | _ => false end.

(** Truth value of [v] in a condition. *)
Definition truthy (v : pyval) : bool :=
  match v with
  | VNone => false
  | VBool b => b
  | VInt z => negb (Z.eqb z 0)
  | VStr s => negb (String.eqb s "")
  | VPattern _ => true
  | VList l => match l with [] => false | _ => true end
  | VObj _ _ => true
  end.

Definition isinstance (v : pyval) (t : pytype) : bool :=
  match v, t with
  | VStr _, TStr => true
  | VBool _, TBool => true
  | VBool _, TInt => true
  | VInt _, TInt => true
  | VList _, TList => true
  | VPattern _, TPattern => true
  | VObj c _, _ => class_is c t
  | _, _ => false
  end.

(** ** Exceptions *)

Inductive pyerr :=
| TypeError
| ValueError (msg : string)
| AttributeError
| KeyError
| IndexError
| NotImplementedError
| IntegrityError
| CompositeError
| ReError.

Inductive result (A : Type) :=
| Ok (a : A)
| Raise (e : pyerr).
Arguments Ok {A} a.
Arguments Raise {A} e.

#[global] Instance result_ret : MRet result := fun A a => Ok a.
#[global] Instance result_bind : MBind result := fun A B k c =>
  match c with
  | Ok a => k a
  | Raise e => Raise e
  end.

(** [for x in xs: f(x)], stopping at the first exception. *)
Fixpoint for_each {A} (f : A -> result bool) (xs : list A) : result unit :=
  match xs with
  | [] => Ok tt
  | x :: rest => f x ;; for_each f rest
  end.

(** Iterating a value: lists give their elements, strings their characters,
    anything else is not iterable. *)
Fixpoint chars (s : string) : list pyval :=
  match s with
  | EmptyString => []
  | String c rest => VStr (String c EmptyString) :: chars rest
  end.

Definition py_iter (v : pyval) : result (list pyval) :=
  match v with
  | VList l => Ok l
  | VStr s => Ok (chars s)
  | _ => Raise TypeError
  end.

(** ** The [re] module, as an interface *)

Class Regex := {
  (** [re.compile(p)] succeeds on the pattern source [p] *)
  regex_valid : string -> bool;
  (** [re.match(p, s)] finds a match of [p] at the start of [s] *)
  regex_match : string -> string -> bool
}.

Section Menu.
Context `{RE : Regex}.

(** [re.compile(v)] does not raise. *)
Definition re_compiles (v : pyval) : bool :=
  match v with
  | VStr p => regex_valid p
  | VPattern _ => true
  | _ => false
  end.

(** [re.match(selector, input)], as a truth value. *)
Definition re_match (selector input : pyval) : result bool :=
  match selector, input with
  | VStr p, VStr s => if regex_valid p then Ok (regex_match p s) else Raise ReError
  | VPattern p, VStr s => Ok (regex_match p s)
  | _, _ => Raise TypeError
  end.

(** ** utilities.py *)

(** One round of the loop [for a in args] of [varg]. *)
Definition varg_step (input : pyval) (valid : bool) (a : pytype) : bool :=
  if pytype_eqb a TPattern
  then (if re_compiles input then true else valid)
  else (if isinstance input a then true else valid).

(** [varg(input, *args, varname=...)]. *)
Definition varg (input : pyval) (args : list pytype) (varname : pyval) : result bool :=
  if py_eq input VNone then Ok true
  else if negb (isinstance varname TStr || is_None varname) then Raise TypeError
  else
    let valid := fold_left (varg_step input) args false in
    if negb (py_eq varname VNone) && negb valid then Raise TypeError
    else Ok valid.

(** ** node.py *)

Inductive MenuNode := mkMenuNode {
  id : pyval;
  (** [None] here: the attribute [parent] has not been assigned yet *)
  parent : option pyval;
  mode : pyval;
  selection : pyval;
  run : pyval;
  children : list MenuNode
}.

Definition set_mode (self : MenuNode) (v : pyval) : MenuNode :=
  mkMenuNode (id self) (parent self) v (selection self) (run self) (children self).
Definition set_selection (self : MenuNode) (v : pyval) : MenuNode :=
  mkMenuNode (id self) (parent self) (mode self) v (run self) (children self).
Definition set_parent (self : MenuNode) (v : pyval) : MenuNode :=
  mkMenuNode (id self) (Some v) (mode self) (selection self) (run self) (children self).

(** Number of mode inputs that are neither [None] nor [False]. *)
Definition count_modes (truefalse choice pattern bounds : pyval) : nat :=
  length (filter (fun x => negb (is_None x) && negb (is_False x))
                 [truefalse; choice; pattern; bounds]).

Definition decimal (n : nat) : string := NilZero.string_of_uint (Nat.to_uint n).

(** In the words of the specification: a mode input is supplied when it is
    given a value other than [None] and [False], and the count of a call is
    the number of its four mode inputs that are supplied. *)
Definition supplied (x : pyval) : bool :=
  match x with
  | VNone | VBool false => false
  | _ => true
  end.

Definition supplied_count (truefalse choice pattern bounds : pyval) : nat :=
  Nat.b2n (supplied truefalse) + Nat.b2n (supplied choice)
  + Nat.b2n (supplied pattern) + Nat.b2n (supplied bounds).

Definition mode_count_message (opt : nat) : string :=
  String.append "Only single input mode option allowed. Arguments show "
    (String.append (decimal opt) " modes selected.").

(** The loop over [kwargs.items()]: only [mode] and [selection] are kept. *)
Definition apply_kwarg (self : MenuNode) (kv : string * pyval) : MenuNode :=
  if String.eqb (fst kv) "mode" then set_mode self (snd kv)
  else if String.eqb (fst kv) "selection" then set_selection self (snd kv)
  else self.

(** [MenuNode.__init__]. *)
Definition MenuNode_init (id_ truefalse choice pattern bounds run_ : pyval)
    (kwargs : list (string * pyval)) : result MenuNode :=
  varg id_ [TStr] (VStr "id") ;;
  varg truefalse [TBool] (VStr "truefalse") ;;
  varg choice [TList] (VStr "choice") ;;
  varg pattern [TList; TPattern] (VStr "pattern") ;;
  (if negb (py_eq choice VNone)
   then xs ← py_iter choice;
        for_each (fun x => varg x [TBool; TFloat; TInt; TStr] (VStr "choice")) xs
   else Ok tt) ;;
  (if isinstance pattern TList
   then xs ← py_iter pattern;
        for_each (fun x => varg x [TPattern] (VStr "pattern")) xs
   else Ok tt) ;;
  let opt := count_modes truefalse choice pattern bounds in
  if Nat.ltb 1 opt then Raise (ValueError (mode_count_message opt))
  else
    let self := mkMenuNode id_ None VNone VNone run_ [] in
    let self := fold_left apply_kwarg kwargs self in
    if truthy (selection self) && truthy (mode self) then Ok self
    else if negb (py_eq choice VNone) then
      Ok (set_mode (set_selection self choice) (VStr "choice"))
    else if negb (py_eq pattern VNone) then
      Ok (set_mode (set_selection self
                      (if isinstance pattern TStr then VList [pattern] else pattern))
                   (VStr "pattern"))
    else Ok (set_mode (set_selection self (VList [id_])) (VStr "id")).

(** [MenuNode(id)] with every other argument at its default. *)
Definition MenuNode_default (id_ : pyval) : result MenuNode :=
  MenuNode_init id_ (VBool false) VNone VNone VNone VNone [].

(** [name in kwargs], for a dictionary of keywords in insertion order. *)
Definition has_key (name : string) (kwargs : list (string * pyval)) : bool :=
  existsb (fun kv => String.eqb (fst kv) name) kwargs.

(** What a call with the keywords [kwargs] binds to the parameter [name] of [f]: the
    entry of that name, or the parameter's default. *)
Definition kwarg (name : string) (default : pyval) (kwargs : list (string * pyval))
  : pyval :=
  match List.find (fun kv => String.eqb (fst kv) name) kwargs with
  | Some kv => snd kv
  | None => default
  end.

(** The parameters of [__init__] a keyword can be bound to, [self] and [id]
    apart. *)
Definition init_params : list string :=
  ["truefalse"; "choice"; "pattern"; "bounds"; "run"].

(** [MenuNode(id, **kwargs)] for a dictionary [kwargs]: an entry named
    after a parameter of [__init__] is bound to that parameter, the other
    parameters take their defaults, and the remaining entries are the
    [**kwargs] of [__init__], in their order.  An entry named [self] or
    [id] collides with the two positional arguments: [TypeError]. *)
Definition MenuNode_call (id_ : pyval) (kwargs : list (string * pyval))
  : result MenuNode :=
  if has_key "self" kwargs || has_key "id" kwargs then Raise TypeError
  else
    MenuNode_init id_
      (kwarg "truefalse" (VBool false) kwargs)
      (kwarg "choice" VNone kwargs)
      (kwarg "pattern" VNone kwargs)
      (kwarg "bounds" VNone kwargs)
      (kwarg "run" VNone kwargs)
      (List.filter (fun kv => negb (existsb (String.eqb (fst kv)) init_params)) kwargs).

(** [_pack]: reading [self.parent] fails while the attribute is unset. *)
Definition _pack_fields (self : MenuNode) : result (pyval * pyval * pyval * pyval) :=
  match parent self with
  | Some p => Ok (id self, p, mode self, selection self)
  | None => Raise AttributeError
  end.

(** [add_child], on tree values: the child gets the identifier of [self] as
    its parent and goes to the end of the children. *)
Definition add_child (self child : MenuNode) : MenuNode :=
  mkMenuNode (id self) (parent self) (mode self) (selection self) (run self)
             (children self ++ [set_parent child (id self)]).

(** What the flattening generators yield: a packed 4-tuple, or (the last
    branch of [_rec_decompose_node]) a node object itself. *)
Inductive item :=
| Pack (id_ parent_ mode_ selection_ : pyval)
| NodeObj (n : MenuNode).

Definition _pack (self : MenuNode) : result item :=
  '(i, p, m, s) ← _pack_fields self; Ok (Pack i p m s).

(** A generator run to its end: the items yielded, and the exception that
    stopped it, if one did. *)
Record generated := mkGenerated {
  yielded : list item;
  raised : option pyerr
}.

Definition gen_done : generated := mkGenerated [] None.
Definition gen_raise (e : pyerr) : generated := mkGenerated [] (Some e).

(** [yield x] followed by the rest of the generator. *)
Definition gen_yield (x : item) (rest : generated) : generated :=
  mkGenerated (x :: yielded rest) (raised rest).

(** Running [g] and then, if it did not raise, [rest]. *)
Definition gen_then (g rest : generated) : generated :=
  match raised g with
  | Some e => g
  | None => mkGenerated (yielded g ++ yielded rest) (raised rest)
  end.

(** [_rec_decompose_node]. *)
Fixpoint _rec_decompose_node (node : MenuNode) : generated :=
  match node with
  | mkMenuNode _ _ _ _ _ [] => gen_yield (NodeObj node) gen_done
  | mkMenuNode _ _ _ _ _ cs =>
      (fix each (cs : list MenuNode) : generated :=
         match cs with
         | [] => gen_done
         | child :: rest =>
             match _pack child with
             | Raise e => gen_raise e
             | Ok p =>
                 gen_yield p
                   (gen_then
                      (match children child with
                       | [] => gen_done
                       | _ => _rec_decompose_node child
                       end)
                      (each rest))
             end
         end) cs
  end.

(** ** The [logging] module

    Calls to the module's functions leave a record; its level constants are
    integers, and calling one is a [TypeError]. *)

Inductive log_level := DEBUG | INFO | WARNING.

Inductive log_msg :=
| MsgRunningAgainst (child_id : pyval)
| MsgChildSelected (child_id input : pyval)
| MsgUnhandledMode (mode_ : pyval)
| MsgInvalidSelection (input : pyval)
| MsgReturned (node_id : pyval)
| MsgAtOrigin
| MsgEmptyShell.

Definition log_record : Type := log_level * log_msg.

Inductive logging_attr :=
| LoggingFunction (lvl : log_level)
| LoggingLevel (n : Z).

Definition logging_debug : logging_attr := LoggingFunction DEBUG.
Definition logging_info : logging_attr := LoggingFunction INFO.
Definition logging_warning : logging_attr := LoggingFunction WARNING.
Definition logging_WARNING : logging_attr := LoggingLevel 30.

(** [f(msg)] for an attribute [f] of [logging]. *)
Definition logging_call (f : logging_attr) (msg : log_msg) : result (list log_record) :=
  match f with
  | LoggingFunction lvl => Ok [(lvl, msg)]
  | LoggingLevel _ => Raise TypeError
  end.

(** ** shell.py: the container and the flattening *)

Record MenuShell := mkMenuShell { root : option MenuNode }.

(** A consumed [decompose_menu(menu)] with what it logged. *)
Record decomposed := mkDecomposed {
  records : generated;
  dlog : list log_record
}.

(** [decompose_menu], run to its end.  The argument is a shell, which
    [varg(menu, MenuShell, ...)] lets through.  A node defines neither
    [__bool__] nor [__len__], so [if menu.root] asks whether the root is
    set. *)
Definition decompose_menu (menu : MenuShell) : decomposed :=
  match root menu with
  | Some r =>
      match _pack r with
      | Raise e => mkDecomposed (gen_raise e) []
      | Ok p => mkDecomposed (gen_yield p (_rec_decompose_node r)) []
      end
  | None =>
      match logging_call logging_WARNING MsgEmptyShell with
      | Raise e => mkDecomposed (gen_raise e) []
      | Ok l => mkDecomposed gen_done l
      end
  end.

(** ** pointer.py *)

Record MenuPointer := mkMenuPointer {
  node : option MenuNode;
  shell : MenuShell;
  traceid : list MenuNode;
  tracecmd : list string
}.

(** [MenuPointer.__init__]. *)
Definition MenuPointer_init (sh : MenuShell) : MenuPointer :=
  mkMenuPointer (root sh) sh [] [].

(** A method call on a pointer: the pointer afterwards, the log records
    written, and the value returned or the exception raised. *)
Record outcome (A : Type) := mkOutcome {
  state : MenuPointer;
  logged : list log_record;
  returned : result A
}.

(** [l.pop()]. *)
Definition pop {A} (l : list A) : option (list A * A) :=
  match rev l with
  | [] => None
  | x :: r => Some (rev r, x)
  end.

(** [back]. *)
Definition back (self : MenuPointer) : outcome unit :=
  if Nat.ltb 0 (length (traceid self)) then
    match pop (traceid self) with
    | None => mkOutcome self [] (Raise IndexError)
    | Some (ids, prev) =>
        let self1 := mkMenuPointer (Some prev) (shell self) ids (tracecmd self) in
        match pop (tracecmd self) with
        | None => mkOutcome self1 [] (Raise IndexError)
        | Some (cmds, _) =>
            mkOutcome (mkMenuPointer (Some prev) (shell self) ids cmds)
                      [(DEBUG, MsgReturned (id prev))] (Ok tt)
        end
    end
  else mkOutcome self [(INFO, MsgAtOrigin)] (Ok tt).

(** [reset]. *)
Definition reset (self : MenuPointer) : MenuPointer :=
  MenuPointer_init (shell self).

(** [for selector in selection: if test(selector): ...]: whether some
    selector passes, tests running in order up to the first that does. *)
Fixpoint first_hit (test : pyval -> result bool) (sels : list pyval) : result bool :=
  match sels with
  | [] => Ok false
  | x :: rest =>
      match test x with
      | Raise e => Raise e
      | Ok true => Ok true
      | Ok false => first_hit test rest
      end
  end.

(** [str(input)] for what [varg(input, str, varname='input')] lets through:
    a string or [None]. *)
Definition str_token (input : pyval) : string :=
  match input with
  | VStr s => s
  | _ => "None"
  end.

(** The [match child.mode] of [select], with the loop over the selectors of
    the branch taken; [None] stands for the last case, which raises
    [NotImplementedError]. *)
Definition child_test (child : MenuNode) (input : pyval) : option (result bool) :=
  if py_eq (mode child) (VStr "id") || py_eq (mode child) (VStr "choice") then
    Some (sels ← py_iter (selection child);
          first_hit (fun selector => Ok (py_eq input selector)) sels)
  else if py_eq (mode child) (VStr "pattern") then
    Some (sels ← py_iter (selection child);
          first_hit (fun selector => re_match selector input) sels)
  else None.

(** The pointer after moving from [cur] to [child] on [input]. *)
Definition advance (self : MenuPointer) (cur child : MenuNode) (input : pyval)
  : MenuPointer :=
  mkMenuPointer (Some child) (shell self) (traceid self ++ [cur])
                (tracecmd self ++ [str_token input]).

(** The loop of [select] over [self.node.children]. *)
Fixpoint select_loop (self : MenuPointer) (cur : MenuNode) (input : pyval)
    (cs : list MenuNode) (log : list log_record) : outcome (option string) :=
  match cs with
  | [] => mkOutcome self (log ++ [(INFO, MsgInvalidSelection input)]) (Ok None)
  | child :: rest =>
      let log := log ++ [(DEBUG, MsgRunningAgainst (id child))] in
      match child_test child input with
      | None =>
          mkOutcome self (log ++ [(DEBUG, MsgUnhandledMode (mode child))])
                    (Raise NotImplementedError)
      | Some (Raise e) => mkOutcome self log (Raise e)
      | Some (Ok true) =>
          let self' := advance self cur child input in
          mkOutcome self' (log ++ [(DEBUG, MsgChildSelected (id child) input)])
                    (Ok (Some (String.concat "|" (tracecmd self'))))
      | Some (Ok false) => select_loop self cur input rest log
      end
  end.

(** [select]. *)
Definition select (self : MenuPointer) (input : pyval) : outcome (option string) :=
  match varg input [TStr] (VStr "input") with
  | Raise e => mkOutcome self [] (Raise e)
  | Ok _ =>
      match node self with
      | None => mkOutcome self [] (Raise AttributeError)
      | Some cur => select_loop self cur input (children cur) []
      end
  end.

(** ** shell.py: building a menu, on an object store

    [add_node] and [from_tuple] hand out references to nodes and later
    mutate the nodes behind them ([parent.add_child(node)]), so they run on
    a store of node objects addressed by position. *)

Record cell := mkCell {
  c_id : pyval;
  c_parent : option pyval;
  c_mode : pyval;
  c_selection : pyval;
  c_run : pyval;
  c_children : list nat
}.

(** The objects allocated so far and the [root] attribute of the shell. *)
Record world := mkWorld {
  heap : list cell;
  shell_root : option nat
}.

Definition empty_world : world := mkWorld [] None.

Definition cell_of (n : MenuNode) : cell :=
  mkCell (id n) (parent n) (mode n) (selection n) (run n) [].

Definition cell_set_parent (c : cell) (p : pyval) : cell :=
  mkCell (c_id c) (Some p) (c_mode c) (c_selection c) (c_run c) (c_children c).

Definition cell_append_child (c : cell) (a : nat) : cell :=
  mkCell (c_id c) (c_parent c) (c_mode c) (c_selection c) (c_run c)
         (c_children c ++ [a]).

(** [MenuShell.add_node(id, parent, **kwargs)]: the world afterwards and
    the address of the node returned.  [kwargs] is the dictionary of the
    keywords other than [id] and [parent], which [MenuNode(id, **kwargs)]
    takes as they are.  Past [varg], [parent] is [None] or a reference to a
    node; a reference always has its object in the store. *)
Definition add_node (w : world) (id_ parent_ : pyval)
    (kwargs : list (string * pyval)) : result (world * nat) :=
  varg id_ [TStr] (VStr "id") ;;
  varg parent_ [TMenuNode] (VStr "parent") ;;
  match MenuNode_call id_ kwargs with
  | Raise e => Raise e
  | Ok n =>
      let a := length (heap w) in
      let h := heap w ++ [cell_of n] in
      if py_eq id_ (VStr "root") then
        match shell_root w with
        | None => Ok (mkWorld (alter (fun c => cell_set_parent c VNone) a h) (Some a), a)
        | Some _ => Raise (ValueError "Root Node for MenuShell already exists.")
        end
      else
        match parent_ with
        | VObj CMenuNode pa =>
            match h !! pa with
            | Some pc =>
                let h := alter (fun c => cell_set_parent c (c_id pc)) a h in
                Ok (mkWorld (alter (fun c => cell_append_child c a) pa h)
                            (shell_root w), a)
            | None => Raise AttributeError
            end
        | _ => Raise AttributeError
        end
  end.

(** Reading a tree back from the store; [fuel] bounds the depth. *)
Fixpoint reify (fuel : nat) (h : list cell) (a : nat) : option MenuNode :=
  match fuel with
  | O => None
  | S fuel =>
      match h !! a with
      | None => None
      | Some c =>
          match mapM (reify fuel h) (c_children c) with
          | None => None
          | Some kids =>
              Some (mkMenuNode (c_id c) (c_parent c) (c_mode c) (c_selection c)
                               (c_run c) kids)
          end
      end
  end.

(** The shell a world holds. *)
Definition shell_of (w : world) : option MenuShell :=
  match shell_root w with
  | None => Some (mkMenuShell None)
  | Some a =>
      match reify (length (heap w)) (heap w) a with
      | Some t => Some (mkMenuShell (Some t))
      | None => None
      end
  end.

(** *** The frame of [from_tuple]

    [from_tuple] keeps the nodes it creates in the dictionary of its own
    frame: [locals()[id] = ...], read back with [locals()[parent]].  This is
    CPython up to 3.12: the dictionary is one object per frame, every call
    of [locals()] first copies the function's real variables into it (and
    drops those not bound), and entries written under other keys stay. *)

Definition local_names : list string :=
  ["obj"; "validate"; "val_list"; "n"; "id"; "parent"; "mode"; "selection"; "m"].

Definition is_local_name (k : pyval) : bool :=
  match k with
  | VStr s => existsb (String.eqb s) local_names
  | _ => false
  end.

(** The real variables of the frame inside the second loop. *)
Record frame := mkFrame {
  f_validate : bool;
  f_val_list : list pyval;
  f_n : nat;
  f_id : pyval;
  f_parent : pyval;
  f_mode : pyval;
  f_selection : pyval
}.

Fixpoint assoc (k : pyval) (d : list (pyval * nat)) : option nat :=
  match d with
  | [] => None
  | (k', a) :: rest => if py_eq k k' then Some a else assoc k rest
  end.

(** [locals()[key]]; [extra] holds the entries written by the loop, latest
    first. *)
Definition locals_get (f : frame) (extra : list (pyval * nat)) (key : pyval)
  : result pyval :=
  match key with
  | VList _ => Raise TypeError
  | _ =>
      if py_eq key (VStr "obj") then Ok (VObj CTuple 0)
      else if py_eq key (VStr "validate") then Ok (VBool (f_validate f))
      else if py_eq key (VStr "val_list") then
        (if f_validate f then Ok (VList (f_val_list f)) else Raise KeyError)
      else if py_eq key (VStr "n") then Ok (VInt (Z.of_nat (f_n f)))
      else if py_eq key (VStr "id") then Ok (f_id f)
      else if py_eq key (VStr "parent") then Ok (f_parent f)
      else if py_eq key (VStr "mode") then Ok (f_mode f)
      else if py_eq key (VStr "selection") then Ok (f_selection f)
      else if py_eq key (VStr "m") then Ok (VObj CMenuShell 0)
      else match assoc key extra with
           | Some a => Ok (VObj CMenuNode a)
           | None => Raise KeyError
           end
  end.

(** [locals()[key] = node]. *)
Definition locals_set (extra : list (pyval * nat)) (key : pyval) (a : nat)
  : result (list (pyval * nat)) :=
  match key with
  | VList _ => Raise TypeError
  | _ => Ok ((key, a) :: extra)
  end.

(** The validation loop of [from_tuple]; returns [val_list]. *)
Fixpoint validate_loop (n : nat) (val_list : list pyval) (obj : list item)
  : result (list pyval) :=
  match obj with
  | [] => Ok val_list
  | NodeObj _ :: _ => Raise TypeError
  | Pack id_ parent_ mode_ selection_ :: rest =>
      (if Nat.eqb n 0 && truthy parent_ then Raise IntegrityError
       else if Nat.ltb 0 n && negb (py_in id_ val_list) then Raise IntegrityError
       else Ok tt) ;;
      (if negb (isinstance id_ TStr) then Raise TypeError else Ok tt) ;;
      (if negb (py_in mode_ [VStr "id"; VStr "choice"; VStr "pattern"])
       then Raise CompositeError else Ok tt) ;;
      (if negb (isinstance selection_ TList) then Raise TypeError else Ok tt) ;;
      validate_loop (S n) (val_list ++ [id_]) rest
  end.

(** The building loop of [from_tuple]. *)
Fixpoint build_loop (validate : bool) (val_list : list pyval) (n : nat)
    (w : world) (extra : list (pyval * nat)) (obj : list item) : result world :=
  match obj with
  | [] => Ok w
  | NodeObj _ :: _ => Raise TypeError
  | Pack id_ parent_ mode_ selection_ :: rest =>
      let f := mkFrame validate val_list n id_ parent_ mode_ selection_ in
      match
        (if Nat.eqb n 0 then add_node w id_ VNone []
         else
           match locals_get f extra parent_ with
           | Raise e => Raise e
           | Ok p => add_node w id_ p [("mode", mode_); ("selection", selection_)]
           end)
      with
      | Raise e => Raise e
      | Ok (w', a) =>
          match locals_set extra id_ a with
          | Raise e => Raise e
          | Ok extra' => build_loop validate val_list (S n) w' extra' rest
          end
      end
  end.

(** [from_tuple(obj, validate)], for a tuple [obj] and a boolean
    [validate], the types its two [isinstance] checks ask for. *)
Definition from_tuple (obj : list item) (validate : bool) : result world :=
  match (if validate then validate_loop 0 [] obj else Ok []) with
  | Raise e => Raise e
  | Ok val_list => build_loop validate val_list 0 empty_world [] obj
  end.

(** ** The argument and data discipline, as predicates *)

(** What one listed type contributes to [valid] in [varg]. *)
Definition type_admits (input : pyval) (a : pytype) : bool :=
  if pytype_eqb a TPattern then re_compiles input else isinstance input a.

(** An entry of a [choice] list: a bool, an int, a string (floats are not
    in the universe), or [None]. *)
Definition choice_entry_ok (x : pyval) : bool :=
  match x with
  | VNone | VBool _ | VInt _ | VStr _ => true
  | _ => false
  end.

(** Arguments of [MenuNode(id, truefalse, choice, pattern, ...)] of the
    types the signature and the docstring ask for; each may be [None]. *)
Definition typed_inputs (id_ truefalse choice pattern : pyval) : bool :=
  (is_None id_ || isinstance id_ TStr)
  && (is_None truefalse || isinstance truefalse TBool)
  && match choice with
     | VNone => true
     | VList l => forallb choice_entry_ok l
     | _ => false
     end
  && match pattern with
     | VNone => true
     | VList l => forallb (fun x => is_None x || re_compiles x) l
     | _ => re_compiles pattern
     end.

(** A node as the data model has it: its selection is a list, its mode one
    of the three, and in pattern mode every entry compiles. *)
Definition node_ok (c : MenuNode) : bool :=
  match selection c with
  | VList sels =>
      py_eq (mode c) (VStr "id") || py_eq (mode c) (VStr "choice")
      || (py_eq (mode c) (VStr "pattern") && forallb re_compiles sels)
  | _ => false
  end.

(** The source of a pattern entry. *)
Definition pattern_src (p : pyval) : option string :=
  match p with
  | VStr src | VPattern src => Some src
  | _ => None
  end.

(** The selection rule in the words of the specification: in id or choice
    mode the token is one of the entries, in pattern mode one of the
    patterns matches it from its start. *)
Definition accepts (c : MenuNode) (s : string) : bool :=
  match selection c, mode c with
  | VList sels, VStr m =>
      if String.eqb m "id" || String.eqb m "choice" then
        existsb (fun x => match x with VStr t => String.eqb s t | _ => false end) sels
      else if String.eqb m "pattern" then
        existsb (fun p => match pattern_src p with
                          | Some src => regex_match src s
                          | None => false
                          end) sels
      else false
  | _, _ => false
  end.

(** The record [select] logs when it turns to a child. *)
Definition running (d : MenuNode) : log_record := (DEBUG, MsgRunningAgainst (id d)).

(** The proper descendants of a node, in pre-order; with the node in front,
    the nodes of its tree. *)
Fixpoint descendants (n : MenuNode) : list MenuNode :=
  match n with
  | mkMenuNode _ _ _ _ _ cs =>
      (fix each (cs : list MenuNode) : list MenuNode :=
         match cs with
         | [] => []
         | c :: rest => c :: descendants c ++ each rest
         end) cs
  end.

Definition preorder (n : MenuNode) : list MenuNode := n :: descendants n.

(** The 4-tuple of a node whose parent attribute is set. *)
Definition pack_of (n : MenuNode) : item :=
  Pack (id n) (default VNone (parent n)) (mode n) (selection n).

Definition parent_set (n : MenuNode) : bool :=
  match parent n with Some _ => true | None => false end.

(** ** Menus that a rebuild gives back

    [from_tuple] re-creates the first record as a plain [add_node(id)] and
    the others through the pass-through of [MenuNode]; it resolves parents
    by name in its frame.  The predicates below say when this gives back
    the menu that was flattened. *)

(** The attribute [run] is not part of a record: the nodes of a rebuilt menu
    have [run = None]. *)
Fixpoint erase_run (n : MenuNode) : MenuNode :=
  match n with
  | mkMenuNode i p m s _ cs => mkMenuNode i p m s VNone (map erase_run cs)
  end.

Definition parent_is (c : MenuNode) (p : pyval) : bool :=
  match parent c with
  | Some q => py_eq q p
  | None => false
  end.

(** The root as [add_node('root')] makes it. *)
Definition root_ok (t : MenuNode) : bool :=
  py_eq (id t) (VStr "root")
  && parent_is t VNone
  && py_eq (mode t) (VStr "id")
  && py_eq (selection t) (VList [VStr "root"])
  && match children t with [] => false | _ => true end.

(** An identifier [add_node] accepts for a node below the root and that the
    frame of [from_tuple] can hold under that name. *)
Definition id_ok (d : MenuNode) : bool :=
  (is_None (id d) || isinstance (id d) TStr)
  && negb (py_eq (id d) (VStr "root"))
  && negb (is_local_name (id d)).

(** Mode and selection are taken as they are by the pass-through. *)
Definition passes_through (d : MenuNode) : bool :=
  truthy (selection d) && truthy (mode d).

(** Every child names its parent's identifier as its parent. *)
Fixpoint linked (n : MenuNode) : bool :=
  match n with
  | mkMenuNode i _ _ _ _ cs =>
      forallb (fun c => parent_is c i && linked c) cs
  end.

(** No identifier of the list equals (in the sense of [==]) a later one. *)
Fixpoint nodup_ids (l : list pyval) : bool :=
  match l with
  | [] => true
  | x :: rest => negb (py_in x rest) && nodup_ids rest
  end.

Definition rebuildable (t : MenuNode) : bool :=
  root_ok t
  && forallb (fun d => id_ok d && passes_through d) (descendants t)
  && linked t
  && nodup_ids (map id (preorder t)).

(** *** The store a rebuild leaves

    Nodes are allocated in the order of the records: the node at position
    [i] of the pre-order lives at address [i]. *)

(** Addresses of the roots of a forest laid out from [base]. *)
Fixpoint child_addrs (base : nat) (cs : list MenuNode) : list nat :=
  match cs with
  | [] => []
  | c :: rest => base :: child_addrs (base + length (preorder c)) rest
  end.

(** The finished object of node [d] at address [a]. *)
Definition cell_at (a : nat) (d : MenuNode) : cell :=
  mkCell (id d) (parent d) (mode d) (selection d) VNone
         (child_addrs (S a) (children d)).

Fixpoint layout (base : nat) (l : list MenuNode) : list cell :=
  match l with
  | [] => []
  | d :: rest => cell_at base d :: layout (S base) rest
  end.

(** The entries the loop leaves in the frame, latest first. *)
Fixpoint bindings (base : nat) (l : list MenuNode) : list (pyval * nat) :=
  match l with
  | [] => []
  | d :: rest => bindings (S base) rest ++ [(id d, base)]
  end.

Definition cell_append_children (l : list nat) (c : cell) : cell :=
  mkCell (c_id c) (c_parent c) (c_mode c) (c_selection c) (c_run c)
         (c_children c ++ l).

(** A subtree [c] hanging below a node with identifier [pid], and a forest
    of such subtrees, fit for the rebuild. *)
Definition node_fit (d : MenuNode) : bool := id_ok d && passes_through d.

Definition subtree_ok (pid : pyval) (c : MenuNode) : bool :=
  forallb node_fit (preorder c)
  && (parent_is c pid && linked c)
  && nodup_ids (pid :: map id (preorder c)).

Definition forest_ok (pid : pyval) (cs : list MenuNode) : bool :=
  forallb node_fit (flat_map preorder cs)
  && forallb (fun c => parent_is c pid && linked c) cs
  && nodup_ids (pid :: map id (flat_map preorder cs)).

(** A key of the frame: an identifier that is not one of its variables. *)
Definition key_ok (k : pyval) : bool :=
  (is_None k || isinstance k TStr) && negb (is_local_name k).

(** ** What the loops establish, one subtree at a time *)

(** The loop [for child in node.children] of [_rec_decompose_node]. *)
Definition decompose_each (cs : list MenuNode) : generated :=
  fold_right
    (fun child rest =>
       match _pack child with
       | Raise e => gen_raise e
       | Ok p =>
           gen_yield p
             (gen_then
                (match children child with
                 | [] => gen_done
                 | _ => _rec_decompose_node child
                 end)
                rest)
       end)
    gen_done cs.

(** What the loop does with one child: its record, then those of its
    descendants, then the remaining children. *)
Definition flattens (c : MenuNode) : Prop :=
  forallb parent_set (preorder c) = true ->
  forall cs, decompose_each (c :: cs)
             = gen_then (mkGenerated (map pack_of (preorder c)) None)
                        (decompose_each cs).

(** The loop on the records of the subtree [c], met with the object of the
    parent [pid] at address [pa]: it allocates the nodes of [c] in
    pre-order from the end of the store, appends the address of [c] to the
    children of [pa], and leaves one frame entry per node. *)
Definition builds (c : MenuNode) : Prop :=
  forall (h : list cell) (r : option nat) (extra : list (pyval * nat)) (n : nat)
         (pid : pyval) (pa : nat) (pc : cell) (rest : list item),
    n <> 0 ->
    key_ok pid = true ->
    subtree_ok pid c = true ->
    assoc pid extra = Some pa ->
    h !! pa = Some pc ->
    c_id pc = pid ->
    build_loop false [] n (mkWorld h r) extra (map pack_of (preorder c) ++ rest)
    = build_loop false [] (n + length (preorder c))
        (mkWorld (alter (cell_append_children [length h]) pa h
                  ++ layout (length h) (preorder c)) r)
        (bindings (length h) (preorder c) ++ extra) rest.

(** The store [H] holds the finished objects of the nodes [l] from address
    [base] on. *)
Definition holds (H : list cell) (base : nat) (l : list MenuNode) : Prop :=
  forall i d, l !! i = Some d -> H !! (base + i) = Some (cell_at (base + i) d).

(** Reading back the subtree [c] laid out from [base]. *)
Definition reads_back (c : MenuNode) : Prop :=
  forall (H : list cell) (base fuel : nat),
    holds H base (preorder c) ->
    length (preorder c) <= fuel ->
    reify fuel H base = Some (erase_run c).

End Menu.

(** ** Concrete menus *)

Definition lone_root : MenuNode :=
  mkMenuNode (VStr "root") (Some VNone) (VStr "id") (VList [VStr "root"]) VNone [].

(** A menu with a choice, a pattern and a plain child. *)
Definition menu_ask : MenuNode :=
  mkMenuNode (VStr "ask") (Some (VStr "root")) (VStr "choice")
             (VList [VStr "yes"; VStr "no"]) VNone
    [ mkMenuNode (VStr "sure") (Some (VStr "ask")) (VStr "id")
                 (VList [VStr "sure"]) VNone [] ].

Definition menu_file : MenuNode :=
  mkMenuNode (VStr "file") (Some (VStr "root")) (VStr "pattern")
             (VList [VStr "f-"]) VNone [].

Definition menu_quit : MenuNode :=
  mkMenuNode (VStr "quit") (Some (VStr "root")) (VStr "id")
             (VList [VStr "quit"]) VNone [].

Definition menu_root : MenuNode :=
  mkMenuNode (VStr "root") (Some VNone) (VStr "id") (VList [VStr "root"]) VNone
             [menu_ask; menu_file; menu_quit].

Definition menu_pointer : MenuPointer :=
  MenuPointer_init (mkMenuShell (Some menu_root)).

(** A toy matcher to run the definitions on: the pattern is a literal. *)
Definition literal_regex : Regex :=
  {| regex_valid := fun _ => true;
     regex_match := fun p s => String.prefix p s |}.

(** A node [roll] can list: two plain children around a choice. *)
Definition menu_listed : MenuNode :=
  mkMenuNode (VStr "root") (Some VNone) (VStr "id") (VList [VStr "root"]) VNone
             [menu_quit; menu_ask;
              mkMenuNode (VStr "help") (Some (VStr "root")) (VStr "id")
                         (VList [VStr "help"]) VNone []].

Definition root_world : world :=
  mkWorld [mkCell (VStr "root") (Some VNone) (VStr "id") (VList [VStr "root"]) VNone []]
          (Some 0).

Definition root_world_a : world :=
  mkWorld [mkCell (VStr "root") (Some VNone) (VStr "id") (VList [VStr "root"]) VNone [1];
           mkCell (VStr "a") (Some (VStr "root")) (VStr "id") (VList [VStr "a"]) VNone []]
          (Some 0).

(** * The rest of the modules

    [roll] of the pointer, [menu_tree], [to_pkl] and [from_pkl] of the
    shell, and runs of pointer operations.  [pickle] and the file system
    are collaborators: [to_pkl] is modelled up to the object it dumps and
    the path it dumps it to, [from_pkl] takes the reading of a file as a
    function.  The read loop [run] ([input], prompts, [os.system]) and
    [__repr__] are not modelled. *)

Section MenuMore.
Context `{RE : Regex}.

(** ** pointer.py: [roll] *)

(** A dictionary from modes to lists, in insertion order. *)
Definition dict : Type := list (pyval * list pyval).

Definition hashable (v : pyval) : bool :=
  match v with
  | VList _ => false
  | _ => true
  end.

Fixpoint dict_get (k : pyval) (d : dict) : option (list pyval) :=
  match d with
  | [] => None
  | (k', v) :: rest => if py_eq k k' then Some v else dict_get k rest
  end.

(** [d[k] = v]: in place when the key is there, at the end otherwise. *)
Fixpoint dict_set (k : pyval) (v : list pyval) (d : dict) : dict :=
  match d with
  | [] => [(k, v)]
  | (k', v') :: rest =>
      if py_eq k k' then (k', v) :: rest else (k', v') :: dict_set k v rest
  end.

(** [v[0]]. *)
Definition py_index0 (v : pyval) : result pyval :=
  match v with
  | VList (x :: _) => Ok x
  | VList [] => Raise IndexError
  | VStr (String c _) => Ok (VStr (String c EmptyString))
  | VStr EmptyString => Raise IndexError
  | _ => Raise TypeError
  end.

(** What [roll] and its callers write with [print]. *)
Inductive stdout_line :=
| PrintUnhandled
| PrintEntry (key : pyval) (value : list pyval).

Record rolled := mkRolled {
  printed : list stdout_line;
  roll_result : result dict
}.

(** The loop of [roll] over the children, [dlist] being [d]. *)
Fixpoint roll_loop (cs : list MenuNode) (d : dict) : rolled :=
  match cs with
  | [] => mkRolled [] (Ok d)
  | child :: rest =>
      if negb (hashable (mode child)) then mkRolled [] (Raise TypeError)
      else
        let d := match dict_get (mode child) d with
                 | None => dict_set (mode child) [] d
                 | Some _ => d
                 end in
        let cur := default [] (dict_get (mode child) d) in
        if py_eq (mode child) (VStr "id") then
          match py_index0 (selection child) with
          | Raise e => mkRolled [] (Raise e)
          | Ok x => roll_loop rest (dict_set (mode child) (cur ++ [x]) d)
          end
        else if py_eq (mode child) (VStr "choice") then
          match selection child with
          | VList l => roll_loop rest (dict_set (mode child) (cur ++ l) d)
          | _ => mkRolled [] (Raise TypeError)
          end
        else mkRolled [PrintUnhandled] (Raise NotImplementedError)
  end.

(** [roll(echo)]; it reads the pointer and assigns nothing to it. *)
Definition roll (self : MenuPointer) (echo : bool) : rolled :=
  match node self with
  | None => mkRolled [] (Raise AttributeError)
  | Some cur =>
      let r := roll_loop (children cur) [] in
      match roll_result r with
      | Raise e => r
      | Ok d =>
          mkRolled (printed r ++ (if echo then map (fun kv => PrintEntry (fst kv) (snd kv)) d
                                  else []))
                   (Ok d)
      end
  end.

(** A child [roll] can list: id mode with a first selector, or choice mode
    with a list. *)
Definition listable (c : MenuNode) : bool :=
  match mode c, selection c with
  | VStr m, VList l =>
      (String.eqb m "id" && match l with [] => false | _ => true end)
      || String.eqb m "choice"
  | _, _ => false
  end.

(** What the children of mode [m] put under the key [m]. *)
Definition listed (m : string) (c : MenuNode) : list pyval :=
  match mode c, selection c with
  | VStr m', VList l =>
      if String.eqb m' m then
        (if String.eqb m "id" then firstn 1 l else l)
      else []
  | _, _ => []
  end.

Definition has_mode (m : string) (c : MenuNode) : bool := py_eq (mode c) (VStr m).

(** ** pointer.py: runs of operations *)

Inductive pointer_op :=
| OpSelect (input : pyval)
| OpBack
| OpReset.

Definition apply_op (self : MenuPointer) (o : pointer_op) : MenuPointer :=
  match o with
  | OpSelect input => state (select self input)
  | OpBack => state (back self)
  | OpReset => reset self
  end.

Definition run_ops (self : MenuPointer) (ops : list pointer_op) : MenuPointer :=
  fold_left apply_op ops self.

(** Selections in a row, each of which advances. *)
Fixpoint select_all (self : MenuPointer) (tokens : list pyval) : option MenuPointer :=
  match tokens with
  | [] => Some self
  | t :: rest =>
      match returned (select self t) with
      | Ok (Some _) => select_all (state (select self t)) rest
      | _ => None
      end
  end.

(** [hist] is a path from [r] down the tree, [cur] below its last node (or
    [r] itself when [hist] is empty). *)
#[local] Set Elimination Schemes.
Inductive path_from (r : MenuNode) : list MenuNode -> MenuNode -> Prop :=
| path_root : path_from r [] r
| path_step (hist : list MenuNode) (p c : MenuNode) :
    path_from r hist p -> In c (children p) -> path_from r (hist ++ [p]) c.
#[local] Unset Elimination Schemes.

(** ** shell.py: [menu_tree] *)

(** [_recursive_tree]. *)
Fixpoint _recursive_tree (n : MenuNode) : pyval :=
  match n with
  | mkMenuNode i _ _ _ _ [] => i
  | mkMenuNode i _ _ _ _ cs => VList [i; VList (map _recursive_tree cs)]
  end.

(** The one message of [menu_tree]. *)
Inductive tree_msg := MsgNoMenuTree.

(** [menu_tree]: the value returned and the log record written. *)
Definition menu_tree (menu : MenuShell) : pyval * list (log_level * tree_msg) :=
  match root menu with
  | None => (VNone, [(INFO, MsgNoMenuTree)])
  | Some r => (_recursive_tree r, [])
  end.

(** Identifiers with their nesting. *)
Inductive idtree := IdNode (i : pyval) (kids : list idtree).

Fixpoint ids_of (n : MenuNode) : idtree :=
  match n with
  | mkMenuNode i _ _ _ _ cs => IdNode i (map ids_of cs)
  end.

(** Reading a nested view: a two-element list whose second element is a
    list is an inner node, anything else a leaf. *)
Fixpoint read_view (v : pyval) : idtree :=
  match v with
  | VList [i; VList kids] => IdNode i (map read_view kids)
  | _ => IdNode v []
  end.

(** An identifier that is not a list, as every identifier [add_node] lets
    through is. *)
Definition plain_id (n : MenuNode) : bool :=
  match id n with
  | VList _ => false
  | _ => true
  end.

(** ** shell.py: [to_pkl] and [from_pkl] *)

Fixpoint has_dot (s : string) : bool :=
  match s with
  | EmptyString => false
  | String c rest => Ascii.eqb c "."%char || has_dot rest
  end.

(** [s.rsplit('.', 1)[-1]]: what follows the last dot, or all of [s]. *)
Fixpoint ext_of (s : string) : string :=
  match s with
  | EmptyString => EmptyString
  | String c rest =>
      if has_dot rest then ext_of rest
      else if Ascii.eqb c "."%char then rest
      else s
  end.

Definition filetype_message (ext : string) : string :=
  String.append "Invalid filetype given. Expected pickle-equivalent, got "
                (String.append ext ".").

(** The checks [to_pkl] and [from_pkl] start with. *)
Definition check_filepath (filepath : pyval) : result unit :=
  varg filepath [TStr] (VStr "filepath") ;;
  match filepath with
  | VStr s =>
      if String.eqb (ext_of s) "pkl" || String.eqb (ext_of s) "pickle" then Ok tt
      else Raise (ValueError (filetype_message (ext_of s)))
  | _ => Ok tt
  end.

(** [tuple(g)]. *)
Definition tuple_of (g : generated) : result (list item) :=
  match raised g with
  | Some e => Raise e
  | None => Ok (yielded g)
  end.

(** [to_pkl(filepath)]: the path opened for writing and the tuple dumped. *)
Definition to_pkl (self : MenuShell) (filepath : pyval) : result (string * list item) :=
  check_filepath filepath ;;
  match (if truthy filepath then
           match filepath with VStr s => Ok s | _ => Raise TypeError end
         else
           match root self with
           | None => Raise AttributeError
           | Some r =>
               match id r with
               | VStr i => Ok (String.append i ".pkl")
               | _ => Raise TypeError
               end
           end)
  with
  | Raise e => Raise e
  | Ok path =>
      match tuple_of (records (decompose_menu self)) with
      | Raise e => Raise e
      | Ok mx => Ok (path, mx)
      end
  end.

(** [from_pkl(filepath)], [load_file] being [open] and [pickle.load]. *)
Definition from_pkl (load_file : string -> result (list item)) (filepath : pyval)
  : result world :=
  check_filepath filepath ;;
  match filepath with
  | VStr s =>
      match load_file s with
      | Raise e => Raise e
      | Ok mi => from_tuple mi false
      end
  | _ => Raise TypeError
  end.

(** What holds of a pointer on the shell [sh] with root [r]. *)
Definition on_path (sh : MenuShell) (r : MenuNode) (p : MenuPointer) : Prop :=
  shell p = sh
  /\ length (tracecmd p) = length (traceid p)
  /\ exists cur, node p = Some cur /\ path_from r (traceid p) cur.

(** The object [c'] is [c] with, at most, more children at the end. *)
Definition cell_grown (c c' : cell) : Prop :=
  c_id c' = c_id c /\ c_parent c' = c_parent c /\ c_mode c' = c_mode c
  /\ c_selection c' = c_selection c /\ c_run c' = c_run c
  /\ exists more, c_children c' = c_children c ++ more.

(** The two file types taken. *)
Definition pickle_ext (e : string) : bool := String.eqb e "pkl" || String.eqb e "pickle".

(** The path [to_pkl] writes to. *)
Definition dump_path (fp : pyval) (root_id : string) : string :=
  match fp with
  | VStr s0 => s0
  | _ => String.append root_id ".pkl"
  end.

End MenuMore.

(** * Properties *)

Section Properties.
Context `{RE : Regex}.

(** Induction on menu trees: the children of a node come with the property. *)
Fixpoint MenuNode_tree_ind (P : MenuNode -> Prop)
    (step : forall n, Forall P (children n) -> P n) (n : MenuNode) : P n :=
  step n
    (match n return Forall P (children n) with
     | mkMenuNode _ _ _ _ _ cs =>
         (fix all (cs : list MenuNode) : Forall P cs :=
            match cs with
            | [] => @List.Forall_nil _ P
            | c :: rest => @List.Forall_cons _ P c rest (MenuNode_tree_ind step c) (all rest)
            end) cs
     end).

(** ** Validation of arguments *)

Lemma varg_fold input args acc :
  fold_left (varg_step input) args acc = acc || existsb (type_admits input) args.
Proof.
  revert acc. induction args as [|a args IH]; intros acc; simpl.
  - now rewrite orb_false_r.
  - rewrite IH. unfold varg_step, type_admits.
    destruct (pytype_eqb a TPattern), (re_compiles input), (isinstance input a), acc;
      reflexivity.
Qed.

Lemma varg_None args varname : varg VNone args varname = Ok true.
Proof. reflexivity. Qed.

Lemma varg_admitted input args name :
  existsb (type_admits input) args = true ->
  varg input args (VStr name) = Ok true.
Proof.
  intros H. unfold varg.
  destruct (py_eq input VNone); [reflexivity|].
  rewrite varg_fold, H. reflexivity.
Qed.

Lemma varg_None_or_admitted input args name :
  is_None input || existsb (type_admits input) args = true ->
  varg input args (VStr name) = Ok true.
Proof.
  intros H. apply orb_true_iff in H as [H|H].
  - destruct input; try discriminate. reflexivity.
  - apply varg_admitted, H.
Qed.

(** With a name given, [varg] lets through exactly [None] and the values one
    of the listed types admits. *)
Lemma varg_named_inv input args name b :
  varg input args (VStr name) = Ok b ->
  b = true /\ (input = VNone \/ existsb (type_admits input) args = true).
Proof.
  unfold varg. destruct (py_eq input VNone) eqn:E.
  - intros [= <-]. split; [reflexivity|]. left.
    destruct input; try discriminate; reflexivity.
  - rewrite varg_fold. simpl.
    destruct (existsb (type_admits input) args); simpl; [|discriminate].
    intros [= <-]. auto.
Qed.

Lemma for_each_ok {A} (f : A -> result bool) xs :
  Forall (fun x => f x = Ok true) xs -> for_each f xs = Ok tt.
Proof.
  induction 1 as [|x xs Hx _ IH]; simpl; [reflexivity|].
  rewrite Hx. simpl. exact IH.
Qed.

(** C10.  [varg] answers [True] for [None] whatever types are expected and
    whatever name is given, without raising; so [MenuNode(None)] constructs
    a node with identifier [None], mode id and selection [[None]], so does
    a call passing [None] for every validated argument, and [select(None)]
    is taken as an input like any other. *)
Theorem varg_None_bypass (args : list pytype) (varname : pyval) :
  varg VNone args varname = Ok true
  /\ MenuNode_default VNone
     = Ok (mkMenuNode VNone None (VStr "id") (VList [VNone]) VNone [])
  /\ MenuNode_init VNone VNone VNone VNone VNone VNone []
     = Ok (mkMenuNode VNone None (VStr "id") (VList [VNone]) VNone [])
  /\ select (MenuPointer_init (mkMenuShell (Some lone_root))) VNone
     = mkOutcome (MenuPointer_init (mkMenuShell (Some lone_root)))
                 [(INFO, MsgInvalidSelection VNone)] (Ok None).
Proof. repeat split. Qed.

(** ** Construction of nodes *)

Lemma typed_inputs_validated id_ truefalse choice pattern :
  typed_inputs id_ truefalse choice pattern = true ->
  varg id_ [TStr] (VStr "id") = Ok true
  /\ varg truefalse [TBool] (VStr "truefalse") = Ok true
  /\ varg choice [TList] (VStr "choice") = Ok true
  /\ varg pattern [TList; TPattern] (VStr "pattern") = Ok true
  /\ (if negb (py_eq choice VNone)
      then xs ← py_iter choice;
           for_each (fun x => varg x [TBool; TFloat; TInt; TStr] (VStr "choice")) xs
      else Ok tt) = Ok tt
  /\ (if isinstance pattern TList
      then xs ← py_iter pattern;
           for_each (fun x => varg x [TPattern] (VStr "pattern")) xs
      else Ok tt) = Ok tt.
Proof.
  unfold typed_inputs. intros H.
  apply andb_true_iff in H as [H Hp]. apply andb_true_iff in H as [H Hc].
  apply andb_true_iff in H as [Hi Ht].
  repeat split.
  - apply varg_None_or_admitted. simpl. now rewrite orb_false_r.
  - apply varg_None_or_admitted. simpl. now rewrite orb_false_r.
  - destruct choice; try discriminate; reflexivity.
  - destruct pattern; simpl in Hp; try reflexivity; try discriminate Hp;
      apply varg_admitted; unfold type_admits; simpl; now rewrite ?Hp.
  - destruct choice; try discriminate; try reflexivity. simpl.
    apply for_each_ok. apply List.Forall_forall. intros x Hx.
    rewrite forallb_forall in Hc. specialize (Hc x Hx).
    destruct x; try discriminate; reflexivity.
  - destruct pattern; simpl in Hp; try discriminate Hp; try reflexivity. simpl.
    apply for_each_ok. apply List.Forall_forall. intros x Hx.
    rewrite forallb_forall in Hp. specialize (Hp x Hx).
    apply varg_None_or_admitted. simpl. unfold type_admits. simpl.
    now rewrite orb_false_r.
Qed.

Lemma supplied_eq (x : pyval) : negb (is_None x) && negb (is_False x) = supplied x.
Proof. destruct x as [|[|]| | | | |]; reflexivity. Qed.

(** The count the constructor takes is the number of mode inputs supplied. *)
Lemma count_modes_supplied (truefalse choice pattern bounds : pyval) :
  count_modes truefalse choice pattern bounds
  = supplied_count truefalse choice pattern bounds.
Proof.
  unfold count_modes, supplied_count.
  rewrite !filter_cons, filter_nil, !supplied_eq.
  destruct (supplied truefalse), (supplied choice), (supplied pattern),
    (supplied bounds); reflexivity.
Qed.

Lemma apply_kwargs_mode_absent (kwargs : list (string * pyval)) (self : MenuNode) :
  has_key "mode" kwargs = false ->
  mode (fold_left apply_kwarg kwargs self) = mode self.
Proof.
  revert self. induction kwargs as [|kv kwargs IH]; intros self; [reflexivity|].
  unfold has_key. simpl. intros H. apply orb_false_iff in H as [E H].
  rewrite (IH _ H). unfold apply_kwarg. rewrite E.
  destruct (String.eqb (fst kv) "selection"); reflexivity.
Qed.

Lemma apply_kwargs_selection_absent (kwargs : list (string * pyval)) (self : MenuNode) :
  has_key "selection" kwargs = false ->
  selection (fold_left apply_kwarg kwargs self) = selection self.
Proof.
  revert self. induction kwargs as [|kv kwargs IH]; intros self; [reflexivity|].
  unfold has_key. simpl. intros H. apply orb_false_iff in H as [E H].
  rewrite (IH _ H). unfold apply_kwarg. rewrite E.
  destruct (String.eqb (fst kv) "mode"); reflexivity.
Qed.

(** C7.  For well-typed arguments, the count being the number of the four
    mode inputs that are given a value other than [None] and [False]: with
    a count of zero or one, and keywords that do not carry both [mode] and
    [selection], the constructor returns a node whose mode is choice when
    [choice] is supplied, pattern when [pattern] is, and id otherwise; with
    a count of two, three or four it raises [ValueError] with the message
    that shows that number, whatever the keywords. *)
Theorem init_mode_inputs (id_ truefalse choice pattern bounds run_ : pyval)
    (kwargs : list (string * pyval)) :
  typed_inputs id_ truefalse choice pattern = true ->
  (supplied_count truefalse choice pattern bounds <= 1 ->
   has_key "mode" kwargs && has_key "selection" kwargs = false ->
   exists n, MenuNode_init id_ truefalse choice pattern bounds run_ kwargs = Ok n
             /\ mode n = VStr (if supplied choice then "choice"
                               else if supplied pattern then "pattern"
                               else "id"))
  /\ (2 <= supplied_count truefalse choice pattern bounds ->
      MenuNode_init id_ truefalse choice pattern bounds run_ kwargs
      = Raise (ValueError
                 (String.append "Only single input mode option allowed. Arguments show "
                    (String.append
                       (match supplied_count truefalse choice pattern bounds with
                        | 2 => "2"
                        | 3 => "3"
                        | _ => "4"
                        end)
                       " modes selected.")))).
Proof.
  intros T.
  destruct (typed_inputs_validated _ _ _ _ T) as (V1 & V2 & V3 & V4 & V5 & V6).
  unfold MenuNode_init. rewrite V1, V2, V3, V4; simpl. rewrite V5, V6; simpl.
  rewrite count_modes_supplied.
  unfold typed_inputs in T.
  apply andb_true_iff in T as [T Tp]. apply andb_true_iff in T as [_ Tc].
  split; intros Hc.
  - intros Hk.
    destruct (Nat.ltb_spec 1 (supplied_count truefalse choice pattern bounds)) as [L|_];
      [lia|].
    set (self := fold_left apply_kwarg kwargs _).
    assert (P : truthy (selection self) && truthy (mode self) = false).
    { apply andb_false_iff in Hk as [Hk|Hk].
      - unfold self. rewrite (apply_kwargs_mode_absent _ _ Hk). apply andb_false_r.
      - unfold self. now rewrite (apply_kwargs_selection_absent _ _ Hk). }
    rewrite P.
    destruct choice; try discriminate Tc;
      [|eexists; split; reflexivity].
    destruct pattern; simpl in Tp; try discriminate Tp;
      eexists; split; reflexivity.
  - destruct (Nat.ltb_spec 1 (supplied_count truefalse choice pattern bounds)) as [_|L];
      [|lia].
    unfold mode_count_message. do 3 f_equal. clear - Hc.
    unfold supplied_count in *.
    destruct (supplied truefalse), (supplied choice), (supplied pattern),
      (supplied bounds); simpl in *; try lia; reflexivity.
Qed.

(** With a pattern input that is one pattern string or a list (of patterns
    or [None]) and no other mode input, the node has mode pattern; the
    single string is stored as the one-element list that holds it, a list
    is stored as it is. *)
Lemma init_pattern_input (id_ run_ pattern : pyval) :
  is_None id_ || isinstance id_ TStr = true ->
  match pattern with
  | VStr p => regex_valid p
  | VList ps => forallb (fun x => is_None x || re_compiles x) ps
  | _ => false
  end = true ->
  MenuNode_init id_ (VBool false) VNone pattern VNone run_ []
  = Ok (mkMenuNode id_ None (VStr "pattern")
                   (match pattern with
                    | VStr _ => VList [pattern]
                    | _ => pattern
                    end)
                   run_ []).
Proof.
  intros Hi Hp.
  assert (T : typed_inputs id_ (VBool false) VNone pattern = true).
  { unfold typed_inputs. rewrite Hi. destruct pattern; try discriminate; exact Hp. }
  destruct (typed_inputs_validated _ _ _ _ T) as (V1 & V2 & V3 & V4 & V5 & V6).
  unfold MenuNode_init. rewrite V1, V2, V3, V4; simpl. rewrite V6; simpl.
  destruct pattern; try discriminate; reflexivity.
Qed.

(** ** The pointer *)

Lemma py_eq_VStr (v : pyval) (m : string) :
  py_eq v (VStr m) = true <-> v = VStr m.
Proof.
  destruct v; simpl; try (split; [discriminate|discriminate]).
  rewrite String.eqb_eq. split; [now intros ->|now intros [= ->]].
Qed.

Lemma py_eq_VStr_l (s : string) (x : pyval) :
  py_eq (VStr s) x = match x with VStr t => String.eqb s t | _ => false end.
Proof. destruct x; reflexivity. Qed.

Lemma first_hit_pure (f : pyval -> bool) (sels : list pyval) :
  first_hit (fun x => Ok (f x)) sels = Ok (existsb f sels).
Proof.
  induction sels as [|x sels IH]; simpl; [reflexivity|].
  destruct (f x); [reflexivity|exact IH].
Qed.

Lemma first_hit_ext (f g : pyval -> result bool) (sels : list pyval) :
  Forall (fun x => f x = g x) sels -> first_hit f sels = first_hit g sels.
Proof.
  induction 1 as [|x sels Hx _ IH]; simpl; [reflexivity|].
  rewrite Hx, IH. reflexivity.
Qed.

Lemma re_match_compiled (p : pyval) (s : string) :
  re_compiles p = true ->
  re_match p (VStr s)
  = Ok (match pattern_src p with Some src => regex_match src s | None => false end).
Proof.
  destruct p; simpl; try discriminate; [|reflexivity].
  now intros ->.
Qed.

(** On a node of the data model, the test [select] runs on a child is the
    selection rule of the specification. *)
Lemma child_test_accepts (c : MenuNode) (s : string) :
  node_ok c = true -> child_test c (VStr s) = Some (Ok (accepts c s)).
Proof.
  unfold node_ok, child_test, accepts.
  destruct (selection c) as [| | | | |sels|]; try discriminate.
  destruct (py_eq (mode c) (VStr "id") || py_eq (mode c) (VStr "choice")) eqn:E.
  - intros _.
    assert (M : mode c = VStr "id" \/ mode c = VStr "choice").
    { apply orb_true_iff in E as [E|E]; apply py_eq_VStr in E; auto. }
    simpl. rewrite first_hit_pure.
    destruct M as [-> | ->]; simpl; do 2 f_equal;
      apply existsb_ext; intros x; apply py_eq_VStr_l.
  - simpl. intros H. apply andb_true_iff in H as [M P].
    rewrite M. apply py_eq_VStr in M. rewrite M. simpl.
    f_equal.
    rewrite (first_hit_ext (fun selector => re_match selector (VStr s))
               (fun p => Ok (match pattern_src p with
                             | Some src => regex_match src s
                             | None => false
                             end))).
    + apply first_hit_pure.
    + apply List.Forall_forall. intros x Hx. apply re_match_compiled.
      rewrite forallb_forall in P. auto.
Qed.

Lemma select_loop_skip self cur s pre rest log :
  forallb node_ok pre = true ->
  forallb (fun d => negb (accepts d s)) pre = true ->
  select_loop self cur (VStr s) (pre ++ rest) log
  = select_loop self cur (VStr s) rest (log ++ map running pre).
Proof.
  revert log. induction pre as [|d pre IH]; intros log Hok Hno; simpl.
  - now rewrite app_nil_r.
  - simpl in Hok, Hno.
    apply andb_true_iff in Hok as [Hd Hok]. apply andb_true_iff in Hno as [Nd Hno].
    rewrite (child_test_accepts d s Hd).
    apply negb_true_iff in Nd. rewrite Nd.
    rewrite IH by assumption. now rewrite <- app_assoc.
Qed.

(** C9.  A compiled pattern is an input the constructor takes: it passes
    [varg(pattern, list, re.Pattern)] and the node gets mode pattern.  But
    only a [str] is wrapped, so the selection is the pattern object itself,
    not a sequence that holds it: it cannot be iterated, and once the node
    is a child, a [select] that reaches it raises [TypeError] whatever the
    token, the pointer staying where it was. *)
Theorem init_compiled_pattern_bare (id_ run_ : pyval) (src : string) :
  is_None id_ || isinstance id_ TStr = true ->
  exists n,
    MenuNode_init id_ (VBool false) VNone (VPattern src) VNone run_ [] = Ok n
    /\ mode n = VStr "pattern"
    /\ selection n = VPattern src
    /\ isinstance (selection n) TList = false
    /\ py_iter (selection n) = Raise TypeError
    /\ forall (self : MenuPointer) (cur : MenuNode) (s : string)
              (pre post : list MenuNode),
         node self = Some cur ->
         children cur = pre ++ set_parent n (id cur) :: post ->
         forallb node_ok pre = true ->
         forallb (fun d => negb (accepts d s)) pre = true ->
         select self (VStr s)
         = mkOutcome self (map running pre ++ [running n]) (Raise TypeError).
Proof.
  intros Hi.
  exists (mkMenuNode id_ None (VStr "pattern") (VPattern src) run_ []).
  split.
  - unfold MenuNode_init.
    rewrite (varg_None_or_admitted id_ [TStr] "id") by (simpl; now rewrite orb_false_r).
    reflexivity.
  - repeat split.
    intros self cur s pre post Hn Hc Hpre Hno.
    unfold select. simpl. rewrite Hn, Hc.
    rewrite select_loop_skip by assumption. reflexivity.
Qed.

(** C4.  With the children of the current node in their stored order as
    [pre ++ c :: post], all nodes of the data model, where no child of
    [pre] accepts the token and [c] does: [select] tests the children in
    that order, pushes the current node and the token onto the two history
    lists, moves to [c], and returns the tokens of the command history
    joined by [|]. *)
Theorem select_first_match (self : MenuPointer) (cur : MenuNode) (s : string)
    (pre : list MenuNode) (c : MenuNode) (post : list MenuNode) :
  node self = Some cur ->
  children cur = pre ++ c :: post ->
  forallb node_ok pre = true ->
  node_ok c = true ->
  forallb (fun d => negb (accepts d s)) pre = true ->
  accepts c s = true ->
  select self (VStr s)
  = mkOutcome
      (mkMenuPointer (Some c) (shell self) (traceid self ++ [cur])
                     (tracecmd self ++ [s]))
      (map running (pre ++ [c]) ++ [(DEBUG, MsgChildSelected (id c) (VStr s))])
      (Ok (Some (String.concat "|" (tracecmd self ++ [s])))).
Proof.
  intros Hn Hc Hpre Hok Hno Hacc.
  unfold select. simpl. rewrite Hn, Hc.
  rewrite select_loop_skip by assumption. simpl.
  rewrite (child_test_accepts c s Hok), Hacc.
  unfold advance. simpl. now rewrite map_app.
Qed.

(** C5.  When every child of the current node is a node of the data model
    and none accepts the token, [select] returns [None] without raising,
    logs the invalid selection at level info, and the pointer is the one it
    was: same current node, same two history lists. *)
Theorem select_no_match (self : MenuPointer) (cur : MenuNode) (s : string) :
  node self = Some cur ->
  forallb node_ok (children cur) = true ->
  forallb (fun d => negb (accepts d s)) (children cur) = true ->
  select self (VStr s)
  = mkOutcome self
      (map running (children cur) ++ [(INFO, MsgInvalidSelection (VStr s))])
      (Ok None).
Proof.
  intros Hn Hok Hno. unfold select. simpl. rewrite Hn.
  rewrite <- (app_nil_r (children cur)) at 1.
  rewrite select_loop_skip by assumption. reflexivity.
Qed.

(** Whatever the children and the input are, [select] either advances or
    leaves the pointer as it was, also when it raises. *)
Lemma select_loop_frame self cur input cs log :
  state (select_loop self cur input cs log) = self
  \/ exists child r,
       In child cs
       /\ state (select_loop self cur input cs log) = advance self cur child input
       /\ returned (select_loop self cur input cs log) = Ok (Some r).
Proof.
  revert log. induction cs as [|d cs IH]; intros log; simpl; [now left|].
  destruct (child_test d input) as [[[|]|e]|]; simpl; auto.
  - right. exists d. eexists. auto.
  - destruct (IH (log ++ [(DEBUG, MsgRunningAgainst (id d))]))
      as [H|(child & r & Hin & H1 & H2)]; [now left|].
    right. exists child, r. auto.
Qed.

Lemma select_loop_success self cur input r cs log :
  returned (select_loop self cur input cs log) = Ok (Some r) ->
  exists child,
    In child cs
    /\ state (select_loop self cur input cs log) = advance self cur child input.
Proof.
  revert log. induction cs as [|d cs IH]; intros log; simpl; [discriminate|].
  destruct (child_test d input) as [[[|]|e]|]; simpl; try discriminate.
  - intros _. exists d. auto.
  - intros G. destruct (IH _ G) as (child & Hin & Hs). exists child. auto.
Qed.

Lemma select_success_inv self input r :
  returned (select self input) = Ok (Some r) ->
  exists cur child,
    node self = Some cur /\ In child (children cur)
    /\ state (select self input) = advance self cur child input.
Proof.
  unfold select. destruct (varg input [TStr] (VStr "input")); [|discriminate].
  destruct (node self) as [cur|]; [|discriminate].
  intros H. destruct (select_loop_success _ _ _ _ _ H) as (child & Hin & Hs).
  exists cur, child. auto.
Qed.

Lemma pop_snoc {A} (l : list A) (x : A) : pop (l ++ [x]) = Some (l, x).
Proof. unfold pop. rewrite rev_app_distr. simpl. now rewrite rev_involutive. Qed.

Lemma back_at_origin (self : MenuPointer) :
  traceid self = [] -> back self = mkOutcome self [(INFO, MsgAtOrigin)] (Ok tt).
Proof. intros H. unfold back. now rewrite H. Qed.

(** C6.  After a [select] that advanced, [back] gives back the pointer as
    it was before the [select]: the current node is the one popped, and
    both history lists have lost the entry pushed.  With an empty history,
    as on a new or reset pointer, [back] changes nothing and logs that the
    pointer is at its origin. *)
Theorem select_back_restores (self : MenuPointer) (input : pyval) :
  (forall r, returned (select self input) = Ok (Some r) ->
             state (back (state (select self input))) = self
             /\ returned (back (state (select self input))) = Ok tt)
  /\ (traceid self = [] ->
      back self = mkOutcome self [(INFO, MsgAtOrigin)] (Ok tt))
  /\ back (MenuPointer_init (shell self))
     = mkOutcome (MenuPointer_init (shell self)) [(INFO, MsgAtOrigin)] (Ok tt)
  /\ back (reset self) = mkOutcome (reset self) [(INFO, MsgAtOrigin)] (Ok tt).
Proof.
  split; [|split; [apply back_at_origin|split; reflexivity]].
  intros r H.
  destruct (select_success_inv self input H) as (cur & child & Hn & _ & ->).
  unfold back, advance. simpl.
  rewrite length_app. simpl.
  replace (Nat.ltb 0 (length (traceid self) + 1)) with true
    by (symmetry; apply Nat.ltb_lt; lia).
  rewrite !pop_snoc. simpl. split; [|reflexivity].
  destruct self; simpl in *. now rewrite Hn.
Qed.

(** ** Flattening *)

Lemma _rec_decompose_node_eq (n : MenuNode) :
  _rec_decompose_node n
  = match children n with
    | [] => gen_yield (NodeObj n) gen_done
    | cs => decompose_each cs
    end.
Proof.
  destruct n as [i p m s r cs]. simpl. destruct cs as [|c cs]; [reflexivity|].
  reflexivity.
Qed.

Lemma descendants_eq (n : MenuNode) :
  descendants n = flat_map preorder (children n).
Proof.
  destruct n as [i p m s r cs]. simpl.
  induction cs as [|c cs IH]; simpl; [reflexivity|]. now rewrite IH.
Qed.

Lemma _pack_set (n : MenuNode) : parent_set n = true -> _pack n = Ok (pack_of n).
Proof.
  unfold parent_set, _pack, _pack_fields, pack_of.
  destruct (parent n); [reflexivity|discriminate].
Qed.

Lemma decompose_each_forest (cs : list MenuNode) :
  Forall flattens cs ->
  forallb parent_set (flat_map preorder cs) = true ->
  decompose_each cs = mkGenerated (map pack_of (flat_map preorder cs)) None.
Proof.
  induction 1 as [|c cs Hc _ IH]; intros H; [reflexivity|].
  change (flat_map preorder (c :: cs)) with (preorder c ++ flat_map preorder cs) in *.
  rewrite forallb_app in H. apply andb_true_iff in H as [H1 H2].
  rewrite (Hc H1), (IH H2). unfold gen_then. simpl. now rewrite map_app.
Qed.

Lemma flattens_all (c : MenuNode) : flattens c.
Proof.
  induction c as [c IH] using MenuNode_tree_ind.
  intros H cs. simpl in H. apply andb_true_iff in H as [Hc Hd].
  rewrite descendants_eq in Hd.
  change (decompose_each (c :: cs))
    with (match _pack c with
          | Raise e => gen_raise e
          | Ok p =>
              gen_yield p
                (gen_then
                   (match children c with
                    | [] => gen_done
                    | _ => _rec_decompose_node c
                    end)
                   (decompose_each cs))
          end).
  rewrite (_pack_set c Hc).
  assert (G : match children c with
              | [] => gen_done
              | _ :: _ => _rec_decompose_node c
              end = mkGenerated (map pack_of (flat_map preorder (children c))) None).
  { rewrite _rec_decompose_node_eq, <- (decompose_each_forest IH Hd).
    destruct (children c); reflexivity. }
  rewrite G. unfold preorder. rewrite descendants_eq. reflexivity.
Qed.

(** Below a node, the generator yields the packed descendants in
    pre-order. *)
Lemma decompose_each_preorder (cs : list MenuNode) :
  forallb parent_set (flat_map preorder cs) = true ->
  decompose_each cs = mkGenerated (map pack_of (flat_map preorder cs)) None.
Proof.
  apply decompose_each_forest. apply List.Forall_forall. intros c _.
  apply flattens_all.
Qed.

(** When the root has children, flattening yields one record per node, in
    pre-order, the root first. *)
Lemma decompose_menu_preorder (r : MenuNode) :
  children r <> [] ->
  forallb parent_set (preorder r) = true ->
  decompose_menu (mkMenuShell (Some r))
  = mkDecomposed (mkGenerated (map pack_of (preorder r)) None) [].
Proof.
  intros Hne H. unfold decompose_menu. simpl.
  simpl in H. apply andb_true_iff in H as [Hr Hd].
  rewrite (_pack_set r Hr), _rec_decompose_node_eq.
  destruct (children r) as [|c cs] eqn:E; [contradiction|].
  rewrite descendants_eq, E in Hd |- *.
  rewrite (decompose_each_preorder _ Hd). reflexivity.
Qed.

(** C3, at a menu that is only a root.  [_rec_decompose_node] takes its
    last branch and yields the node object after [decompose_menu] has
    yielded the root's record: two items for one node, the second not a
    4-tuple. *)
Theorem decompose_menu_lone_root (r : MenuNode) (p : pyval) :
  children r = [] ->
  parent r = Some p ->
  records (decompose_menu (mkMenuShell (Some r)))
  = mkGenerated [Pack (id r) p (mode r) (selection r); NodeObj r] None
  /\ length (preorder r) = 1.
Proof.
  intros Hc Hp. unfold decompose_menu, _pack, _pack_fields. simpl.
  rewrite Hp. simpl. rewrite _rec_decompose_node_eq, Hc.
  split; [reflexivity|].
  unfold preorder. rewrite descendants_eq, Hc. reflexivity.
Qed.

(** C8.  On a shell without a root, [decompose_menu] calls
    [logging.WARNING], the integer level, not the function
    [logging.warning]: the iteration yields nothing, logs nothing, and ends
    in a [TypeError] raised to the caller. *)
Theorem decompose_menu_rootless :
  decompose_menu (mkMenuShell None)
  = mkDecomposed (mkGenerated [] (Some TypeError)) [].
Proof. reflexivity. Qed.

(** ** Rebuilding *)

(** C2.  The validation looks the record's own identifier up among the
    earlier identifiers, not its parent's: after a good first record, a
    second record with a new identifier is refused with [IntegrityError],
    whatever its parent, also when the parent is the first record. *)
Theorem validation_refuses_new_id (id0 p0 m0 s0 id1 p1 m1 s1 : pyval)
    (rest : list item) :
  truthy p0 = false ->
  isinstance id0 TStr = true ->
  py_in m0 [VStr "id"; VStr "choice"; VStr "pattern"] = true ->
  isinstance s0 TList = true ->
  py_eq id1 id0 = false ->
  from_tuple (Pack id0 p0 m0 s0 :: Pack id1 p1 m1 s1 :: rest) true
  = Raise IntegrityError.
Proof.
  intros Hp Hi Hm Hs Hne. unfold from_tuple. simpl validate_loop.
  unfold py_in in Hm. simpl in Hm.
  rewrite Hp, Hi, Hm, Hs, Hne. reflexivity.
Qed.

(** The other way round: a second record whose parent never appeared passes
    the validation when it repeats the first identifier. *)
Example validation_accepts_unseen_parent :
  validate_loop 0 []
    [Pack (VStr "root") VNone (VStr "id") (VList [VStr "root"]);
     Pack (VStr "root") (VStr "ghost") (VStr "id") (VList [VStr "root"])]
  = Ok [VStr "root"; VStr "root"].
Proof. reflexivity. Qed.

(** *** Rebuilding a flattened menu without validation *)

Lemma py_eq_VNone (v : pyval) : py_eq v VNone = true <-> v = VNone.
Proof. destruct v; simpl; split; try discriminate; reflexivity. Qed.

Lemma py_eq_refl_id (v : pyval) :
  is_None v || isinstance v TStr = true -> py_eq v v = true.
Proof.
  destruct v as [| | | | | |[]]; try discriminate; intros _; simpl;
    [reflexivity|apply String.eqb_refl].
Qed.

(** For an identifier, [==] with it is equality. *)
Lemma py_eq_id (q v : pyval) :
  is_None v || isinstance v TStr = true -> py_eq q v = true -> q = v.
Proof.
  destruct v as [| | | | | |[]]; try discriminate; intros _ H.
  - now apply py_eq_VNone.
  - now apply py_eq_VStr.
Qed.

Lemma id_ok_inv (d : MenuNode) :
  id_ok d = true ->
  is_None (id d) || isinstance (id d) TStr = true
  /\ py_eq (id d) (VStr "root") = false
  /\ is_local_name (id d) = false.
Proof.
  unfold id_ok. intros H.
  apply andb_true_iff in H as [H L]. apply andb_true_iff in H as [H R].
  apply negb_true_iff in L, R. auto.
Qed.

(** A key that is an identifier and not the name of a variable of the frame
    is looked up among the entries written by the loop. *)
Lemma locals_get_extra (f : frame) (extra : list (pyval * nat)) (key : pyval) :
  is_None key || isinstance key TStr = true ->
  is_local_name key = false ->
  locals_get f extra key
  = match assoc key extra with
    | Some a => Ok (VObj CMenuNode a)
    | None => Raise KeyError
    end.
Proof.
  destruct key as [| | |k| | |[]]; try discriminate; intros _ H; [reflexivity|].
  unfold locals_get. simpl in H |- *.
  repeat (apply orb_false_iff in H; destruct H as [E H]; rewrite E; clear E).
  reflexivity.
Qed.

(** The two calls [from_tuple] makes bind no parameter of the constructor. *)
Lemma MenuNode_call_nil (i : pyval) :
  MenuNode_call i [] = MenuNode_init i (VBool false) VNone VNone VNone VNone [].
Proof. reflexivity. Qed.

Lemma MenuNode_call_passthrough (i m sel : pyval) :
  MenuNode_call i [("mode", m); ("selection", sel)]
  = MenuNode_init i (VBool false) VNone VNone VNone VNone
                  [("mode", m); ("selection", sel)].
Proof. reflexivity. Qed.

(** The pass-through of [MenuNode.__init__]. *)
Lemma MenuNode_init_passthrough (i m sel : pyval) :
  is_None i || isinstance i TStr = true ->
  truthy sel && truthy m = true ->
  MenuNode_init i (VBool false) VNone VNone VNone VNone
                [("mode", m); ("selection", sel)]
  = Ok (mkMenuNode i None m sel VNone []).
Proof.
  intros Hi Ht. unfold MenuNode_init.
  rewrite (varg_None_or_admitted i [TStr] "id") by (simpl; now rewrite orb_false_r).
  simpl. rewrite Ht. reflexivity.
Qed.

Lemma alter_append_child (h : list cell) (pa : nat) (c : cell) (f : cell -> cell) :
  pa < length h ->
  alter (fun x => cell_append_child x (length h)) pa (alter f (length h) (h ++ [c]))
  = alter (cell_append_children [length h]) pa h ++ [f c].
Proof.
  intros Hpa.
  replace (alter f (length h) (h ++ [c])) with (h ++ [f c]).
  - rewrite alter_app_l by assumption. reflexivity.
  - rewrite alter_app_r_alt by lia. now rewrite Nat.sub_diag.
Qed.

(** [add_node] below the root: the new object goes to the end of the store
    and its address to the end of the parent's children. *)
Lemma add_node_child (h : list cell) (r : option nat) (d : MenuNode)
    (pa : nat) (pc : cell) :
  id_ok d = true ->
  passes_through d = true ->
  h !! pa = Some pc ->
  add_node (mkWorld h r) (id d) (VObj CMenuNode pa)
           [("mode", mode d); ("selection", selection d)]
  = Ok (mkWorld (alter (cell_append_children [length h]) pa h
                 ++ [mkCell (id d) (Some (c_id pc)) (mode d) (selection d) VNone []])
                r,
        length h).
Proof.
  intros Hid Hpt Hpa.
  destruct (id_ok_inv d Hid) as (Hi & Hr & _).
  unfold add_node.
  rewrite (varg_None_or_admitted (id d) [TStr] "id") by (simpl; now rewrite orb_false_r).
  rewrite MenuNode_call_passthrough, (MenuNode_init_passthrough _ _ _ Hi Hpt).
  simpl. rewrite Hr.
  assert (Hlt : pa < length h) by (eapply lookup_lt_Some; eassumption).
  rewrite lookup_app_l, Hpa by assumption.
  now rewrite alter_append_child.
Qed.

Lemma layout_app (b : nat) (l1 l2 : list MenuNode) :
  layout b (l1 ++ l2) = layout b l1 ++ layout (b + length l1) l2.
Proof.
  revert b. induction l1 as [|d l1 IH]; intros b; simpl.
  - now rewrite Nat.add_0_r.
  - rewrite IH. do 3 f_equal. lia.
Qed.

Lemma length_layout (b : nat) (l : list MenuNode) : length (layout b l) = length l.
Proof. revert b. induction l; intros b; simpl; auto. Qed.

Lemma bindings_app (b : nat) (l1 l2 : list MenuNode) :
  bindings b (l1 ++ l2) = bindings (b + length l1) l2 ++ bindings b l1.
Proof.
  revert b. induction l1 as [|d l1 IH]; intros b; simpl.
  - now rewrite Nat.add_0_r, app_nil_r.
  - rewrite IH, app_assoc. do 3 f_equal. lia.
Qed.

Lemma assoc_app (k : pyval) (d1 d2 : list (pyval * nat)) :
  assoc k (d1 ++ d2)
  = match assoc k d1 with Some a => Some a | None => assoc k d2 end.
Proof.
  induction d1 as [|[k' a] d1 IH]; simpl; [reflexivity|].
  destruct (py_eq k k'); [reflexivity|exact IH].
Qed.

Lemma assoc_bindings_fresh (k : pyval) (b : nat) (l : list MenuNode) :
  py_in k (map id l) = false -> assoc k (bindings b l) = None.
Proof.
  revert b. induction l as [|d l IH]; intros b H; [reflexivity|].
  simpl in H. apply orb_false_iff in H as [H1 H2].
  simpl. rewrite assoc_app, (IH _ H2). simpl. now rewrite H1.
Qed.

Lemma py_in_app (x : pyval) (l1 l2 : list pyval) :
  py_in x (l1 ++ l2) = py_in x l1 || py_in x l2.
Proof. apply existsb_app. Qed.

Lemma nodup_ids_app (l1 l2 : list pyval) :
  nodup_ids (l1 ++ l2) = true -> nodup_ids l1 = true /\ nodup_ids l2 = true.
Proof.
  induction l1 as [|x l1 IH]; simpl; [auto|].
  intros H. apply andb_true_iff in H as [H1 H2].
  rewrite py_in_app in H1. apply negb_true_iff, orb_false_iff in H1 as [H1 _].
  destruct (IH H2). rewrite H1. auto.
Qed.

Lemma nodup_ids_cons_app (x : pyval) (l1 l2 : list pyval) :
  nodup_ids (x :: l1 ++ l2) = true ->
  nodup_ids (x :: l1) = true /\ nodup_ids (x :: l2) = true.
Proof.
  simpl. intros H. apply andb_true_iff in H as [H1 H2].
  rewrite py_in_app in H1. apply negb_true_iff, orb_false_iff in H1 as [Ha Hb].
  destruct (nodup_ids_app _ _ H2) as [N1 N2].
  rewrite Ha, Hb, N1, N2. auto.
Qed.

Lemma forest_ok_cons (pid : pyval) (c : MenuNode) (cs : list MenuNode) :
  forest_ok pid (c :: cs) = true ->
  subtree_ok pid c = true /\ forest_ok pid cs = true.
Proof.
  unfold forest_ok, subtree_ok.
  change (flat_map preorder (c :: cs)) with (preorder c ++ flat_map preorder cs).
  rewrite forallb_app, map_app. simpl forallb at 3.
  intros H. apply andb_true_iff in H as [H N]. apply andb_true_iff in H as [F L].
  apply andb_true_iff in F as [F1 F2]. apply andb_true_iff in L as [L1 L2].
  destruct (nodup_ids_cons_app _ _ _ N) as [N1 N2].
  rewrite F1, F2, L1, L2, N1, N2. auto.
Qed.

Lemma linked_children (c : MenuNode) :
  linked c = forallb (fun k => parent_is k (id c) && linked k) (children c).
Proof. destruct c; reflexivity. Qed.

Lemma subtree_ok_inv (pid : pyval) (c : MenuNode) :
  subtree_ok pid c = true ->
  node_fit c = true
  /\ parent_is c pid = true
  /\ py_in pid (map id (preorder c)) = false
  /\ forest_ok (id c) (children c) = true.
Proof.
  unfold subtree_ok, forest_ok. intros H.
  apply andb_true_iff in H as [H N]. apply andb_true_iff in H as [F L].
  apply andb_true_iff in L as [L1 L2].
  simpl in F. apply andb_true_iff in F as [F1 F2].
  rewrite descendants_eq in F2.
  change (nodup_ids (pid :: map id (preorder c)))
    with (negb (py_in pid (map id (preorder c))) && nodup_ids (map id (preorder c))) in N.
  apply andb_true_iff in N as [N1 N2]. apply negb_true_iff in N1.
  unfold preorder in N2. rewrite descendants_eq in N2.
  rewrite linked_children in L2.
  repeat split; try assumption.
  rewrite F2, L2. exact N2.
Qed.

Lemma cell_append_children_twice (l1 l2 : list nat) (c : cell) :
  cell_append_children l2 (cell_append_children l1 c)
  = cell_append_children (l1 ++ l2) c.
Proof. unfold cell_append_children. simpl. now rewrite app_assoc. Qed.

Lemma build_forest (cs : list MenuNode) :
  Forall builds cs ->
  forall (h : list cell) (r : option nat) (extra : list (pyval * nat)) (n : nat)
         (pid : pyval) (pa : nat) (pc : cell) (rest : list item),
    n <> 0 ->
    key_ok pid = true ->
    forest_ok pid cs = true ->
    assoc pid extra = Some pa ->
    h !! pa = Some pc ->
    c_id pc = pid ->
    build_loop false [] n (mkWorld h r) extra
               (map pack_of (flat_map preorder cs) ++ rest)
    = build_loop false [] (n + length (flat_map preorder cs))
        (mkWorld (alter (cell_append_children (child_addrs (length h) cs)) pa h
                  ++ layout (length h) (flat_map preorder cs)) r)
        (bindings (length h) (flat_map preorder cs) ++ extra) rest.
Proof.
  induction 1 as [|c cs Hc _ IH]; intros h r extra n pid pa pc rest Hn Hk Hok Ha Hpa Hid.
  - simpl. rewrite Nat.add_0_r, app_nil_r.
    rewrite list_alter_id; [reflexivity|].
    intros [? ? ? ? ? ?]. unfold cell_append_children. simpl. now rewrite app_nil_r.
  - destruct (forest_ok_cons _ _ _ Hok) as [Hc_ok Hcs_ok].
    destruct (subtree_ok_inv _ _ Hc_ok) as (_ & _ & Hfresh & _).
    assert (Hlt : pa < length h) by (eapply lookup_lt_Some; eassumption).
    change (flat_map preorder (c :: cs)) with (preorder c ++ flat_map preorder cs).
    rewrite map_app, <- app_assoc.
    rewrite (Hc h r extra n pid pa pc _ Hn Hk Hc_ok Ha Hpa Hid).
    rewrite (IH _ r _ _ pid pa (cell_append_children [length h] pc));
      try assumption; try lia.
    + rewrite length_app, length_alter, length_layout.
      rewrite alter_app_l by (now rewrite length_alter).
      rewrite list_alter_alter_eq.
      rewrite layout_app, bindings_app, length_app.
      f_equal; [lia| |now rewrite app_assoc].
      f_equal. rewrite <- app_assoc. f_equal.
      apply list_alter_ext; [|reflexivity].
      intros x _. simpl. apply cell_append_children_twice.
    + rewrite assoc_app, (assoc_bindings_fresh _ _ _ Hfresh). exact Ha.
    + rewrite lookup_app_l by (now rewrite length_alter).
      rewrite list_lookup_alter_eq, Hpa. reflexivity.
Qed.

Lemma key_ok_inv (k : pyval) :
  key_ok k = true ->
  is_None k || isinstance k TStr = true /\ is_local_name k = false.
Proof.
  unfold key_ok. intros H. apply andb_true_iff in H as [H L].
  apply negb_true_iff in L. auto.
Qed.

Lemma node_fit_inv (d : MenuNode) :
  node_fit d = true -> id_ok d = true /\ passes_through d = true /\ key_ok (id d) = true.
Proof.
  unfold node_fit, key_ok. intros H. apply andb_true_iff in H as [H1 H2].
  destruct (id_ok_inv d H1) as (Hi & _ & Hl). rewrite Hi, Hl. auto.
Qed.

Lemma locals_set_key (extra : list (pyval * nat)) (k : pyval) (a : nat) :
  is_None k || isinstance k TStr = true ->
  locals_set extra k a = Ok ((k, a) :: extra).
Proof. destruct k; try discriminate; reflexivity. Qed.

Lemma builds_all (c : MenuNode) : builds c.
Proof.
  induction c as [c IH] using MenuNode_tree_ind.
  intros h r extra n pid pa pc rest Hn Hk Hok Ha Hpa Hid.
  destruct (subtree_ok_inv _ _ Hok) as (Hfit & Hpar & Hfresh & Hkids).
  destruct (node_fit_inv _ Hfit) as (Hio & Hpt & Hkc).
  destruct (key_ok_inv _ Hk) as (Hpi & Hpl).
  destruct (key_ok_inv _ Hkc) as (Hci & _).
  assert (Hp : parent c = Some pid).
  { unfold parent_is in Hpar. destruct (parent c) as [q|]; [|discriminate].
    f_equal. now apply py_eq_id. }
  assert (Hlt : pa < length h) by (eapply lookup_lt_Some; eassumption).
  unfold preorder. rewrite descendants_eq.
  change (map pack_of (c :: flat_map preorder (children c)) ++ rest)
    with (pack_of c :: (map pack_of (flat_map preorder (children c)) ++ rest)).
  unfold pack_of at 1. rewrite Hp. simpl default.
  cbn [build_loop].
  replace (Nat.eqb n 0) with false by (symmetry; now apply Nat.eqb_neq).
  rewrite (locals_get_extra _ _ _ Hpi Hpl), Ha.
  rewrite (add_node_child h r c pa Hio Hpt Hpa).
  rewrite locals_set_key by assumption.
  set (cellc := mkCell (id c) (Some (c_id pc)) (mode c) (selection c) VNone []).
  set (h0 := alter (cell_append_children [length h]) pa h).
  assert (L0 : length h0 = length h) by apply length_alter.
  rewrite build_forest with (pid := id c) (pa := length h) (pc := cellc);
    [|exact IH|lia|assumption|assumption| | |reflexivity].
  - rewrite length_app, L0. simpl length. rewrite Nat.add_1_r.
    rewrite alter_app_r_alt by lia.
    rewrite L0, Nat.sub_diag. simpl alter.
    cbn [layout bindings]. unfold cell_at. rewrite Hp. subst cellc. rewrite Hid.
    unfold cell_append_children at 1. simpl.
    f_equal; [lia| |now rewrite <- app_assoc].
    f_equal. rewrite <- app_assoc. reflexivity.
  - simpl. now rewrite py_eq_refl_id.
  - rewrite lookup_app_r by lia. rewrite L0, Nat.sub_diag. reflexivity.
Qed.

Lemma py_eq_root_selection (v : pyval) :
  py_eq v (VList [VStr "root"]) = true -> v = VList [VStr "root"].
Proof.
  destruct v as [| | | | |l|]; try discriminate.
  destruct l as [|x [|y l]]; try discriminate.
  - simpl. rewrite andb_true_r. intros H. apply py_eq_VStr in H. now subst.
  - simpl. rewrite andb_false_r. discriminate.
Qed.

Lemma root_ok_inv (t : MenuNode) :
  root_ok t = true ->
  id t = VStr "root" /\ parent t = Some VNone /\ mode t = VStr "id"
  /\ selection t = VList [VStr "root"] /\ children t <> [].
Proof.
  unfold root_ok. intros H.
  apply andb_true_iff in H as [H Hc]. apply andb_true_iff in H as [H Hs].
  apply andb_true_iff in H as [H Hm]. apply andb_true_iff in H as [Hi Hp].
  apply py_eq_VStr in Hi, Hm. apply py_eq_root_selection in Hs.
  unfold parent_is in Hp. destruct (parent t) as [q|]; [|discriminate].
  apply py_eq_VNone in Hp. subst q.
  repeat split; try assumption. intros E. now rewrite E in Hc.
Qed.

(** Without validation, the records of a rebuildable menu are turned into
    the store that holds its nodes in pre-order. *)
Lemma from_tuple_layout (t : MenuNode) :
  rebuildable t = true ->
  from_tuple (map pack_of (preorder t)) false
  = Ok (mkWorld (layout 0 (preorder t)) (Some 0)).
Proof.
  unfold rebuildable. intros H.
  apply andb_true_iff in H as [H Hn]. apply andb_true_iff in H as [H Hl].
  apply andb_true_iff in H as [Hr Hf].
  destruct (root_ok_inv t Hr) as (Hi & Hp & Hm & Hs & _).
  unfold from_tuple, preorder. rewrite descendants_eq in *.
  change (map pack_of (t :: flat_map preorder (children t)))
    with (pack_of t :: map pack_of (flat_map preorder (children t))).
  rewrite <- (app_nil_r (map pack_of _)).
  unfold pack_of at 1. rewrite Hi, Hp, Hm, Hs. simpl default.
  cbn [build_loop Nat.eqb].
  change (add_node empty_world (VStr "root") VNone [])
    with (Ok (mkWorld [mkCell (VStr "root") (Some VNone) (VStr "id")
                              (VList [VStr "root"]) VNone []] (Some 0), 0)).
  cbn [locals_set].
  rewrite build_forest
    with (pid := VStr "root") (pa := 0)
         (pc := mkCell (VStr "root") (Some VNone) (VStr "id")
                       (VList [VStr "root"]) VNone []);
    [|apply List.Forall_forall; intros; apply builds_all|lia|reflexivity|
     |reflexivity|reflexivity|reflexivity].
  - simpl. unfold cell_at. rewrite Hi, Hp, Hm, Hs. reflexivity.
  - unfold forest_ok. unfold node_fit. rewrite Hf. simpl.
    rewrite linked_children, Hi in Hl. rewrite Hl. simpl.
    unfold preorder in Hn. rewrite descendants_eq in Hn.
    simpl in Hn. rewrite Hi in Hn. exact Hn.
Qed.

(** *** Reading the store back *)

Lemma holds_app (H : list cell) (base : nat) (l1 l2 : list MenuNode) :
  holds H base (l1 ++ l2) -> holds H base l1 /\ holds H (base + length l1) l2.
Proof.
  intros Hh. split; intros i d Hi.
  - apply Hh. rewrite lookup_app_l; [exact Hi|]. eapply lookup_lt_Some; eassumption.
  - rewrite <- Nat.add_assoc. apply Hh.
    rewrite lookup_app_r by lia.
    now replace (length l1 + i - length l1) with i by lia.
Qed.

Lemma holds_layout (base : nat) (l : list MenuNode) (pre : list cell) :
  length pre = base -> holds (pre ++ layout base l) base l.
Proof.
  revert base pre. induction l as [|d l IH]; intros base pre Hb i x Hi; [destruct i; discriminate|].
  destruct i as [|i]; simpl in Hi.
  - injection Hi as <-. rewrite Nat.add_0_r, lookup_app_r by lia.
    now rewrite Hb, Nat.sub_diag.
  - replace (base + S i) with (S base + i) by lia.
    change (pre ++ layout base (d :: l)) with (pre ++ [cell_at base d] ++ layout (S base) l).
    rewrite app_assoc. apply IH; [|exact Hi].
    rewrite length_app. simpl. lia.
Qed.

Lemma reify_forest (cs : list MenuNode) :
  Forall reads_back cs ->
  forall (H : list cell) (base fuel : nat),
    holds H base (flat_map preorder cs) ->
    length (flat_map preorder cs) <= fuel ->
    mapM (reify fuel H) (child_addrs base cs) = Some (map erase_run cs).
Proof.
  induction 1 as [|c cs Hc _ IH]; intros H base fuel Hh Hf; [reflexivity|].
  change (flat_map preorder (c :: cs)) with (preorder c ++ flat_map preorder cs) in *.
  rewrite length_app in Hf. apply holds_app in Hh as [H1 H2].
  cbn [child_addrs mapM]. rewrite (Hc H base fuel H1) by lia.
  cbn [mbind option_bind].
  rewrite (IH H _ fuel H2) by lia. reflexivity.
Qed.

Lemma reads_back_all (c : MenuNode) : reads_back c.
Proof.
  induction c as [c IH] using MenuNode_tree_ind.
  intros H base fuel Hh Hf.
  destruct fuel as [|fuel]; [simpl in Hf; lia|].
  simpl. pose proof (Hh 0 c eq_refl) as H0. rewrite Nat.add_0_r in H0.
  rewrite H0. unfold cell_at at 1. simpl.
  unfold preorder in Hh, Hf. rewrite descendants_eq in Hh, Hf.
  change (c :: flat_map preorder (children c))
    with ([c] ++ flat_map preorder (children c)) in Hh.
  apply holds_app in Hh as [_ Hh]. simpl in Hh, Hf.
  rewrite Nat.add_1_r in Hh.
  rewrite (reify_forest IH Hh) by lia.
  destruct c. reflexivity.
Qed.

Lemma shell_of_layout (t : MenuNode) :
  shell_of (mkWorld (layout 0 (preorder t)) (Some 0))
  = Some (mkMenuShell (Some (erase_run t))).
Proof.
  unfold shell_of. simpl shell_root. cbn [heap].
  rewrite (@reads_back_all t (layout 0 (preorder t)) 0 (length (layout 0 (preorder t)))).
  - reflexivity.
  - apply (holds_layout (preorder t) []). reflexivity.
  - now rewrite length_layout.
Qed.

Lemma parent_is_set (c : MenuNode) (p : pyval) :
  parent_is c p = true -> parent_set c = true.
Proof. unfold parent_is, parent_set. destruct (parent c); [reflexivity|discriminate]. Qed.

Lemma linked_parent_set (c : MenuNode) :
  linked c = true -> forallb parent_set (descendants c) = true.
Proof.
  induction c as [c IH] using MenuNode_tree_ind.
  rewrite linked_children, descendants_eq.
  induction IH as [|k ks Hk _ IHks]; [reflexivity|].
  simpl. intros H. apply andb_true_iff in H as [H Hks].
  apply andb_true_iff in H as [Hp Hl].
  rewrite (parent_is_set _ _ Hp). simpl.
  rewrite forallb_app, (Hk Hl), (IHks Hks). reflexivity.
Qed.

Lemma rebuildable_flattens (t : MenuNode) :
  rebuildable t = true ->
  decompose_menu (mkMenuShell (Some t))
  = mkDecomposed (mkGenerated (map pack_of (preorder t)) None) [].
Proof.
  unfold rebuildable. intros H.
  apply andb_true_iff in H as [H _]. apply andb_true_iff in H as [H Hl].
  apply andb_true_iff in H as [Hr _].
  destruct (root_ok_inv t Hr) as (_ & Hp & _ & _ & Hc).
  apply decompose_menu_preorder; [exact Hc|].
  simpl. rewrite (linked_parent_set t Hl). unfold parent_set. now rewrite Hp.
Qed.

(** For a rebuildable menu [t] (the root is the
    node [add_node('root')] makes and has a child; below it, identifiers
    are distinct strings or [None], none of them ['root'] or the name of a
    variable of [from_tuple]; modes and selections are truthy; every child
    names its parent's identifier): flattening [t] and rebuilding the
    records with [validate=False] succeeds, and the menu built is [t] with
    the same identifiers, modes, selections, parent and child edges and
    order of children; [run], which no record carries, is [None]. *)
Lemma roundtrip_unvalidated (t : MenuNode) :
  rebuildable t = true ->
  raised (records (decompose_menu (mkMenuShell (Some t)))) = None
  /\ exists w,
       from_tuple (yielded (records (decompose_menu (mkMenuShell (Some t))))) false
       = Ok w
       /\ shell_of w = Some (mkMenuShell (Some (erase_run t))).
Proof.
  intros H. rewrite (rebuildable_flattens t H). simpl.
  split; [reflexivity|].
  exists (mkWorld (layout 0 (preorder t)) (Some 0)).
  split; [now apply from_tuple_layout|apply shell_of_layout].
Qed.

(** *** Rebuilding a flattened menu with validation *)

Lemma isinstance_str_inv (v : pyval) :
  isinstance v TStr = true -> exists s, v = VStr s.
Proof. destruct v as [| | |s| | |[]]; try discriminate. intros _. now exists s. Qed.

Lemma validate_two_inv (i0 p0 m0 s0 i1 p1 m1 s1 : pyval) (rest : list item)
    (val_list : list pyval) :
  validate_loop 0 [] (Pack i0 p0 m0 s0 :: Pack i1 p1 m1 s1 :: rest) = Ok val_list ->
  exists a, i0 = VStr a /\ i1 = VStr a.
Proof.
  cbn [validate_loop Nat.eqb Nat.ltb Nat.leb andb app].
  destruct (truthy p0); [discriminate|].
  destruct (isinstance i0 TStr) eqn:E0; [|discriminate].
  destruct (py_in m0 [VStr "id"; VStr "choice"; VStr "pattern"]); [|discriminate].
  destruct (isinstance s0 TList); [|discriminate].
  cbn [negb mbind result_bind].
  destruct (py_in i1 [i0]) eqn:E; [|discriminate].
  destruct (isinstance i1 TStr) eqn:E1; [|discriminate].
  intros _.
  destruct (isinstance_str_inv _ E0) as [a ->].
  destruct (isinstance_str_inv _ E1) as [b ->].
  unfold py_in in E. simpl in E. rewrite orb_false_r in E.
  apply String.eqb_eq in E. subst b. now exists a.
Qed.

Lemma validate_node_object (n : nat) (val_list : list pyval) (i p m sel : pyval)
    (x : MenuNode) (rest : list item) :
  exists e, validate_loop n val_list (Pack i p m sel :: NodeObj x :: rest) = Raise e.
Proof.
  cbn [validate_loop]. unfold mbind, result_bind.
  repeat match goal with
         | |- context [if ?b then _ else _] => destruct b
         end; eexists; reflexivity.
Qed.

(** Two records or more never pass both the validation and the building:
    the validation wants the second identifier to repeat the first, and
    [add_node] takes a first identifier only if it is ['root'] and then
    refuses a second ['root']. *)
Lemma from_tuple_validated_two (i0 p0 m0 s0 i1 p1 m1 s1 : pyval) (rest : list item)
    (w : world) :
  from_tuple (Pack i0 p0 m0 s0 :: Pack i1 p1 m1 s1 :: rest) true <> Ok w.
Proof.
  unfold from_tuple.
  destruct (validate_loop 0 [] (Pack i0 p0 m0 s0 :: Pack i1 p1 m1 s1 :: rest))
    as [val_list|e] eqn:V; [|discriminate].
  destruct (validate_two_inv _ _ _ _ _ _ _ _ _ V) as (a & -> & ->).
  cbn [build_loop Nat.eqb].
  unfold add_node at 1.
  change (varg (VStr a) [TStr] (VStr "id")) with (Ok (A:=bool) true).
  change (varg VNone [TMenuNode] (VStr "parent")) with (Ok (A:=bool) true).
  change (MenuNode_call (VStr a) [])
    with (Ok (mkMenuNode (VStr a) None (VStr "id") (VList [VStr a]) VNone [])).
  cbn [mbind result_bind heap empty_world shell_root].
  destruct (py_eq (VStr a) (VStr "root")) eqn:R; [|discriminate].
  cbn [locals_set].
  destruct (locals_get _ _ p1) as [q|e]; [|discriminate].
  unfold add_node.
  change (varg (VStr a) [TStr] (VStr "id")) with (Ok (A:=bool) true).
  cbn [mbind result_bind].
  destruct (varg q [TMenuNode] (VStr "parent")); [|discriminate].
  destruct (MenuNode_call _ _); [|discriminate].
  rewrite R. cbn [shell_root]. discriminate.
Qed.

Lemma _pack_cases (n : MenuNode) :
  (exists p, _pack n = Ok (Pack (id n) p (mode n) (selection n)))
  \/ _pack n = Raise AttributeError.
Proof.
  unfold _pack, _pack_fields. destruct (parent n) as [p|]; [left; now exists p|now right].
Qed.

(** With [validate=True], no menu at all is given back: a lone root is
    flattened into its record and the node object, which cannot be
    unpacked; a root with children runs into the lemma above. *)
Lemma roundtrip_validated_never (t : MenuNode) (w : world) :
  raised (records (decompose_menu (mkMenuShell (Some t)))) = None ->
  from_tuple (yielded (records (decompose_menu (mkMenuShell (Some t))))) true <> Ok w.
Proof.
  unfold decompose_menu. cbn [root].
  destruct (_pack_cases t) as [[p0 ->]| ->]; [|discriminate].
  cbn [records]. rewrite _rec_decompose_node_eq.
  destruct (children t) as [|c cs].
  - intros _. unfold from_tuple. cbn [gen_yield gen_done yielded].
    destruct (validate_node_object 0 [] (id t) p0 (mode t) (selection t) t [])
      as [e ->].
    discriminate.
  - cbn [decompose_each fold_right].
    destruct (_pack_cases c) as [[p1 ->]| ->]; [|discriminate].
    intros _. cbn [gen_yield yielded].
    apply from_tuple_validated_two.
Qed.

(** On the records of a rebuildable menu the validation stops at the
    second record: the first child of the root has an identifier that was
    not seen, its own. *)
Lemma rebuildable_validated (t : MenuNode) :
  rebuildable t = true ->
  from_tuple (map pack_of (preorder t)) true = Raise IntegrityError.
Proof.
  intros H. pose proof H as H0. unfold rebuildable in H.
  apply andb_true_iff in H as [H _]. apply andb_true_iff in H as [H _].
  apply andb_true_iff in H as [Hr Hd].
  destruct (root_ok_inv t Hr) as (Hi & Hp & Hm & Hs & Hc).
  destruct t as [i p m sel r cs]. simpl in Hi, Hp, Hm, Hs, Hc.
  destruct cs as [|c cs]; [contradiction|].
  simpl in Hd. apply andb_true_iff in Hd as [Hd _].
  apply andb_true_iff in Hd as [Hd _].
  destruct (id_ok_inv c Hd) as (_ & Hne & _).
  subst i p m sel. unfold from_tuple.
  cbn [preorder descendants map pack_of id parent mode selection default
       validate_loop Nat.eqb Nat.ltb Nat.leb andb truthy isinstance negb
       mbind result_bind app].
  change (py_in (VStr "id") [VStr "id"; VStr "choice"; VStr "pattern"]) with true.
  cbn [negb mbind result_bind].
  unfold py_in. cbn [existsb]. rewrite Hne. reflexivity.
Qed.

(** C1.  Flattening a menu and rebuilding the records with validation, as
    [from_tuple] does by default, never gives a menu back.  On a
    rebuildable menu (a root made by [add_node('root')] with at least one
    child, distinct identifiers, truthy modes and selections, children that
    name their parent) the rebuild raises [IntegrityError], although the
    records are in order: with [validate=False] the same records rebuild
    the menu, with the same identifiers, modes, selections, edges and order
    of children. *)
Theorem roundtrip_validated_diverges (t : MenuNode) :
  raised (records (decompose_menu (mkMenuShell (Some t)))) = None ->
  (forall w,
     from_tuple (yielded (records (decompose_menu (mkMenuShell (Some t))))) true
     <> Ok w)
  /\ (rebuildable t = true ->
      from_tuple (yielded (records (decompose_menu (mkMenuShell (Some t))))) true
      = Raise IntegrityError
      /\ exists w,
           from_tuple (yielded (records (decompose_menu (mkMenuShell (Some t))))) false
           = Ok w
           /\ shell_of w = Some (mkMenuShell (Some (erase_run t)))).
Proof.
  intros Hr. split.
  - intros w. now apply roundtrip_validated_never.
  - intros H. split.
    + rewrite (rebuildable_flattens t H). cbn [records yielded].
      now apply rebuildable_validated.
    + now apply roundtrip_unvalidated.
Qed.

End Properties.

(** * The theorems at concrete menus, with the literal matcher *)

Lemma init_mode_inputs_witness :
  (exists n, @MenuNode_init literal_regex (VStr "ask") (VBool false)
               (VList [VStr "y"; VStr "n"]) VNone VNone VNone
               [("selection", VList [VStr "z"])] = Ok n
             /\ mode n = VStr "choice")
  /\ @MenuNode_init literal_regex (VStr "ask") (VBool true) (VList [VStr "y"])
       (VStr "[0-9]") VNone VNone [("mode", VStr "id")]
     = Raise (ValueError
                "Only single input mode option allowed. Arguments show 3 modes selected.").
Proof.
  split.
  - apply (proj1 (@init_mode_inputs literal_regex (VStr "ask") (VBool false)
                    (VList [VStr "y"; VStr "n"]) VNone VNone VNone
                    [("selection", VList [VStr "z"])] eq_refl)).
    + vm_compute. lia.
    + reflexivity.
  - apply (proj2 (@init_mode_inputs literal_regex (VStr "ask") (VBool true)
                    (VList [VStr "y"]) (VStr "[0-9]") VNone VNone
                    [("mode", VStr "id")] eq_refl)).
    vm_compute. lia.
Defined.

(** Two mode inputs at once: the message names the count 2. *)
Example init_two_modes :
  @MenuNode_init literal_regex (VStr "ask") (VBool false) (VList [VStr "y"])
                 (VStr "[0-9]") VNone VNone []
  = Raise (ValueError
             "Only single input mode option allowed. Arguments show 2 modes selected.").
Proof. reflexivity. Qed.

Lemma decompose_menu_lone_root_witness :
  records (@decompose_menu (mkMenuShell (Some lone_root)))
  = mkGenerated [Pack (VStr "root") VNone (VStr "id") (VList [VStr "root"]);
                 NodeObj lone_root] None
  /\ length (preorder lone_root) = 1.
Proof.
  apply (@decompose_menu_lone_root lone_root VNone); reflexivity.
Defined.

Lemma validation_refuses_new_id_witness :
  @from_tuple literal_regex
    [Pack (VStr "root") VNone (VStr "id") (VList [VStr "root"]);
     Pack (VStr "a") (VStr "root") (VStr "id") (VList [VStr "a"])] true
  = Raise IntegrityError.
Proof.
  apply (@validation_refuses_new_id literal_regex); reflexivity.
Defined.

Lemma select_first_match_witness :
  @select literal_regex menu_pointer (VStr "f-17")
  = mkOutcome
      (mkMenuPointer (Some menu_file) (mkMenuShell (Some menu_root)) [menu_root]
                     ["f-17"])
      [(DEBUG, MsgRunningAgainst (VStr "ask"));
       (DEBUG, MsgRunningAgainst (VStr "file"));
       (DEBUG, MsgChildSelected (VStr "file") (VStr "f-17"))]
      (Ok (Some "f-17")).
Proof.
  apply (@select_first_match literal_regex menu_pointer menu_root "f-17"
           [menu_ask] menu_file [menu_quit]); reflexivity.
Defined.

Lemma select_no_match_witness :
  @select literal_regex menu_pointer (VStr "maybe")
  = mkOutcome menu_pointer
      [(DEBUG, MsgRunningAgainst (VStr "ask"));
       (DEBUG, MsgRunningAgainst (VStr "file"));
       (DEBUG, MsgRunningAgainst (VStr "quit"));
       (INFO, MsgInvalidSelection (VStr "maybe"))]
      (Ok None).
Proof.
  apply (@select_no_match literal_regex menu_pointer menu_root "maybe"); reflexivity.
Defined.

Lemma select_back_restores_witness :
  state (back (state (@select literal_regex menu_pointer (VStr "yes")))) = menu_pointer
  /\ returned (back (state (@select literal_regex menu_pointer (VStr "yes")))) = Ok tt.
Proof.
  apply (proj1 (@select_back_restores literal_regex menu_pointer (VStr "yes")) "yes").
  reflexivity.
Defined.

Lemma roundtrip_validated_diverges_witness :
  (forall w,
     @from_tuple literal_regex
       (yielded (records (decompose_menu (mkMenuShell (Some menu_root))))) true
     <> Ok w)
  /\ (rebuildable menu_root = true ->
      @from_tuple literal_regex
        (yielded (records (decompose_menu (mkMenuShell (Some menu_root))))) true
      = Raise IntegrityError
      /\ exists w,
           @from_tuple literal_regex
             (yielded (records (decompose_menu (mkMenuShell (Some menu_root))))) false
           = Ok w
           /\ shell_of w = Some (mkMenuShell (Some (erase_run menu_root)))).
Proof.
  apply (@roundtrip_validated_diverges literal_regex menu_root). reflexivity.
Defined.

(** The records of [menu_root] are refused at the second one. *)
Example roundtrip_validated_refused :
  rebuildable menu_root = true
  /\ @from_tuple literal_regex
       (yielded (records (decompose_menu (mkMenuShell (Some menu_root))))) true
     = Raise IntegrityError.
Proof. split; reflexivity. Qed.

Lemma init_compiled_pattern_bare_witness :
  exists n,
    @MenuNode_init literal_regex (VStr "num") (VBool false) VNone (VPattern "[0-9]")
                   VNone VNone [] = Ok n
    /\ mode n = VStr "pattern"
    /\ selection n = VPattern "[0-9]"
    /\ isinstance (selection n) TList = false
    /\ py_iter (selection n) = Raise TypeError
    /\ forall (self : MenuPointer) (cur : MenuNode) (s : string)
              (pre post : list MenuNode),
         node self = Some cur ->
         children cur = pre ++ set_parent n (id cur) :: post ->
         forallb (@node_ok literal_regex) pre = true ->
         forallb (fun d => negb (@accepts literal_regex d s)) pre = true ->
         @select literal_regex self (VStr s)
         = mkOutcome self (map running pre ++ [running n]) (Raise TypeError).
Proof.
  apply (@init_compiled_pattern_bare literal_regex (VStr "num") VNone "[0-9]").
  reflexivity.
Defined.

(** A pattern given as a string is wrapped; given compiled, it is not, and
    a pointer on the parent of such a node cannot select. *)
Example init_pattern_string_wrapped :
  @MenuNode_init literal_regex (VStr "num") (VBool false) VNone (VStr "[0-9]")
                 VNone VNone []
  = Ok (mkMenuNode (VStr "num") None (VStr "pattern") (VList [VStr "[0-9]"]) VNone []).
Proof. reflexivity. Qed.

Example select_compiled_pattern_child :
  @select literal_regex
    (MenuPointer_init
       (mkMenuShell
          (Some (add_child lone_root
                   (mkMenuNode (VStr "num") None (VStr "pattern") (VPattern "[0-9]")
                               VNone [])))))
    (VStr "7")
  = mkOutcome
      (MenuPointer_init
         (mkMenuShell
            (Some (add_child lone_root
                     (mkMenuNode (VStr "num") None (VStr "pattern") (VPattern "[0-9]")
                                 VNone [])))))
      [(DEBUG, MsgRunningAgainst (VStr "num"))]
      (Raise TypeError).
Proof. reflexivity. Qed.

(** What [rebuildable] asks for is needed.  A repeated identifier: the last
    node of that name becomes the parent. *)
Example rebuild_repeated_id :
  let leaf i p := mkMenuNode (VStr i) (Some (VStr p)) (VStr "id") (VList [VStr i]) VNone [] in
  let inner k := mkMenuNode (VStr "a") (Some (VStr "a")) (VStr "id") (VList [VStr "a"]) VNone k in
  let top k := mkMenuNode (VStr "root") (Some VNone) (VStr "id") (VList [VStr "root"]) VNone
                 [mkMenuNode (VStr "a") (Some (VStr "root")) (VStr "id") (VList [VStr "a"]) VNone k] in
  match @from_tuple literal_regex
          (yielded (records (decompose_menu
                               (mkMenuShell (Some (top [inner []; leaf "b" "a"])))))) false
  with
  | Ok w => shell_of w
  | Raise _ => None
  end = Some (mkMenuShell (Some (top [inner [leaf "b" "a"]]))).
Proof. reflexivity. Qed.

(** An identifier that is the name of a variable of [from_tuple]: the
    lookup of the parent finds the variable, not the node. *)
Example rebuild_local_name :
  @from_tuple literal_regex
    (yielded (records (decompose_menu (mkMenuShell (Some
       (mkMenuNode (VStr "root") (Some VNone) (VStr "id") (VList [VStr "root"]) VNone
          [mkMenuNode (VStr "n") (Some (VStr "root")) (VStr "id") (VList [VStr "n"]) VNone
             [mkMenuNode (VStr "x") (Some (VStr "n")) (VStr "id") (VList [VStr "x"])
                         VNone []]])))))) false
  = Raise TypeError.
Proof. reflexivity. Qed.

(** A root in choice mode comes back in id mode. *)
Example rebuild_root_mode :
  let top m s := mkMenuNode (VStr "root") (Some VNone) m s VNone
                   [mkMenuNode (VStr "a") (Some (VStr "root")) (VStr "id")
                               (VList [VStr "a"]) VNone []] in
  match @from_tuple literal_regex
          (yielded (records (decompose_menu
             (mkMenuShell (Some (top (VStr "choice") (VList [VStr "go"]))))))) false
  with
  | Ok w => shell_of w
  | Raise _ => None
  end = Some (mkMenuShell (Some (top (VStr "id") (VList [VStr "root"])))).
Proof. reflexivity. Qed.

(** Two selections in a row from a new pointer: the second returns both
    tokens, joined. *)
Example select_twice_joined :
  returned (@select literal_regex
              (state (@select literal_regex menu_pointer (VStr "yes"))) (VStr "sure"))
  = Ok (Some "yes|sure").
Proof. reflexivity. Qed.

(** * Properties of the rest of the modules *)

Section MoreProperties.
Context `{RE : Regex}.

(** ** [varg] and the constructor *)

(** [varg] in closed form, with and without a name. *)
Lemma varg_eval (input : pyval) (args : list pytype) (name : string) :
  varg input args (VStr name)
  = (if is_None input || existsb (type_admits input) args
     then Ok true else Raise TypeError)
  /\ varg input args VNone
     = Ok (is_None input || existsb (type_admits input) args).
Proof.
  unfold varg. destruct input; simpl; try (split; reflexivity);
    rewrite varg_fold; simpl;
    match goal with |- context [existsb ?f ?l] => destruct (existsb f l) end;
    split; reflexivity.
Qed.

(** X1.  With a name given, [varg] has two outcomes: [True], for [None] and
    for a value one of the listed types admits, in whatever order the types
    are listed; [TypeError] for everything else.  It never returns
    [False].  Without a name it never raises on a value that is not
    [None] and returns whether some type admits the value. *)
Theorem varg_outcomes (input : pyval) (args : list pytype) (name : string) :
  varg input args (VStr name)
  = (if is_None input || existsb (type_admits input) args
     then Ok true else Raise TypeError)
  /\ varg input args VNone
     = Ok (is_None input || existsb (type_admits input) args).
Proof. apply varg_eval. Qed.

Lemma varg_named_cases (input : pyval) (args : list pytype) (name : string) :
  varg input args (VStr name) = Ok true \/ varg input args (VStr name) = Raise TypeError.
Proof.
  rewrite (proj1 (varg_eval input args name)).
  destruct (is_None input || existsb (type_admits input) args); auto.
Qed.

Lemma for_each_named (xs : list pyval) (args : list pytype) (name : string) :
  for_each (fun x => varg x args (VStr name)) xs
  = if forallb (fun x => is_None x || existsb (type_admits x) args) xs
    then Ok tt else Raise TypeError.
Proof.
  induction xs as [|x xs IH]; simpl; [reflexivity|].
  rewrite (proj1 (varg_eval x args name)).
  destruct (is_None x || existsb (type_admits x) args); simpl; [exact IH|reflexivity].
Qed.

Lemma forallb_pointwise {A} (f g : A -> bool) (l : list A) :
  (forall x, f x = g x) -> forallb f l = forallb g l.
Proof. intros E. induction l as [|x l IH]; simpl; [reflexivity|]. now rewrite E, IH. Qed.

Lemma choice_entries_admitted (cl : list pyval) :
  forallb (fun x => is_None x || existsb (type_admits x) [TBool; TFloat; TInt; TStr]) cl
  = forallb choice_entry_ok cl.
Proof.
  apply forallb_pointwise. intros x. unfold type_admits.
  destruct x as [| | | | | |[]]; reflexivity.
Qed.

Lemma pattern_entries_admitted (pl : list pyval) :
  forallb (fun x => is_None x || existsb (type_admits x) [TPattern]) pl
  = forallb (fun x => is_None x || re_compiles x) pl.
Proof.
  apply forallb_pointwise. intros x. unfold type_admits. simpl. now rewrite orb_false_r.
Qed.

Lemma apply_kwargs_frame (kwargs : list (string * pyval)) (self : MenuNode) :
  id (fold_left apply_kwarg kwargs self) = id self
  /\ parent (fold_left apply_kwarg kwargs self) = parent self
  /\ run (fold_left apply_kwarg kwargs self) = run self
  /\ children (fold_left apply_kwarg kwargs self) = children self.
Proof.
  revert self. induction kwargs as [|kv kwargs IH]; intros self; simpl; [auto|].
  destruct (IH (apply_kwarg self kv)) as (H1 & H2 & H3 & H4).
  rewrite H1, H2, H3, H4. unfold apply_kwarg.
  destruct (String.eqb (fst kv) "mode"); [auto|].
  destruct (String.eqb (fst kv) "selection"); auto.
Qed.

(** The validations of the constructor pass exactly on typed inputs, and
    fail with [TypeError]; [k] is what the constructor goes on with. *)
Lemma init_validations {A} (id_ truefalse choice pattern : pyval) (k : result A) :
  (varg id_ [TStr] (VStr "id") ;;
   varg truefalse [TBool] (VStr "truefalse") ;;
   varg choice [TList] (VStr "choice") ;;
   varg pattern [TList; TPattern] (VStr "pattern") ;;
   (if negb (py_eq choice VNone)
    then xs ← py_iter choice;
         for_each (fun x => varg x [TBool; TFloat; TInt; TStr] (VStr "choice")) xs
    else Ok tt) ;;
   (if isinstance pattern TList
    then xs ← py_iter pattern;
         for_each (fun x => varg x [TPattern] (VStr "pattern")) xs
    else Ok tt) ;;
   k)
  = if typed_inputs id_ truefalse choice pattern then k else Raise TypeError.
Proof.
  unfold typed_inputs.
  rewrite !(fun i a n => proj1 (varg_eval i a n)).
  unfold type_admits. cbn [existsb pytype_eqb]. rewrite !orb_false_r.
  destruct (is_None id_ || isinstance id_ TStr); [|reflexivity].
  destruct (is_None truefalse || isinstance truefalse TBool); [|reflexivity].
  cbn [mbind result_bind andb].
  destruct choice as [| | | | |cl|[]]; cbn; try reflexivity;
    destruct pattern as [| | |ps| |pl|[]]; cbn; try reflexivity;
    rewrite ?for_each_named, ?choice_entries_admitted, ?pattern_entries_admitted;
    repeat match goal with
           | |- context [forallb ?f ?l] => destruct (forallb f l); cbn
           | |- context [regex_valid ?x] => destruct (regex_valid x); cbn
           end; reflexivity.
Qed.

(** The constructor after its validations. *)
Lemma MenuNode_init_eq (id_ truefalse choice pattern bounds run_ : pyval)
    (kwargs : list (string * pyval)) :
  MenuNode_init id_ truefalse choice pattern bounds run_ kwargs
  = if typed_inputs id_ truefalse choice pattern then
      (let opt := count_modes truefalse choice pattern bounds in
       if Nat.ltb 1 opt then Raise (ValueError (mode_count_message opt))
       else
         let self := fold_left apply_kwarg kwargs (mkMenuNode id_ None VNone VNone run_ []) in
         if truthy (selection self) && truthy (mode self) then Ok self
         else if negb (py_eq choice VNone) then
           Ok (set_mode (set_selection self choice) (VStr "choice"))
         else if negb (py_eq pattern VNone) then
           Ok (set_mode (set_selection self
                           (if isinstance pattern TStr then VList [pattern] else pattern))
                        (VStr "pattern"))
         else Ok (set_mode (set_selection self (VList [id_])) (VStr "id")))
    else Raise TypeError.
Proof. unfold MenuNode_init. apply init_validations. Qed.

(** X2.  Ill-typed arguments make the constructor raise [TypeError], also
    when several mode inputs are given: the type checks come before the
    count.  A node that is constructed keeps the identifier and [run]
    given, has no children, and has no [parent] attribute yet: packing it
    raises [AttributeError] until it is attached to a parent or made the
    root. *)
Theorem init_fresh_node (id_ truefalse choice pattern bounds run_ : pyval)
    (kwargs : list (string * pyval)) :
  (typed_inputs id_ truefalse choice pattern = false ->
   MenuNode_init id_ truefalse choice pattern bounds run_ kwargs = Raise TypeError)
  /\ (forall n,
        MenuNode_init id_ truefalse choice pattern bounds run_ kwargs = Ok n ->
        typed_inputs id_ truefalse choice pattern = true
        /\ count_modes truefalse choice pattern bounds <= 1
        /\ id n = id_ /\ run n = run_ /\ children n = [] /\ parent n = None
        /\ _pack n = Raise AttributeError).
Proof.
  rewrite MenuNode_init_eq. split.
  - now intros ->.
  - intros n. destruct (typed_inputs id_ truefalse choice pattern); [|discriminate].
    cbn zeta.
    destruct (Nat.ltb_spec 1 (count_modes truefalse choice pattern bounds)) as [|L];
      [discriminate|].
    destruct (apply_kwargs_frame kwargs (mkMenuNode id_ None VNone VNone run_ []))
      as (H1 & H2 & H3 & H4).
    set (self := fold_left apply_kwarg kwargs _) in *. simpl in H1, H2, H3, H4.
    intros E.
    assert (G : id n = id_ /\ run n = run_ /\ children n = [] /\ parent n = None).
    { destruct (truthy (selection self) && truthy (mode self));
        [|destruct (negb (py_eq choice VNone)); [|destruct (negb (py_eq pattern VNone))]];
        injection E as <-; simpl; auto. }
    destruct G as (G1 & G2 & G3 & G4).
    repeat split; try assumption; try lia.
    unfold _pack, _pack_fields. now rewrite G4.
Qed.

(** X3.  The keyword pair [mode], [selection] is taken whole or not at
    all: when both values are truthy they become the node's mode and
    selection, whatever the mode inputs say; when one of them is falsy
    both are dropped and the node is the one the mode inputs give. *)
Theorem init_passthrough_both_or_none
    (id_ truefalse choice pattern bounds run_ m sel : pyval) :
  typed_inputs id_ truefalse choice pattern = true ->
  count_modes truefalse choice pattern bounds <= 1 ->
  MenuNode_init id_ truefalse choice pattern bounds run_
                [("mode", m); ("selection", sel)]
  = if truthy sel && truthy m then Ok (mkMenuNode id_ None m sel run_ [])
    else MenuNode_init id_ truefalse choice pattern bounds run_ [].
Proof.
  intros T C. rewrite !MenuNode_init_eq, T. cbn zeta.
  destruct (Nat.ltb_spec 1 (count_modes truefalse choice pattern bounds)) as [|_]; [lia|].
  simpl. destruct (truthy sel && truthy m); reflexivity.
Qed.

(** ** The pointer *)

(** The two ways [select] can end. *)
Lemma select_cases (self : MenuPointer) (input : pyval) :
  (state (select self input) = self
   /\ forall r, returned (select self input) <> Ok (Some r))
  \/ (exists cur child,
        node self = Some cur /\ In child (children cur)
        /\ state (select self input) = advance self cur child input
        /\ returned (select self input)
           = Ok (Some (String.concat "|" (tracecmd self ++ [str_token input])))).
Proof.
  unfold select. destruct (varg input [TStr] (VStr "input"));
    [|left; split; [reflexivity|discriminate]].
  destruct (node self) as [cur|]; [|left; split; [reflexivity|discriminate]].
  generalize (@nil log_record). generalize (incl_refl (children cur)).
  generalize (children cur) at 1 3 4 5 6 as cs.
  induction cs as [|d cs IH]; intros Hin log; simpl.
  - left. split; [reflexivity|discriminate].
  - destruct (child_test d input) as [[[|]|e]|]; simpl;
      try (left; split; [reflexivity|discriminate]).
    + right. exists cur, d. repeat split; auto. apply Hin. now left.
    + apply IH. intros x Hx. apply Hin. now right.
Qed.

(** X4.  [select] either advances to a child of the current node, and then
    returns the history of tokens joined by [|]; or the pointer is the one
    it was, whatever went wrong: no match, an input of a wrong type, a
    child of an unhandled mode, a pattern that does not compile. *)
Theorem select_advances_or_keeps (self : MenuPointer) (input : pyval) :
  (state (select self input) = self
   /\ forall r, returned (select self input) <> Ok (Some r))
  \/ (exists cur child,
        node self = Some cur /\ In child (children cur)
        /\ state (select self input) = advance self cur child input
        /\ returned (select self input)
           = Ok (Some (String.concat "|" (tracecmd self ++ [str_token input])))).
Proof. apply select_cases. Qed.

Lemma back_after_advance (self : MenuPointer) (cur child : MenuNode) (input : pyval) :
  node self = Some cur ->
  back (advance self cur child input)
  = mkOutcome self [(DEBUG, MsgReturned (id cur))] (Ok tt).
Proof.
  intros Hn. unfold back, advance. simpl. rewrite length_app. simpl.
  replace (Nat.ltb 0 (length (traceid self) + 1)) with true
    by (symmetry; apply Nat.ltb_lt; lia).
  rewrite !pop_snoc. destruct self; simpl in *. now rewrite Hn.
Qed.

Lemma select_all_snoc (self : MenuPointer) (ts : list pyval) (t : pyval) :
  select_all self (ts ++ [t])
  = match select_all self ts with
    | Some q => select_all q [t]
    | None => None
    end.
Proof.
  revert self. induction ts as [|x ts IH]; intros self; simpl.
  - destruct (returned (select self t)) as [[|]|]; reflexivity.
  - destruct (returned (select self x)) as [[|]|]; auto.
Qed.

(** X5.  After selections that all advance, the command history has grown
    by exactly their tokens, in order, and as many [back]s as there were
    selections give the pointer from before the first one. *)
Theorem backs_undo_selects (self q : MenuPointer) (tokens : list pyval) :
  select_all self tokens = Some q ->
  tracecmd q = tracecmd self ++ map str_token tokens
  /\ run_ops q (repeat OpBack (length tokens)) = self.
Proof.
  revert q. induction tokens as [|t ts IH] using rev_ind; intros q.
  - simpl. intros [= <-]. now rewrite app_nil_r.
  - rewrite select_all_snoc.
    destruct (select_all self ts) as [q0|]; [|discriminate].
    destruct (IH q0 eq_refl) as [Hc Hb]. simpl.
    destruct (select_cases q0 t) as [[_ Hno]|(cur & child & Hn & _ & Hs & Hr)].
    + destruct (returned (select q0 t)) as [[r|]|]; try discriminate.
      now destruct (Hno r).
    + rewrite Hr. intros [= <-]. rewrite Hs. split.
      * unfold advance. simpl. rewrite Hc, map_app, app_assoc. reflexivity.
      * rewrite length_app. simpl. rewrite Nat.add_1_r. simpl.
        rewrite (back_after_advance q0 child t Hn). exact Hb.
Qed.

Lemma preorder_children_closed (r p c : MenuNode) :
  In p (preorder r) -> In c (children p) -> In c (preorder r).
Proof.
  induction r as [r IH] using MenuNode_tree_ind. intros Hp Hc.
  unfold preorder in *. rewrite descendants_eq in *.
  destruct Hp as [<-|Hp].
  - right. apply in_flat_map. exists c. split; [exact Hc|now left].
  - right. apply in_flat_map in Hp as (k & Hk & Hp).
    apply in_flat_map. exists k. split; [exact Hk|].
    rewrite List.Forall_forall in IH. apply (IH k Hk Hp Hc).
Qed.

Lemma path_from_in_tree (r : MenuNode) (hist : list MenuNode) (cur : MenuNode) :
  path_from r hist cur -> In cur (preorder r) /\ Forall (fun n => In n (preorder r)) hist.
Proof.
  induction 1 as [|hist p c _ [IH1 IH2] Hc].
  - split; [now left|constructor].
  - split; [eapply preorder_children_closed; eassumption|].
    apply Forall_app. split; [exact IH2|]. constructor; [exact IH1|constructor].
Qed.

Lemma snoc_cases {A} (l : list A) : l = [] \/ exists init x, l = init ++ [x].
Proof.
  destruct l as [|a l]; [now left|right].
  destruct (@exists_last _ (a :: l)) as (init & x & E); [discriminate|]. eauto.
Qed.

Lemma back_pop (p : MenuPointer) (hist : list MenuNode) (prev : MenuNode)
    (cmds : list string) (c0 : string) :
  traceid p = hist ++ [prev] ->
  tracecmd p = cmds ++ [c0] ->
  back p = mkOutcome (mkMenuPointer (Some prev) (shell p) hist cmds)
                     [(DEBUG, MsgReturned (id prev))] (Ok tt).
Proof.
  intros E1 E2. unfold back. rewrite E1, E2, !pop_snoc.
  replace (Nat.ltb 0 (length (hist ++ [prev]))) with true
    by (symmetry; apply Nat.ltb_lt; rewrite length_app; simpl; lia).
  reflexivity.
Qed.

(** With histories of the same length, [back] is a no-op at the origin and
    pops both histories otherwise. *)
Lemma back_cases (p : MenuPointer) :
  length (tracecmd p) = length (traceid p) ->
  (traceid p = [] /\ tracecmd p = [] /\ back p = mkOutcome p [(INFO, MsgAtOrigin)] (Ok tt))
  \/ (exists hist prev cmds c0,
        traceid p = hist ++ [prev] /\ tracecmd p = cmds ++ [c0]
        /\ back p = mkOutcome (mkMenuPointer (Some prev) (shell p) hist cmds)
                              [(DEBUG, MsgReturned (id prev))] (Ok tt)).
Proof.
  intros Hl.
  destruct (snoc_cases (traceid p)) as [E|(hist & prev & E)].
  - left. rewrite E in Hl. split; [exact E|]. split.
    + now destruct (tracecmd p).
    + unfold back. now rewrite E.
  - right. destruct (snoc_cases (tracecmd p)) as [Ec|(cmds & c0 & Ec)].
    + rewrite E, Ec, length_app in Hl. simpl in Hl. lia.
    + exists hist, prev, cmds, c0. repeat split; try assumption.
      now apply back_pop with (c0 := c0).
Qed.

Lemma on_path_step (sh : MenuShell) (r : MenuNode) (p : MenuPointer) (o : pointer_op) :
  root sh = Some r -> on_path sh r p -> on_path sh r (apply_op p o).
Proof.
  intros Hr (Hs & Hl & cur & Hn & Hp). destruct o as [input| |]; simpl.
  - destruct (select_cases p input)
      as [[-> _]|(cur' & child & Hn' & Hc & -> & _)].
    + repeat split; eauto.
    + rewrite Hn in Hn'. injection Hn' as <-.
      unfold on_path, advance. simpl. split; [exact Hs|].
      split; [rewrite !length_app; simpl; lia|].
      exists child. split; [reflexivity|]. now apply path_step.
  - destruct (back_cases p Hl) as [(E & Ec & ->)|(hist & prev & cmds & c0 & E & Ec & ->)].
    + simpl. repeat split; eauto.
    + simpl. rewrite E, Ec, !length_app in Hl. simpl in Hl.
      unfold on_path. simpl. split; [exact Hs|]. split; [lia|].
      exists prev. split; [reflexivity|].
      rewrite E in Hp.
      inversion Hp as [E0|hist' p' c' Hp' Hc' E0].
      * destruct hist; discriminate.
      * apply app_inj_tail in E0 as [-> ->]. exact Hp'.
  - unfold on_path, reset, MenuPointer_init. simpl. rewrite Hs.
    repeat split. exists r. split; [exact Hr|constructor].
Qed.

(** X6.  On a shell with a root, whatever sequence of [select], [back] and
    [reset] calls a new pointer goes through: the pointer stays on its
    shell, its node history is the path from the root down to the parent
    of the current node, the current node and every node of the history
    are nodes of the tree, and the two histories have the same length. *)
Theorem pointer_stays_on_path (sh : MenuShell) (r : MenuNode) (ops : list pointer_op) :
  root sh = Some r ->
  let p := run_ops (MenuPointer_init sh) ops in
  shell p = sh
  /\ length (tracecmd p) = length (traceid p)
  /\ exists cur, node p = Some cur
                 /\ path_from r (traceid p) cur
                 /\ In cur (preorder r)
                 /\ Forall (fun n => In n (preorder r)) (traceid p).
Proof.
  intros Hr p.
  assert (G : on_path sh r p).
  { subst p. unfold run_ops.
    assert (I : on_path sh r (MenuPointer_init sh)).
    { repeat split. exists r. split; [exact Hr|constructor]. }
    revert I. generalize (MenuPointer_init sh).
    induction ops as [|o ops IH]; intros q I; simpl; [exact I|].
    apply IH. now apply on_path_step. }
  destruct G as (Hs & Hl & cur & Hn & Hp).
  destruct (path_from_in_tree Hp) as [H1 H2].
  repeat split; try assumption. exists cur. auto.
Qed.

Lemma histories_step (p : MenuPointer) (o : pointer_op) :
  length (tracecmd p) = length (traceid p) ->
  shell (apply_op p o) = shell p
  /\ length (tracecmd (apply_op p o)) = length (traceid (apply_op p o)).
Proof.
  intros Hl. destruct o as [input| |]; simpl.
  - destruct (select_cases p input)
      as [[-> _]|(cur' & child & _ & _ & -> & _)]; [auto|].
    simpl. rewrite !length_app. simpl. split; [reflexivity|lia].
  - destruct (back_cases p Hl) as [(E & Ec & ->)|(hist & prev & cmds & c0 & E & Ec & ->)].
    + auto.
    + simpl. rewrite E, Ec, !length_app in Hl. simpl in Hl. split; [reflexivity|lia].
  - auto.
Qed.

(** X7.  On any shell, with or without a root, and after any sequence of
    [select], [back] and [reset] calls on a new pointer: [back] does not
    raise (the command history is never shorter than the node history it
    is popped with), and [reset] gives the pointer a new
    [MenuPointer(shell)] would be. *)
Theorem back_total_reset_fresh (sh : MenuShell) (ops : list pointer_op) :
  let p := run_ops (MenuPointer_init sh) ops in
  returned (back p) = Ok tt
  /\ reset p = MenuPointer_init sh.
Proof.
  intros p.
  assert (G : shell p = sh /\ length (tracecmd p) = length (traceid p)).
  { subst p. unfold run_ops.
    assert (I : shell (MenuPointer_init sh) = sh
                /\ length (tracecmd (MenuPointer_init sh))
                   = length (traceid (MenuPointer_init sh))) by (split; reflexivity).
    revert I. generalize (MenuPointer_init sh).
    induction ops as [|o ops IH]; intros q [I1 I2]; simpl; [auto|].
    apply IH. destruct (histories_step q o I2) as [H1 H2]. split; [congruence|exact H2]. }
  destruct G as [Hs Hl]. split; [|unfold reset; now rewrite Hs].
  destruct (back_cases p Hl) as [(_ & _ & ->)|(hist & prev & cmds & c0 & _ & _ & ->)];
    reflexivity.
Qed.

(** ** [roll] *)

Lemma py_eq_VStr_l_inv (s0 : string) (k : pyval) :
  py_eq (VStr s0) k = true -> k = VStr s0.
Proof.
  destruct k; simpl; try discriminate. intros H. apply String.eqb_eq in H. now subst.
Qed.

Lemma dict_get_set (a b : string) (v : list pyval) (d : dict) :
  dict_get (VStr a) (dict_set (VStr b) v d)
  = if String.eqb a b then Some v else dict_get (VStr a) d.
Proof.
  destruct (String.eqb a b) eqn:E.
  - apply String.eqb_eq in E. subst b.
    induction d as [|[k v'] d IH]; cbn [dict_get dict_set].
    + simpl. now rewrite String.eqb_refl.
    + destruct (py_eq (VStr a) k) eqn:Ea; cbn [dict_get]; rewrite Ea;
        [reflexivity|exact IH].
  - induction d as [|[k v'] d IH]; cbn [dict_get dict_set].
    + simpl. now rewrite E.
    + destruct (py_eq (VStr b) k) eqn:Eb; cbn [dict_get].
      * apply py_eq_VStr_l_inv in Eb. subst k. simpl. now rewrite E.
      * destruct (py_eq (VStr a) k); [reflexivity|exact IH].
Qed.

Lemma dict_set_keys (k : pyval) (v : list pyval) (d : dict) (P : pyval -> Prop) :
  P k -> Forall (fun kv => P (fst kv)) d -> Forall (fun kv => P (fst kv)) (dict_set k v d).
Proof.
  intros Hk. induction 1 as [|[k' v'] d Hx Hd IH]; cbn [dict_set].
  - constructor; [exact Hk|constructor].
  - destruct (py_eq k k'); constructor; assumption.
Qed.

Lemma listed_no_mode (m : string) (cs : list MenuNode) :
  existsb (has_mode m) cs = false -> flat_map (listed m) cs = [].
Proof.
  induction cs as [|c cs IH]; simpl; [reflexivity|].
  intros H. apply orb_false_iff in H as [Hc H]. rewrite (IH H), app_nil_r.
  unfold has_mode in Hc. unfold listed.
  destruct (mode c) as [| | |mc| | |]; try reflexivity.
  destruct (selection c); try reflexivity.
  simpl in Hc. now rewrite Hc.
Qed.

(** Over listable children the loop of [roll] runs through, and each mode
    collects what its children list, after what the dictionary had. *)
Lemma roll_loop_listable (cs : list MenuNode) :
  forallb listable cs = true ->
  forall d0 : dict,
    Forall (fun kv => fst kv = VStr "id" \/ fst kv = VStr "choice") d0 ->
    exists d,
      roll_loop cs d0 = mkRolled [] (Ok d)
      /\ Forall (fun kv => fst kv = VStr "id" \/ fst kv = VStr "choice") d
      /\ forall m,
           dict_get (VStr m) d
           = if existsb (has_mode m) cs
             then Some (default [] (dict_get (VStr m) d0) ++ flat_map (listed m) cs)
             else dict_get (VStr m) d0.
Proof.
  induction cs as [|c cs IH]; intros Hl d0 Hk.
  - exists d0. repeat split; auto.
  - simpl in Hl. apply andb_true_iff in Hl as [Hc Hl].
    unfold listable in Hc.
    destruct (mode c) as [| | |mc| | |] eqn:Em; try discriminate.
    destruct (selection c) as [| | | | |l|] eqn:Es; try discriminate.
    set (d1 := match dict_get (VStr mc) d0 with
               | None => dict_set (VStr mc) [] d0
               | Some _ => d0
               end).
    assert (G1 : forall m, default [] (dict_get (VStr m) d1) = default [] (dict_get (VStr m) d0)).
    { intros m. subst d1. destruct (dict_get (VStr mc) d0) eqn:E; [reflexivity|].
      rewrite dict_get_set. destruct (String.eqb m mc) eqn:E'; [|reflexivity].
      apply String.eqb_eq in E'. subst m. now rewrite E. }
    assert (G2 : forall m, String.eqb m mc = false ->
                           dict_get (VStr m) d1 = dict_get (VStr m) d0).
    { intros m E'. subst d1. destruct (dict_get (VStr mc) d0); [reflexivity|].
      now rewrite dict_get_set, E'. }
    assert (Mc : mc = "id" \/ mc = "choice").
    { apply orb_true_iff in Hc as [Hc|Hc].
      - apply andb_true_iff in Hc as [Hc _]. apply String.eqb_eq in Hc. auto.
      - apply String.eqb_eq in Hc. auto. }
    assert (K1 : Forall (fun kv => fst kv = VStr "id" \/ fst kv = VStr "choice") d1).
    { subst d1. destruct (dict_get (VStr mc) d0); [exact Hk|].
      apply dict_set_keys with (P := fun k => k = VStr "id" \/ k = VStr "choice");
        [|exact Hk].
      destruct Mc as [-> | ->]; auto. }
    assert (Step : exists x,
      roll_loop (c :: cs) d0
      = roll_loop cs (dict_set (VStr mc) (default [] (dict_get (VStr mc) d1) ++ x) d1)
      /\ x = listed mc c).
    { cbn [roll_loop]. rewrite Em, Es. fold d1. unfold listed. rewrite Em, Es.
      rewrite String.eqb_refl. simpl hashable. simpl negb. cbv iota.
      destruct Mc as [-> | ->].
      - simpl in Hc. rewrite orb_false_r in Hc.
        destruct l as [|x l]; [discriminate|]. simpl. eexists. split; reflexivity.
      - simpl. eexists. split; reflexivity. }
    destruct Step as (x & -> & ->).
    destruct (IH Hl (dict_set (VStr mc) (default [] (dict_get (VStr mc) d1) ++ listed mc c) d1))
      as (d & Hd & Hkeys & Hget).
    { apply dict_set_keys with (P := fun k => k = VStr "id" \/ k = VStr "choice");
        [|exact K1].
      destruct Mc as [-> | ->]; auto. }
    exists d. split; [exact Hd|]. split; [exact Hkeys|].
    intros m. rewrite Hget, dict_get_set. simpl existsb. simpl flat_map.
    unfold has_mode at 2. rewrite Em. simpl py_eq.
    rewrite (String.eqb_sym mc m).
    destruct (String.eqb m mc) eqn:E.
    + apply String.eqb_eq in E. subst m. simpl. rewrite G1.
      destruct (existsb (has_mode mc) cs) eqn:Ex; [now rewrite <- app_assoc|].
      now rewrite (listed_no_mode _ _ Ex), app_nil_r.
    + simpl. rewrite G1, (G2 m E).
      assert (L : listed m c = []).
      { unfold listed. rewrite Em, Es, (String.eqb_sym mc m), E. reflexivity. }
      rewrite L. reflexivity.
Qed.

(** X8.  When every child of the current node is in id mode with a first
    selector or in choice mode, [roll] returns a dictionary whose keys are
    among ['id'] and ['choice']: a mode is a key exactly when some child
    has it; under ['id'] stand the first selectors of the id children,
    under ['choice'] the selections of the choice children one after the
    other, both in the order of the children.  With [echo] every entry is
    printed, otherwise nothing is. *)
Theorem roll_groups_by_mode (self : MenuPointer) (cur : MenuNode) (echo : bool) :
  node self = Some cur ->
  forallb listable (children cur) = true ->
  exists d,
    roll self echo
    = mkRolled (if echo then map (fun kv => PrintEntry (fst kv) (snd kv)) d else [])
               (Ok d)
    /\ Forall (fun kv => fst kv = VStr "id" \/ fst kv = VStr "choice") d
    /\ forall m,
         dict_get (VStr m) d
         = if existsb (has_mode m) (children cur)
           then Some (flat_map (listed m) (children cur))
           else None.
Proof.
  intros Hn Hl.
  destruct (roll_loop_listable (children cur) Hl (@List.Forall_nil _ _))
    as (d & Hd & Hk & Hg).
  exists d. unfold roll. rewrite Hn, Hd. simpl. auto.
Qed.

Lemma roll_loop_skip (pre rest : list MenuNode) :
  forallb listable pre = true ->
  forall d0,
    Forall (fun kv => fst kv = VStr "id" \/ fst kv = VStr "choice") d0 ->
    exists d, roll_loop (pre ++ rest) d0 = roll_loop rest d.
Proof.
  induction pre as [|c pre IH]; intros Hl d0 Hk; [now exists d0|].
  simpl in Hl. apply andb_true_iff in Hl as [Hc Hl].
  destruct (roll_loop_listable [c]) with (d0 := d0) as (d1 & H1 & K1 & _);
    [simpl; now rewrite Hc|exact Hk|].
  destruct (IH Hl d1 K1) as (d & Hd). exists d.
  rewrite <- Hd. clear Hd.
  change ((c :: pre) ++ rest) with (c :: (pre ++ rest)).
  revert H1. cbn [roll_loop].
  destruct (negb (hashable (mode c))); [discriminate|].
  destruct (py_eq (mode c) (VStr "id")).
  - destruct (py_index0 (selection c)); [|discriminate]. now intros [= ->].
  - destruct (py_eq (mode c) (VStr "choice")); [|discriminate].
    destruct (selection c); try discriminate. now intros [= ->].
Qed.

(** X9.  [roll] handles the modes id and choice only.  When the children
    before [c] are listable and [c] has any other mode, a pattern child
    for one, [roll] prints its notice and raises [NotImplementedError],
    with or without [echo]. *)
Theorem roll_unhandled_mode (self : MenuPointer) (cur : MenuNode) (echo : bool)
    (pre : list MenuNode) (c : MenuNode) (post : list MenuNode) :
  node self = Some cur ->
  children cur = pre ++ c :: post ->
  forallb listable pre = true ->
  hashable (mode c) = true ->
  has_mode "id" c = false ->
  has_mode "choice" c = false ->
  roll self echo = mkRolled [PrintUnhandled] (Raise NotImplementedError).
Proof.
  intros Hn Hc Hl Hh Hi Hch. unfold roll. rewrite Hn, Hc.
  destruct (roll_loop_skip pre (c :: post) Hl (@List.Forall_nil _ _)) as (d & ->).
  cbn [roll_loop]. unfold has_mode in Hi, Hch. rewrite Hh, Hi, Hch. reflexivity.
Qed.

(** ** [menu_tree] *)

Lemma read_view_plain (v : pyval) :
  match v with VList _ => false | _ => true end = true -> read_view v = IdNode v [].
Proof. destruct v; try discriminate; reflexivity. Qed.

Lemma _recursive_tree_eq (n : MenuNode) :
  _recursive_tree n
  = match children n with
    | [] => id n
    | cs => VList [id n; VList (map _recursive_tree cs)]
    end.
Proof. destruct n as [i p m s r cs]. destruct cs; reflexivity. Qed.

Lemma ids_of_eq (n : MenuNode) : ids_of n = IdNode (id n) (map ids_of (children n)).
Proof. destruct n; reflexivity. Qed.

Lemma read_view_tree (t : MenuNode) :
  forallb plain_id (preorder t) = true ->
  read_view (_recursive_tree t) = ids_of t.
Proof.
  induction t as [t IH] using MenuNode_tree_ind. intros H.
  simpl in H. apply andb_true_iff in H as [Ht Hd].
  rewrite descendants_eq in Hd.
  rewrite _recursive_tree_eq, ids_of_eq.
  destruct (children t) as [|c cs] eqn:E.
  - now apply read_view_plain.
  - rewrite <- E in *. clear E c cs.
    change (read_view (VList [id t; VList (map _recursive_tree (children t))]))
      with (IdNode (id t) (map read_view (map _recursive_tree (children t)))).
    f_equal. rewrite map_map.
    induction IH as [|k ks Hk _ IHks]; [reflexivity|].
    simpl in Hd. rewrite forallb_app in Hd.
    apply andb_true_iff in Hd as [Hk1 Hd]. apply andb_true_iff in Hd as [Hk2 Hd].
    simpl. rewrite Hk, (IHks Hd); [reflexivity|].
    simpl. now rewrite Hk1, Hk2.
Qed.

(** X10.  For a menu whose identifiers are not lists, the nested list
    [menu_tree] returns determines the identifiers and their nesting:
    reading it back (a two-element list with a list second is an inner
    node, anything else a leaf) gives the tree of identifiers, children in
    their order.  Nothing is logged.  On a shell without a root the
    result is [None] and one record is logged at level info. *)
Theorem menu_tree_reads_back (sh : MenuShell) (r : MenuNode) :
  root sh = Some r ->
  forallb plain_id (preorder r) = true ->
  read_view (fst (menu_tree sh)) = ids_of r
  /\ snd (menu_tree sh) = []
  /\ menu_tree (mkMenuShell None) = (VNone, [(INFO, MsgNoMenuTree)]).
Proof.
  intros Hr Hp. unfold menu_tree. rewrite Hr. simpl.
  split; [now apply read_view_tree|split; reflexivity].
Qed.

(** ** [add_node] and [add_child] *)

(** What the constructor leaves of a call that returns. *)
Lemma MenuNode_init_fresh (id_ truefalse choice pattern bounds run_ : pyval)
    (kwargs : list (string * pyval)) (n : MenuNode) :
  MenuNode_init id_ truefalse choice pattern bounds run_ kwargs = Ok n ->
  (is_None id_ || isinstance id_ TStr = true)
  /\ id n = id_ /\ parent n = None /\ run n = run_ /\ children n = [].
Proof.
  rewrite MenuNode_init_eq.
  destruct (typed_inputs id_ truefalse choice pattern) eqn:T; [|discriminate].
  cbn zeta.
  destruct (Nat.ltb 1 (count_modes truefalse choice pattern bounds)); [discriminate|].
  destruct (apply_kwargs_frame kwargs (mkMenuNode id_ None VNone VNone run_ []))
    as (H1 & H2 & H3 & H4).
  set (self := fold_left apply_kwarg kwargs _) in *. simpl in H1, H2, H3, H4.
  intros E. split.
  - unfold typed_inputs in T. apply andb_true_iff in T as [T _].
    apply andb_true_iff in T as [T _]. now apply andb_true_iff in T as [T _].
  - destruct (truthy (selection self) && truthy (mode self));
      [|destruct (negb (py_eq choice VNone)); [|destruct (negb (py_eq pattern VNone))]];
      injection E as <-; simpl; auto.
Qed.

(** The node [MenuNode(id, **kwargs)] returns bears [id]. *)
Lemma MenuNode_call_fresh (id_ : pyval) (kwargs : list (string * pyval)) (n : MenuNode) :
  MenuNode_call id_ kwargs = Ok n ->
  (is_None id_ || isinstance id_ TStr = true)
  /\ id n = id_ /\ parent n = None /\ children n = [].
Proof.
  unfold MenuNode_call.
  destruct (has_key "self" kwargs || has_key "id" kwargs); [discriminate|].
  intros E. destruct (MenuNode_init_fresh _ _ _ _ _ _ _ E) as (H0 & H1 & H2 & _ & H4).
  auto.
Qed.

(** An identifier [varg] refuses makes the constructor raise [TypeError]. *)
Lemma MenuNode_call_id_refused (id_ : pyval) (kwargs : list (string * pyval)) (e : pyerr) :
  varg id_ [TStr] (VStr "id") = Raise TypeError ->
  MenuNode_call id_ kwargs = Raise e -> e = TypeError.
Proof.
  intros V. unfold MenuNode_call.
  destruct (has_key "self" kwargs || has_key "id" kwargs); [now intros [= <-]|].
  unfold MenuNode_init. rewrite V. now intros [= <-].
Qed.

Lemma varg_id_ok (id_ : pyval) :
  is_None id_ || isinstance id_ TStr = true -> varg id_ [TStr] (VStr "id") = Ok true.
Proof. intros H. apply varg_None_or_admitted. simpl. now rewrite orb_false_r. Qed.

(** X11.  [add_node] builds the node first, with the keywords it was
    given: whatever [MenuNode(id, **kwargs)] raises, [add_node] raises,
    before it looks at the root.  When the node is built: on a shell
    without a root, [add_node('root', parent, ...)] installs it as root
    with parent [None] and touches no other object, a parent passed along
    being ignored; on a shell with a root the same call raises
    [ValueError]; and a node of any other name needs a parent: without one
    [add_node] raises [AttributeError], also on an empty shell. *)
Theorem add_node_root_rules (w : world) (id_ parent_ : pyval)
    (kwargs : list (string * pyval)) :
  is_None parent_ || isinstance parent_ TMenuNode = true ->
  (forall e, MenuNode_call id_ kwargs = Raise e ->
             add_node w id_ parent_ kwargs = Raise e)
  /\ (forall n, MenuNode_call id_ kwargs = Ok n ->
        (py_eq id_ (VStr "root") = true -> shell_root w = None ->
         add_node w id_ parent_ kwargs
         = Ok (mkWorld (heap w ++ [mkCell (VStr "root") (Some VNone) (mode n)
                                          (selection n) (run n) []])
                       (Some (length (heap w))),
               length (heap w)))
        /\ (py_eq id_ (VStr "root") = true -> shell_root w <> None ->
            add_node w id_ parent_ kwargs
            = Raise (ValueError "Root Node for MenuShell already exists."))
        /\ (py_eq id_ (VStr "root") = false -> parent_ = VNone ->
            add_node w id_ parent_ kwargs = Raise AttributeError)).
Proof.
  intros Hp. split.
  - intros e He. unfold add_node.
    destruct (varg_named_cases id_ [TStr] "id") as [V|V]; rewrite V.
    + rewrite (varg_None_or_admitted parent_ [TMenuNode] "parent")
        by (unfold type_admits; simpl; now rewrite orb_false_r).
      cbn [mbind result_bind]. now rewrite He.
    + cbn [mbind result_bind]. now rewrite (MenuNode_call_id_refused _ _ V He).
  - intros n Hn.
    destruct (MenuNode_call_fresh _ _ Hn) as (Hi & N1 & N2 & N4).
    unfold add_node. rewrite (varg_id_ok _ Hi).
    rewrite (varg_None_or_admitted parent_ [TMenuNode] "parent")
      by (unfold type_admits; simpl; now rewrite orb_false_r).
    cbn [mbind result_bind]. rewrite Hn.
    repeat split.
    + intros Hr Hs. rewrite Hr, Hs.
      rewrite alter_app_r_alt by lia. rewrite Nat.sub_diag. simpl.
      apply py_eq_VStr in Hr. unfold cell_set_parent, cell_of. simpl.
      now rewrite N1, Hr.
    + intros Hr Hs. rewrite Hr. destruct (shell_root w); [reflexivity|contradiction].
    + intros Hr ->. now rewrite Hr.
Qed.

(** X12.  Below a parent, [add_node] allocates the node
    [MenuNode(id, **kwargs)] returns at the end of the store, with its
    mode, selection and [run], the parent's identifier as its [parent] and
    no children; appends its address to the end of the parent's children;
    and leaves the root of the shell as it is.  Keywords named after
    parameters of the constructor reach them: with [choice] and [run]
    given, the new node is in choice mode with those choices and that
    [run]. *)
Theorem add_node_attaches (w : world) (id_ : pyval) (pa : nat) (pc : cell)
    (kwargs : list (string * pyval)) :
  py_eq id_ (VStr "root") = false ->
  heap w !! pa = Some pc ->
  (forall n, MenuNode_call id_ kwargs = Ok n ->
     add_node w id_ (VObj CMenuNode pa) kwargs
     = Ok (mkWorld
             (alter (cell_append_children [length (heap w)]) pa (heap w)
              ++ [mkCell id_ (Some (c_id pc)) (mode n) (selection n) (run n) []])
             (shell_root w),
           length (heap w)))
  /\ (forall l r,
        is_None id_ || isinstance id_ TStr = true ->
        forallb choice_entry_ok l = true ->
        add_node w id_ (VObj CMenuNode pa) [("choice", VList l); ("run", r)]
        = Ok (mkWorld
                (alter (cell_append_children [length (heap w)]) pa (heap w)
                 ++ [mkCell id_ (Some (c_id pc)) (VStr "choice") (VList l) r []])
                (shell_root w),
              length (heap w))).
Proof.
  intros Hr Hpa.
  assert (G : forall kw n, MenuNode_call id_ kw = Ok n ->
     add_node w id_ (VObj CMenuNode pa) kw
     = Ok (mkWorld
             (alter (cell_append_children [length (heap w)]) pa (heap w)
              ++ [mkCell id_ (Some (c_id pc)) (mode n) (selection n) (run n) []])
             (shell_root w),
           length (heap w))).
  { intros kw n Hn.
    destruct (MenuNode_call_fresh _ _ Hn) as (Hi & N1 & N2 & N4).
    unfold add_node. rewrite (varg_id_ok _ Hi). cbn [mbind result_bind].
    change (varg (VObj CMenuNode pa) [TMenuNode] (VStr "parent")) with (Ok (A:=bool) true).
    cbn [mbind result_bind]. rewrite Hn, Hr.
    assert (Hlt : pa < length (heap w)) by (eapply lookup_lt_Some; eassumption).
    rewrite lookup_app_l, Hpa by assumption.
    rewrite alter_append_child by assumption.
    unfold cell_set_parent, cell_of. simpl. now rewrite N1. }
  split; [apply G|].
  intros l r Hi Hl.
  rewrite (G _ (mkMenuNode id_ None (VStr "choice") (VList l) r [])); [reflexivity|].
  unfold MenuNode_call. cbn [has_key existsb fst String.eqb Ascii.eqb Bool.eqb orb].
  change (kwarg "truefalse" (VBool false) [("choice", VList l); ("run", r)])
    with (VBool false).
  change (kwarg "choice" VNone [("choice", VList l); ("run", r)]) with (VList l).
  change (kwarg "pattern" VNone [("choice", VList l); ("run", r)]) with VNone.
  change (kwarg "bounds" VNone [("choice", VList l); ("run", r)]) with VNone.
  change (kwarg "run" VNone [("choice", VList l); ("run", r)]) with r.
  change (List.filter _ [("choice", VList l); ("run", r)])
    with (@nil (string * pyval)).
  rewrite MenuNode_init_eq. unfold typed_inputs. rewrite Hi, Hl. reflexivity.
Qed.

(** A successful [add_node] allocates one object and lets the others grow. *)
Lemma add_node_grows (w w' : world) (id_ parent_ : pyval)
    (kwargs : list (string * pyval)) (a : nat) :
  add_node w id_ parent_ kwargs = Ok (w', a) ->
  a = length (heap w)
  /\ length (heap w') = S (length (heap w))
  /\ (forall j c, heap w !! j = Some c ->
                  exists c', heap w' !! j = Some c' /\ cell_grown c c')
  /\ (forall r0, shell_root w = Some r0 -> shell_root w' = Some r0).
Proof.
  unfold add_node.
  destruct (varg id_ [TStr] (VStr "id")); [|discriminate].
  destruct (varg parent_ [TMenuNode] (VStr "parent")); [|discriminate].
  cbn [mbind result_bind].
  destruct (MenuNode_call id_ kwargs) as [n|]; [|discriminate].
  assert (Same : forall c : cell, cell_grown c c).
  { intros c. repeat split. exists []. now rewrite app_nil_r. }
  destruct (py_eq id_ (VStr "root")).
  - destruct (shell_root w) eqn:Hs; [discriminate|]. intros [= <- <-]. simpl.
    rewrite alter_app_r_alt by lia. rewrite Nat.sub_diag. simpl.
    repeat split.
    + rewrite length_app. simpl. lia.
    + intros j c Hj. exists c. split; [|apply Same].
      rewrite lookup_app_l; [exact Hj|]. eapply lookup_lt_Some; eassumption.
    + discriminate.
  - destruct parent_ as [| | | | | |[] pa]; try discriminate.
    destruct ((heap w ++ [cell_of n]) !! pa) as [pc|] eqn:Hpa; [|discriminate].
    intros [= <- <-]. simpl.
    repeat split.
    + rewrite !length_alter, length_app. simpl. lia.
    + intros j c Hj.
      assert (Hlt : j < length (heap w)) by (eapply lookup_lt_Some; eassumption).
      destruct (Nat.eq_dec pa j) as [->|Hne].
      * rewrite list_lookup_alter_eq, list_lookup_alter_ne by lia.
        rewrite lookup_app_l, Hj by assumption. simpl.
        eexists. split; [reflexivity|]. repeat split. now exists [length (heap w)].
      * rewrite list_lookup_alter_ne, list_lookup_alter_ne by lia.
        rewrite lookup_app_l by assumption. exists c. split; [exact Hj|apply Same].
    + auto.
Qed.

(** X13.  What a successful [add_node] never does: it allocates exactly
    one object; of the objects that were there it changes no identifier,
    parent, mode, selection or [run], and children lists only grow at
    their end; a root that is set stays the root. *)
Theorem add_node_preserves (w w' : world) (id_ parent_ : pyval)
    (kwargs : list (string * pyval)) (a : nat) :
  add_node w id_ parent_ kwargs = Ok (w', a) ->
  a = length (heap w)
  /\ length (heap w') = S (length (heap w))
  /\ (forall j c, heap w !! j = Some c ->
                  exists c', heap w' !! j = Some c' /\ cell_grown c c')
  /\ (forall r0, shell_root w = Some r0 -> shell_root w' = Some r0).
Proof. apply add_node_grows. Qed.

Lemma descendants_add_child (r c : MenuNode) :
  descendants (add_child r c) = descendants r ++ preorder (set_parent c (id r)).
Proof.
  rewrite !descendants_eq. unfold add_child. simpl children.
  rewrite flat_map_app. simpl. now rewrite app_nil_r.
Qed.

(** X14.  Flattening after [add_child]: when the root [r] and the nodes
    below it and below the new child [c] have their parent set, the shell
    of [r] with [c] added flattens into the records of [r] and its old
    descendants followed by the record of [c], which names [r]'s
    identifier as parent, and the records of the descendants of [c]. *)
Theorem decompose_after_add_child (r c : MenuNode) :
  forallb parent_set (preorder r) = true ->
  forallb parent_set (descendants c) = true ->
  decompose_menu (mkMenuShell (Some (add_child r c)))
  = mkDecomposed
      (mkGenerated
         (map pack_of (preorder r)
          ++ Pack (id c) (id r) (mode c) (selection c) :: map pack_of (descendants c))
         None)
      [].
Proof.
  intros Hr Hc.
  rewrite decompose_menu_preorder.
  - unfold preorder. rewrite descendants_add_child.
    change (map pack_of (add_child r c :: ?l)) with (pack_of (add_child r c) :: map pack_of l).
    cbn [map]. rewrite map_app. unfold preorder. cbn [map].
    destruct r, c; reflexivity.
  - unfold add_child. simpl. now destruct (children r).
  - unfold preorder in *. rewrite descendants_add_child.
    simpl in Hr. apply andb_true_iff in Hr as [H1 H2].
    cbn [forallb]. rewrite forallb_app. unfold preorder. cbn [forallb].
    assert (D : descendants (set_parent c (id r)) = descendants c) by (now destruct c).
    rewrite D, H2, Hc.
    change (parent_set (add_child r c)) with (parent_set r). now rewrite H1.
Qed.

(** ** [to_pkl] and [from_pkl] *)

Lemma ext_of_no_dot (s0 : string) : has_dot s0 = false -> ext_of s0 = s0.
Proof.
  destruct s0 as [|c rest]; [reflexivity|]. simpl.
  intros H. apply orb_false_iff in H as [H1 H2]. now rewrite H1, H2.
Qed.

Lemma has_dot_append (a b : string) :
  has_dot (String.append a b) = has_dot a || has_dot b.
Proof.
  induction a as [|c a IH]; simpl; [reflexivity|]. now rewrite IH, orb_assoc.
Qed.

Lemma ext_of_dot (base e : string) :
  has_dot e = false -> ext_of (String.append base (String "." e)) = e.
Proof.
  intros He. induction base as [|c base IH]; simpl.
  - now rewrite He.
  - rewrite has_dot_append. simpl. rewrite orb_true_r. exact IH.
Qed.

(** X15.  The file type check of [to_pkl] and [from_pkl] looks at what
    follows the last dot of the path, or at the whole path when it has no
    dot: ['pkl'] and ['pickle'] pass, so does a path that is just ['pkl'];
    anything else raises [ValueError] with the text found in its message.
    [None] is not checked. *)
Theorem check_filepath_by_extension (base e : string) :
  has_dot e = false ->
  check_filepath (VStr (String.append base (String "." e)))
  = (if pickle_ext e then Ok tt else Raise (ValueError (filetype_message e)))
  /\ check_filepath (VStr e)
     = (if pickle_ext e then Ok tt else Raise (ValueError (filetype_message e)))
  /\ check_filepath VNone = Ok tt.
Proof.
  intros He. unfold check_filepath, pickle_ext.
  change (varg (VStr ?x) [TStr] (VStr "filepath")) with (Ok (A:=bool) true).
  cbn [mbind result_bind]. rewrite (ext_of_dot base e He), (ext_of_no_dot e He).
  repeat split.
Qed.

Lemma check_filepath_inv (fp : pyval) :
  check_filepath fp = Ok tt ->
  fp = VNone \/ exists s0, fp = VStr s0 /\ truthy fp = true /\ pickle_ext (ext_of s0) = true.
Proof.
  unfold check_filepath.
  destruct fp as [| | |s0| | |[]]; try (cbn; discriminate); [now left|].
  change (varg (VStr s0) [TStr] (VStr "filepath")) with (Ok (A:=bool) true).
  cbn [mbind result_bind]. unfold pickle_ext.
  destruct (String.eqb (ext_of s0) "pkl" || String.eqb (ext_of s0) "pickle") eqn:E;
    [|discriminate].
  intros _. right. exists s0. split; [reflexivity|]. split; [|exact E].
  destruct s0; [discriminate E|reflexivity].
Qed.

Lemma to_pkl_checked (sh : MenuShell) (r : MenuNode) (i : string) (fp : pyval) :
  check_filepath fp = Ok tt ->
  root sh = Some r ->
  id r = VStr i ->
  to_pkl sh fp
  = match tuple_of (records (decompose_menu sh)) with
    | Raise e => Raise e
    | Ok mx => Ok (dump_path fp i, mx)
    end.
Proof.
  intros Hc Hr Hi. unfold to_pkl. rewrite Hc. cbn [mbind result_bind].
  destruct (check_filepath_inv fp Hc) as [->|(s0 & -> & Ht & _)].
  - simpl. now rewrite Hr, Hi.
  - rewrite Ht. reflexivity.
Qed.

Lemma dump_path_checked (fp : pyval) :
  check_filepath fp = Ok tt -> check_filepath (VStr (dump_path fp "root")) = Ok tt.
Proof.
  intros Hc. destruct (check_filepath_inv fp Hc) as [->|(s0 & -> & _ & _)];
    [reflexivity|exact Hc].
Qed.


(** X17.  A menu that is only its root ['root'] is exported without an
    error, but the tuple dumped holds the node object after the root's
    record, and importing it raises [TypeError]. *)
Theorem pkl_lone_root (r : MenuNode) (p : pyval) (fp : pyval)
    (load_file : string -> result (list item)) :
  id r = VStr "root" ->
  parent r = Some p ->
  children r = [] ->
  check_filepath fp = Ok tt ->
  to_pkl (mkMenuShell (Some r)) fp
  = Ok (dump_path fp "root", [Pack (VStr "root") p (mode r) (selection r); NodeObj r])
  /\ (load_file (dump_path fp "root")
      = Ok [Pack (VStr "root") p (mode r) (selection r); NodeObj r] ->
      from_pkl load_file (VStr (dump_path fp "root")) = Raise TypeError).
Proof.
  intros Hi Hp Hk Hc. split.
  - rewrite (to_pkl_checked (mkMenuShell (Some r)) fp Hc eq_refl Hi).
    unfold decompose_menu, _pack, _pack_fields. simpl. rewrite Hp. simpl.
    rewrite _rec_decompose_node_eq, Hk, Hi. reflexivity.
  - intros Hl. unfold from_pkl. rewrite (dump_path_checked fp Hc).
    cbn [mbind result_bind]. rewrite Hl. reflexivity.
Qed.

(** ** [from_tuple] *)

Lemma validate_rest_same_id (a : string) (obj : list item) :
  forall (n : nat) (val_list v : list pyval),
    0 < n ->
    Forall (eq (VStr a)) val_list ->
    validate_loop n val_list obj = Ok v ->
    Forall (fun it => exists p m sel, it = Pack (VStr a) p m sel) obj.
Proof.
  induction obj as [|[i p m sel|x] obj IH]; intros n vl v Hn Hvl; [constructor| |discriminate].
  cbn [validate_loop].
  replace (Nat.eqb n 0) with false by (symmetry; apply Nat.eqb_neq; lia).
  replace (Nat.ltb 0 n) with true by (symmetry; now apply Nat.ltb_lt).
  cbn [andb].
  destruct (py_in i vl) eqn:Ein; [|discriminate]. cbn [negb mbind result_bind].
  destruct (isinstance i TStr); [|discriminate]. cbn [negb mbind result_bind].
  destruct (py_in m [VStr "id"; VStr "choice"; VStr "pattern"]); [|discriminate].
  cbn [negb mbind result_bind].
  destruct (isinstance sel TList); [|discriminate]. cbn [negb mbind result_bind].
  assert (Ei : i = VStr a).
  { unfold py_in in Ein. apply existsb_exists in Ein as (y & Hy & Hq).
    rewrite List.Forall_forall in Hvl. rewrite <- (Hvl y Hy) in Hq.
    now apply py_eq_VStr in Hq. }
  subst i. intros Hv. constructor; [eauto|].
  apply IH with (n := S n) (val_list := vl ++ [VStr a]) (v := v); [lia| |exact Hv].
  apply Forall_app. split; [exact Hvl|]. constructor; [reflexivity|constructor].
Qed.

(** X18.  What the validation of [from_tuple] accepts: a tuple passes only
    if all its records carry one and the same string as identifier. *)
Theorem validation_wants_one_id (obj : list item) (v : list pyval) :
  validate_loop 0 [] obj = Ok v ->
  exists a, Forall (fun it => exists p m sel, it = Pack (VStr a) p m sel) obj.
Proof.
  destruct obj as [|[i p m sel|x] obj]; [exists ""; constructor| |discriminate].
  cbn [validate_loop Nat.eqb Nat.ltb Nat.leb andb app].
  destruct (truthy p); [discriminate|]. cbn [mbind result_bind].
  destruct (isinstance i TStr) eqn:Ei; [|discriminate]. cbn [negb mbind result_bind].
  destruct (py_in m [VStr "id"; VStr "choice"; VStr "pattern"]); [|discriminate].
  cbn [negb mbind result_bind].
  destruct (isinstance sel TList); [|discriminate]. cbn [negb mbind result_bind].
  destruct (isinstance_str_inv _ Ei) as [a ->]. intros Hv.
  exists a. constructor; [eauto|].
  apply validate_rest_same_id with (n := 1) (val_list := [VStr a]) (v := v);
    [lia| |exact Hv].
  constructor; [reflexivity|constructor].
Qed.

(** X19.  [from_tuple] with [validate=True] returns a shell for two inputs
    only: the empty tuple, which gives the empty shell, and a tuple of one
    record named ['root'] with a falsy parent, a known mode and a list as
    selection, which gives the shell of a lone root.  Every other tuple
    raises. *)
Theorem from_tuple_validated_iff (obj : list item) (w : world) :
  from_tuple obj true = Ok w
  <-> (obj = [] /\ w = empty_world)
      \/ (exists p m sel,
            obj = [Pack (VStr "root") p m sel]
            /\ truthy p = false
            /\ py_in m [VStr "id"; VStr "choice"; VStr "pattern"] = true
            /\ isinstance sel TList = true
            /\ w = mkWorld [mkCell (VStr "root") (Some VNone) (VStr "id")
                                   (VList [VStr "root"]) VNone []] (Some 0)).
Proof.
  split.
  - destruct obj as [|[i p m sel|x] obj]; [intros [= <-]; now left| |discriminate].
    destruct obj as [|[i1 p1 m1 s1|x] obj].
    + intros H. right. exists p, m, sel. revert H. unfold from_tuple.
      cbn [validate_loop Nat.eqb Nat.ltb Nat.leb andb app].
      destruct (truthy p); [discriminate|]. cbn [mbind result_bind].
      destruct (isinstance i TStr) eqn:Ei; [|discriminate]. cbn [negb mbind result_bind].
      destruct (py_in m [VStr "id"; VStr "choice"; VStr "pattern"]); [|discriminate].
      cbn [negb mbind result_bind].
      destruct (isinstance sel TList); [|discriminate]. cbn [negb mbind result_bind].
      destruct (isinstance_str_inv _ Ei) as [a ->].
      cbn [build_loop Nat.eqb]. unfold add_node.
      change (varg (VStr a) [TStr] (VStr "id")) with (Ok (A:=bool) true).
      change (varg VNone [TMenuNode] (VStr "parent")) with (Ok (A:=bool) true).
      change (MenuNode_call (VStr a) [])
        with (Ok (mkMenuNode (VStr a) None (VStr "id") (VList [VStr a]) VNone [])).
      cbn [mbind result_bind heap empty_world shell_root].
      destruct (py_eq (VStr a) (VStr "root")) eqn:R; [|discriminate].
      apply py_eq_VStr in R. injection R as ->.
      intros [= <-]. repeat split.
    + intros H. now apply from_tuple_validated_two in H.
    + unfold from_tuple.
      destruct (validate_node_object 0 [] i p m sel x obj) as [e ->]. discriminate.
  - intros [[-> ->]|(p & m & sel & -> & Hp & Hm & Hs & ->)]; [reflexivity|].
    unfold from_tuple. cbn [validate_loop Nat.eqb Nat.ltb Nat.leb andb app].
    rewrite Hp, Hm, Hs. reflexivity.
Qed.

(** Without validation the parent, mode and selection of the first record
    are not read. *)
Lemma from_tuple_first_record_fields (i p m sel p' m' sel' : pyval) (rest : list item) :
  from_tuple (Pack i p m sel :: rest) false
  = from_tuple (Pack i p' m' sel' :: rest) false.
Proof. reflexivity. Qed.

Lemma cell_grown_trans (a b c : cell) : cell_grown a b -> cell_grown b c -> cell_grown a c.
Proof.
  intros (A1 & A2 & A3 & A4 & A5 & m1 & A6) (B1 & B2 & B3 & B4 & B5 & m2 & B6).
  repeat split; try congruence. exists (m1 ++ m2). now rewrite B6, A6, app_assoc.
Qed.

(** The building loop allocates one object per record and lets the objects
    that are there grow. *)
Lemma build_loop_grows (obj : list item) :
  forall (validate : bool) (val_list : list pyval) (n : nat) (w0 : world)
         (extra : list (pyval * nat)) (w : world),
    build_loop validate val_list n w0 extra obj = Ok w ->
    length (heap w) = length (heap w0) + length obj
    /\ (forall j c, heap w0 !! j = Some c ->
                    exists c', heap w !! j = Some c' /\ cell_grown c c')
    /\ (forall r0, shell_root w0 = Some r0 -> shell_root w = Some r0).
Proof.
  induction obj as [|[i p m sel|x] obj IH]; intros validate vl n w0 extra w;
    [| |discriminate].
  - intros [= <-]. simpl. rewrite Nat.add_0_r. repeat split; auto.
    intros j c Hj. exists c. split; [exact Hj|].
    repeat split. exists []. now rewrite app_nil_r.
  - cbn [build_loop].
    set (step := if Nat.eqb n 0 then _ else _).
    destruct step as [[w1 a]|] eqn:Es; [|discriminate].
    assert (G : exists P K, add_node w0 i P K = Ok (w1, a)).
    { subst step. destruct (Nat.eqb n 0); [eauto|].
      destruct (locals_get _ extra p); [eauto|discriminate]. }
    destruct G as (P & K & G).
    destruct (add_node_grows _ _ _ _ G) as (_ & L1 & C1 & R1).
    destruct (locals_set extra i a); [|discriminate].
    intros H. destruct (IH _ _ _ _ _ _ H) as (L2 & C2 & R2).
    repeat split.
    + rewrite L2, L1. simpl. lia.
    + intros j c Hj. destruct (C1 j c Hj) as (c1 & Hj1 & G1).
      destruct (C2 j c1 Hj1) as (c2 & Hj2 & G2).
      exists c2. split; [exact Hj2|]. eapply cell_grown_trans; eassumption.
    + auto.
Qed.

(** X20.  Whenever [from_tuple] returns a shell for a tuple that is not
    empty, validated or not: the first record was named ['root']; the
    store holds one node per record; and the root of the shell is the
    first node, a plain ['root'] in id mode with selection [['root']] and
    parent [None], whatever parent, mode and selection the first record
    carried. *)
Theorem rebuilt_root_is_plain (i p m sel : pyval) (rest : list item)
    (validate : bool) (w : world) :
  from_tuple (Pack i p m sel :: rest) validate = Ok w ->
  i = VStr "root"
  /\ length (heap w) = S (length rest)
  /\ shell_root w = Some 0
  /\ exists c, heap w !! 0 = Some c
               /\ c_id c = VStr "root" /\ c_parent c = Some VNone
               /\ c_mode c = VStr "id" /\ c_selection c = VList [VStr "root"].
Proof.
  unfold from_tuple.
  destruct (if validate then _ else _) as [val_list|]; [|discriminate].
  cbn [build_loop Nat.eqb].
  destruct (add_node empty_world i VNone []) as [[w1 a]|] eqn:E; [|discriminate].
  assert (G : i = VStr "root"
              /\ w1 = mkWorld [mkCell (VStr "root") (Some VNone) (VStr "id")
                                      (VList [VStr "root"]) VNone []] (Some 0)).
  { revert E. unfold add_node.
    destruct (varg i [TStr] (VStr "id")) eqn:V; [|discriminate].
    destruct (varg_named_inv _ _ _ V) as [_ [->|Hi]]; [discriminate|].
    unfold type_admits in Hi. simpl in Hi. rewrite orb_false_r in Hi.
    destruct (isinstance_str_inv _ Hi) as [nm ->].
    change (varg VNone [TMenuNode] (VStr "parent")) with (Ok (A:=bool) true).
    change (MenuNode_call (VStr nm) [])
      with (Ok (mkMenuNode (VStr nm) None (VStr "id") (VList [VStr nm]) VNone [])).
    cbn [mbind result_bind heap empty_world shell_root].
    destruct (py_eq (VStr nm) (VStr "root")) eqn:R; [|discriminate].
    apply py_eq_VStr in R. injection R as R. subst nm. intros [= <- _]. auto. }
  destruct G as [-> ->].
  destruct (locals_set [] (VStr "root") a); [|discriminate].
  intros H. destruct (build_loop_grows _ _ _ _ _ _ H) as (L & C & R).
  split; [reflexivity|]. split; [exact L|]. split; [now apply R|].
  destruct (C 0 _ eq_refl) as (c' & Hc & G1 & G2 & G3 & G4 & _).
  exists c'. auto.
Qed.

Lemma from_tuple_layout_then (t : MenuNode) (rest : list item) :
  rebuildable t = true ->
  from_tuple (map pack_of (preorder t) ++ rest) false
  = build_loop false [] (length (preorder t))
               (mkWorld (layout 0 (preorder t)) (Some 0))
               (bindings 0 (preorder t)) rest.
Proof.
  unfold rebuildable. intros H.
  apply andb_true_iff in H as [H Hn]. apply andb_true_iff in H as [H Hl].
  apply andb_true_iff in H as [Hr Hf].
  destruct (root_ok_inv t Hr) as (Hi & Hp & Hm & Hs & _).
  unfold from_tuple, preorder. rewrite descendants_eq in *.
  change (map pack_of (t :: flat_map preorder (children t)) ++ rest)
    with (pack_of t :: (map pack_of (flat_map preorder (children t)) ++ rest)).
  unfold pack_of at 1. rewrite Hi, Hp, Hm, Hs. simpl default.
  cbn [build_loop Nat.eqb].
  change (add_node empty_world (VStr "root") VNone [])
    with (Ok (mkWorld [mkCell (VStr "root") (Some VNone) (VStr "id")
                              (VList [VStr "root"]) VNone []] (Some 0), 0)).
  cbn [locals_set].
  rewrite build_forest
    with (pid := VStr "root") (pa := 0)
         (pc := mkCell (VStr "root") (Some VNone) (VStr "id")
                       (VList [VStr "root"]) VNone []);
    [|apply List.Forall_forall; intros; apply builds_all|lia|reflexivity|
     |reflexivity|reflexivity|reflexivity].
  - simpl. unfold cell_at. rewrite Hi, Hp, Hm, Hs. reflexivity.
  - unfold forest_ok. unfold node_fit. rewrite Hf. simpl.
    rewrite linked_children, Hi in Hl. rewrite Hl. simpl.
    unfold preorder in Hn. rewrite descendants_eq in Hn.
    simpl in Hn. rewrite Hi in Hn. exact Hn.
Qed.

(** X21.  Also without validation a record cannot name a parent that did
    not come before: after the records of a rebuildable menu, a record
    whose parent is an identifier borne by none of its nodes (and not the
    name of a variable of [from_tuple]) makes [from_tuple] raise
    [KeyError], whatever follows. *)
Theorem from_tuple_unseen_parent (t : MenuNode) (i p m sel : pyval) (rest : list item) :
  rebuildable t = true ->
  key_ok p = true ->
  py_in p (map id (preorder t)) = false ->
  from_tuple (map pack_of (preorder t) ++ Pack i p m sel :: rest) false
  = Raise KeyError.
Proof.
  intros Ht Hk Hp. rewrite (from_tuple_layout_then t _ Ht).
  destruct (key_ok_inv _ Hk) as [Hk1 Hk2].
  cbn [build_loop]. simpl length. cbn [Nat.eqb].
  rewrite (locals_get_extra _ _ _ Hk1 Hk2).
  now rewrite (assoc_bindings_fresh _ _ _ Hp).
Qed.

(** ** Flattening and rebuilding, taken together *)

(** X22.  When the root has a child and every node has its parent set,
    flattening raises nothing and yields exactly one record per node: the
    root's first, then, child by child in their order, each child's record
    followed by the records of its descendants. *)
Theorem flatten_one_record_per_node (r : MenuNode) :
  children r <> [] ->
  forallb parent_set (preorder r) = true ->
  raised (records (decompose_menu (mkMenuShell (Some r)))) = None
  /\ yielded (records (decompose_menu (mkMenuShell (Some r))))
     = pack_of r :: flat_map (fun c => map pack_of (preorder c)) (children r)
  /\ length (yielded (records (decompose_menu (mkMenuShell (Some r)))))
     = length (preorder r).
Proof.
  intros Hc Hp. rewrite (decompose_menu_preorder r Hc Hp).
  cbn [records yielded raised]. rewrite length_map.
  repeat split. cbn [preorder map]. f_equal. rewrite descendants_eq.
  clear Hc Hp. induction (children r) as [|c cs IH]; [reflexivity|].
  cbn [flat_map]. now rewrite map_app, IH.
Qed.

(** X23.  With [validate=True], flattening a menu and rebuilding it never
    gives a shell, whatever the menu. *)
Theorem validated_round_trip_never (t : MenuNode) (w : world) :
  raised (records (decompose_menu (mkMenuShell (Some t)))) = None ->
  from_tuple (yielded (records (decompose_menu (mkMenuShell (Some t))))) true <> Ok w.
Proof. apply roundtrip_validated_never. Qed.

End MoreProperties.

Lemma init_fresh_node_witness :
  @MenuNode_init literal_regex (VInt 7) (VBool false) (VList [VStr "y"])
                 (VStr "[0-9]") VNone VNone [] = Raise TypeError.
Proof.
  apply (proj1 (@init_fresh_node literal_regex (VInt 7) (VBool false) (VList [VStr "y"])
                  (VStr "[0-9]") VNone VNone [])).
  reflexivity.
Defined.

Lemma init_passthrough_both_or_none_witness :
  @MenuNode_init literal_regex (VStr "ask") (VBool false) (VList [VStr "y"]) VNone VNone
                 VNone [("mode", VStr "pattern"); ("selection", VList [VStr "a"])]
  = Ok (mkMenuNode (VStr "ask") None (VStr "pattern") (VList [VStr "a"]) VNone []).
Proof.
  apply (@init_passthrough_both_or_none literal_regex (VStr "ask") (VBool false)
           (VList [VStr "y"]) VNone VNone VNone (VStr "pattern") (VList [VStr "a"]));
    [reflexivity|vm_compute; lia].
Defined.

Lemma backs_undo_selects_witness :
  tracecmd (state (@select literal_regex
                     (state (@select literal_regex menu_pointer (VStr "yes")))
                     (VStr "sure")))
  = tracecmd menu_pointer ++ map str_token [VStr "yes"; VStr "sure"]
  /\ @run_ops literal_regex
       (state (@select literal_regex
                 (state (@select literal_regex menu_pointer (VStr "yes"))) (VStr "sure")))
       (repeat OpBack 2)
     = menu_pointer.
Proof.
  apply (@backs_undo_selects literal_regex menu_pointer _ [VStr "yes"; VStr "sure"]).
  reflexivity.
Defined.

Lemma pointer_stays_on_path_witness :
  let p := @run_ops literal_regex (MenuPointer_init (mkMenuShell (Some menu_root)))
             [OpSelect (VStr "yes"); OpBack; OpSelect (VStr "f-1")] in
  shell p = mkMenuShell (Some menu_root)
  /\ length (tracecmd p) = length (traceid p)
  /\ exists cur, node p = Some cur
                 /\ path_from menu_root (traceid p) cur
                 /\ In cur (preorder menu_root)
                 /\ Forall (fun n => In n (preorder menu_root)) (traceid p).
Proof.
  apply (@pointer_stays_on_path literal_regex (mkMenuShell (Some menu_root)) menu_root).
  reflexivity.
Defined.

Lemma roll_groups_by_mode_witness :
  exists d,
    roll (MenuPointer_init (mkMenuShell (Some menu_listed))) false = mkRolled [] (Ok d)
    /\ Forall (fun kv => fst kv = VStr "id" \/ fst kv = VStr "choice") d
    /\ forall m,
         dict_get (VStr m) d
         = if existsb (has_mode m) (children menu_listed)
           then Some (flat_map (listed m) (children menu_listed))
           else None.
Proof.
  apply (@roll_groups_by_mode (MenuPointer_init (mkMenuShell (Some menu_listed)))
           menu_listed false); reflexivity.
Defined.

Lemma roll_unhandled_mode_witness :
  roll menu_pointer true = mkRolled [PrintUnhandled] (Raise NotImplementedError).
Proof.
  apply (@roll_unhandled_mode menu_pointer menu_root true [menu_ask] menu_file
           [menu_quit]); reflexivity.
Defined.

Lemma menu_tree_reads_back_witness :
  read_view (fst (menu_tree (mkMenuShell (Some menu_root)))) = ids_of menu_root
  /\ snd (menu_tree (mkMenuShell (Some menu_root))) = []
  /\ menu_tree (mkMenuShell None) = (VNone, [(INFO, MsgNoMenuTree)]).
Proof.
  apply (@menu_tree_reads_back (mkMenuShell (Some menu_root)) menu_root); reflexivity.
Defined.

Lemma add_node_root_rules_witness :
  @add_node literal_regex root_world (VStr "root") (VObj CMenuNode 0)
            [("choice", VList [VStr "y"]); ("pattern", VStr "[0-9]")]
  = Raise (ValueError
             "Only single input mode option allowed. Arguments show 2 modes selected.")
  /\ @add_node literal_regex empty_world (VStr "root") (VObj CMenuNode 7)
               [("choice", VList [VStr "y"; VStr "n"]); ("run", VInt 5)]
     = Ok (mkWorld [mkCell (VStr "root") (Some VNone) (VStr "choice")
                           (VList [VStr "y"; VStr "n"]) (VInt 5) []] (Some 0), 0)
  /\ @add_node literal_regex root_world (VStr "root") VNone []
     = Raise (ValueError "Root Node for MenuShell already exists.").
Proof.
  split; [|split].
  - apply (proj1 (@add_node_root_rules literal_regex root_world (VStr "root")
                    (VObj CMenuNode 0)
                    [("choice", VList [VStr "y"]); ("pattern", VStr "[0-9]")] eq_refl)).
    reflexivity.
  - apply (proj1 (proj2 (@add_node_root_rules literal_regex empty_world (VStr "root")
                           (VObj CMenuNode 7)
                           [("choice", VList [VStr "y"; VStr "n"]); ("run", VInt 5)]
                           eq_refl)
                    (mkMenuNode (VStr "root") None (VStr "choice")
                                (VList [VStr "y"; VStr "n"]) (VInt 5) [])
                    eq_refl));
      reflexivity.
  - apply (proj1 (proj2 (proj2 (@add_node_root_rules literal_regex root_world (VStr "root")
                                  VNone [] eq_refl)
                           (mkMenuNode (VStr "root") None (VStr "id")
                                       (VList [VStr "root"]) VNone [])
                           eq_refl))).
    + reflexivity.
    + discriminate.
Defined.

Lemma add_node_attaches_witness :
  @add_node literal_regex root_world (VStr "a") (VObj CMenuNode 0)
            [("pattern", VStr "[0-9]"); ("label", VStr "x")]
  = Ok (mkWorld
          [mkCell (VStr "root") (Some VNone) (VStr "id") (VList [VStr "root"]) VNone [1];
           mkCell (VStr "a") (Some (VStr "root")) (VStr "pattern")
                  (VList [VStr "[0-9]"]) VNone []]
          (Some 0), 1)
  /\ @add_node literal_regex root_world (VStr "a") (VObj CMenuNode 0)
               [("choice", VList [VStr "y"; VInt 2]); ("run", VInt 5)]
     = Ok (mkWorld
             [mkCell (VStr "root") (Some VNone) (VStr "id") (VList [VStr "root"]) VNone [1];
              mkCell (VStr "a") (Some (VStr "root")) (VStr "choice")
                     (VList [VStr "y"; VInt 2]) (VInt 5) []]
             (Some 0), 1).
Proof.
  split.
  - apply (proj1 (@add_node_attaches literal_regex root_world (VStr "a") 0
                    (mkCell (VStr "root") (Some VNone) (VStr "id") (VList [VStr "root"])
                            VNone [])
                    [("pattern", VStr "[0-9]"); ("label", VStr "x")] eq_refl eq_refl)
                 (mkMenuNode (VStr "a") None (VStr "pattern") (VList [VStr "[0-9]"])
                             VNone [])).
    reflexivity.
  - apply (proj2 (@add_node_attaches literal_regex root_world (VStr "a") 0
                    (mkCell (VStr "root") (Some VNone) (VStr "id") (VList [VStr "root"])
                            VNone [])
                    [] eq_refl eq_refl)
                 [VStr "y"; VInt 2] (VInt 5));
      reflexivity.
Defined.

Lemma add_node_preserves_witness :
  1 = length (heap root_world)
  /\ length (heap root_world_a) = S (length (heap root_world))
  /\ (forall j c, heap root_world !! j = Some c ->
                  exists c', heap root_world_a !! j = Some c' /\ cell_grown c c')
  /\ (forall r0, shell_root root_world = Some r0 -> shell_root root_world_a = Some r0).
Proof.
  apply (@add_node_preserves literal_regex root_world root_world_a (VStr "a")
           (VObj CMenuNode 0) [] 1).
  reflexivity.
Defined.

Lemma decompose_after_add_child_witness :
  decompose_menu
    (mkMenuShell (Some (add_child lone_root
                          (mkMenuNode (VStr "a") None (VStr "id") (VList [VStr "a"])
                                      VNone []))))
  = mkDecomposed
      (mkGenerated
         [Pack (VStr "root") VNone (VStr "id") (VList [VStr "root"]);
          Pack (VStr "a") (VStr "root") (VStr "id") (VList [VStr "a"])]
         None)
      [].
Proof.
  apply (@decompose_after_add_child lone_root
           (mkMenuNode (VStr "a") None (VStr "id") (VList [VStr "a"]) VNone []));
    reflexivity.
Defined.

Lemma check_filepath_by_extension_witness :
  @check_filepath literal_regex (VStr "menu.pkl.bak")
  = Raise (ValueError "Invalid filetype given. Expected pickle-equivalent, got bak.").
Proof.
  apply (proj1 (@check_filepath_by_extension literal_regex "menu.pkl" "bak" eq_refl)).
Defined.


Lemma pkl_lone_root_witness :
  @to_pkl literal_regex (mkMenuShell (Some lone_root)) (VStr "m.pickle")
  = Ok ("m.pickle", [Pack (VStr "root") VNone (VStr "id") (VList [VStr "root"]);
                     NodeObj lone_root])
  /\ ((fun _ : string =>
         Ok [Pack (VStr "root") VNone (VStr "id") (VList [VStr "root"]); NodeObj lone_root])
        "m.pickle"
      = Ok [Pack (VStr "root") VNone (VStr "id") (VList [VStr "root"]); NodeObj lone_root] ->
      @from_pkl literal_regex
        (fun _ => Ok [Pack (VStr "root") VNone (VStr "id") (VList [VStr "root"]);
                      NodeObj lone_root])
        (VStr "m.pickle") = Raise TypeError).
Proof.
  apply (@pkl_lone_root literal_regex lone_root VNone (VStr "m.pickle")); reflexivity.
Defined.

Lemma validation_wants_one_id_witness :
  exists a,
    Forall (fun it => exists p m sel, it = Pack (VStr a) p m sel)
      [Pack (VStr "root") VNone (VStr "id") (VList [VStr "root"]);
       Pack (VStr "root") (VStr "ghost") (VStr "id") (VList [VStr "root"])].
Proof.
  apply (@validation_wants_one_id _ [VStr "root"; VStr "root"]). reflexivity.
Defined.

Lemma from_tuple_validated_iff_witness :
  @from_tuple literal_regex [Pack (VStr "root") VNone (VStr "id") (VList [VStr "root"])] true
  = Ok root_world.
Proof.
  apply (proj2 (@from_tuple_validated_iff literal_regex _ _)).
  right. exists VNone, (VStr "id"), (VList [VStr "root"]). repeat split.
Defined.

Lemma rebuilt_root_is_plain_witness :
  VStr "root" = VStr "root"
  /\ length (heap (mkWorld (layout 0 (preorder menu_root)) (Some 0))) = 5
  /\ shell_root (mkWorld (layout 0 (preorder menu_root)) (Some 0)) = Some 0
  /\ exists c, heap (mkWorld (layout 0 (preorder menu_root)) (Some 0)) !! 0 = Some c
               /\ c_id c = VStr "root" /\ c_parent c = Some VNone
               /\ c_mode c = VStr "id" /\ c_selection c = VList [VStr "root"].
Proof.
  apply (@rebuilt_root_is_plain literal_regex (VStr "root") (VStr "anything")
           (VStr "choice") (VList [VStr "go"])
           (map pack_of (descendants menu_root)) false).
  reflexivity.
Defined.

Lemma from_tuple_unseen_parent_witness :
  @from_tuple literal_regex
    (map pack_of (preorder menu_root)
     ++ [Pack (VStr "late") (VStr "ghost") (VStr "id") (VList [VStr "late"])]) false
  = Raise KeyError.
Proof.
  apply (@from_tuple_unseen_parent literal_regex menu_root); reflexivity.
Defined.

Lemma flatten_one_record_per_node_witness :
  raised (records (decompose_menu (mkMenuShell (Some menu_root)))) = None
  /\ yielded (records (decompose_menu (mkMenuShell (Some menu_root))))
     = pack_of menu_root
       :: flat_map (fun c => map pack_of (preorder c)) (children menu_root)
  /\ length (yielded (records (decompose_menu (mkMenuShell (Some menu_root)))))
     = length (preorder menu_root).
Proof.
  apply (@flatten_one_record_per_node menu_root); [discriminate|reflexivity].
Defined.

Lemma validated_round_trip_never_witness :
  @from_tuple literal_regex
    (yielded (records (decompose_menu (mkMenuShell (Some menu_root))))) true
  <> Ok empty_world.
Proof.
  apply (@validated_round_trip_never literal_regex menu_root). reflexivity.
Defined.
